(** * gobuster (yBuster fork): a shallow embedding of the enumeration core

    The development follows the Go sources:
    - [libgobuster]: the run state ([Gobuster], [Options], [Result]), the
      request counters, the worker loop, the wordlist scan of [Start], the
      expected-request count of [getWordlist] and the wayback URL dedup of
      [parseWaybackUrls];
    - [gobusterdir]: the directory plugin, i.e. the wildcard calibration
      of [Setup] and the classification and rendering of [ResultToString];
    - the validation of the options ([validate] and the functions it
      calls), the request ([makeRequest]) and the two consumers of the
      command ([errorWorker], [resultWorker]).

    Go strings are byte strings: they are modelled by [string] (a list of
    8-bit [ascii]).  Go's [int] is modelled by [Z] with the 64-bit
    two's-complement wrap-around written out ([wrap]).  Go maps used as
    sets or dictionaries are stdpp's [gset] and [gmap]. *)

From Stdlib Require Import ZArith String Ascii List Lia DecimalString Sorted.
From stdpp Require Import gmap strings list fin_maps.
Import ListNotations.

Local Open Scope string_scope.
Local Open Scope list_scope.

#[local] Arguments String.append !_ _ / : simpl nomatch.

(** ** Go's [int] *)

Definition int_bits : Z := 64.
Definition int_min : Z := - 2 ^ (int_bits - 1).
Definition int_max : Z := 2 ^ (int_bits - 1) - 1.

(** Two's-complement wrap-around of a mathematical integer into [int]. *)
Definition wrap (x : Z) : Z :=
  ((x + 2 ^ (int_bits - 1)) `mod` 2 ^ int_bits - 2 ^ (int_bits - 1))%Z.

Definition in_int (x : Z) : Prop := (int_min <= x <= int_max)%Z.

(** ** Package [strings] (byte-wise functions of the Go library) *)

(** [strings.HasPrefix(s, p)] *)
Definition strings_HasPrefix (s p : string) : bool := String.prefix p s.

(** Reversal of a byte string, used for the suffix functions. *)
Fixpoint string_rev (s : string) : string :=
  match s with
  | EmptyString => EmptyString
  | String c s' => string_rev s' +:+ String c EmptyString
  end.

(** [strings.HasSuffix(s, p)] *)
Definition strings_HasSuffix (s p : string) : bool :=
  String.prefix (string_rev p) (string_rev s).

(** [strings.Contains(s, sub)]: [sub] occurs at some byte offset of [s]. *)
Fixpoint strings_Contains (s sub : string) : bool :=
  String.prefix sub s ||
  match s with
  | EmptyString => false
  | String _ s' => strings_Contains s' sub
  end.

(** A byte that continues a UTF-8 sequence (10xxxxxx). *)
Definition utf8_continuation (c : ascii) : bool :=
  let n := N_of_ascii c in ((128 <=? n) && (n <? 192))%N.

Definition starts_rune (s : string) : bool :=
  match s with
  | EmptyString => true
  | String c _ => negb (utf8_continuation c)
  end.

(** [strings.ReplaceAll(s, old, new)] for a non-empty [old]: the
    non-overlapping occurrences of [old] are replaced from left to right.
    [skip] counts the bytes of the occurrence just replaced that are still
    to be dropped. *)
Fixpoint replace_from (old new : string) (skip : nat) (s : string) : string :=
  match s with
  | EmptyString => EmptyString
  | String c s' =>
      match skip with
      | S k => replace_from old new k s'
      | O =>
          if String.prefix old s
          then new +:+ replace_from old new (String.length old - 1) s'
          else String c (replace_from old new 0 s')
      end
  end.

(** With an empty [old], Go inserts [new] before the first byte and after
    every UTF-8 sequence (on well-formed UTF-8: before every byte that
    starts a rune, and at the end). *)
Fixpoint insert_between (new : string) (s : string) : string :=
  match s with
  | EmptyString => EmptyString
  | String c s' =>
      String c ((if starts_rune s' then new else EmptyString)
                +:+ insert_between new s')
  end.

Definition strings_ReplaceAll (s old new : string) : string :=
  match old with
  | EmptyString => new +:+ insert_between new s
  | String _ _ => replace_from old new 0 s
  end.

(** [strings.TrimSpace]: leading and trailing white space, as defined by
    Unicode, is removed.  Go decodes runes from UTF-8, and every white
    space rune has exactly one well-formed encoding, so that the function
    strips these byte sequences:
    U+0009..U+000D, U+0020 (one byte); U+0085 = C2 85, U+00A0 = C2 A0;
    U+1680 = E1 9A 80; U+2000..U+200A = E2 80 80..8A; U+2028 = E2 80 A8;
    U+2029 = E2 80 A9; U+202F = E2 80 AF; U+205F = E2 81 9F;
    U+3000 = E3 80 80. *)
Definition space1 (a : ascii) : bool :=
  let n := N_of_ascii a in (((9 <=? n) && (n <=? 13)) || (n =? 32))%N.

Definition space2 (a b : ascii) : bool :=
  let x := N_of_ascii a in
  let y := N_of_ascii b in
  ((x =? 194) && ((y =? 133) || (y =? 160)))%N.

Definition space3 (a b c : ascii) : bool :=
  let x := N_of_ascii a in
  let y := N_of_ascii b in
  let z := N_of_ascii c in
  (((x =? 225) && (y =? 154) && (z =? 128))
   || ((x =? 226) && (y =? 128) &&
       (((128 <=? z) && (z <=? 138)) || (z =? 168) || (z =? 169) || (z =? 175)))
   || ((x =? 226) && (y =? 129) && (z =? 159))
   || ((x =? 227) && (y =? 128) && (z =? 128)))%N.

(** [strings.TrimLeftFunc(s, unicode.IsSpace)] *)
Fixpoint trim_left (s : string) : string :=
  match s with
  | EmptyString => EmptyString
  | String a s1 =>
      if space1 a then trim_left s1
      else
        match s1 with
        | EmptyString => s
        | String b s2 =>
            if space2 a b then trim_left s2
            else
              match s2 with
              | EmptyString => s
              | String c s3 => if space3 a b c then trim_left s3 else s
              end
        end
  end.

(** The same on the reversed string: a white space rune that ends the
    string is seen last byte first. *)
Fixpoint trim_left_rev (s : string) : string :=
  match s with
  | EmptyString => EmptyString
  | String a s1 =>
      if space1 a then trim_left_rev s1
      else
        match s1 with
        | EmptyString => s
        | String b s2 =>
            if space2 b a then trim_left_rev s2
            else
              match s2 with
              | EmptyString => s
              | String c s3 => if space3 c b a then trim_left_rev s3 else s
              end
        end
  end.

(** [strings.TrimRightFunc(s, unicode.IsSpace)] *)
Definition trim_right (s : string) : string :=
  string_rev (trim_left_rev (string_rev s)).

Definition strings_TrimSpace (s : string) : string :=
  trim_right (trim_left s).

(** [len(s)] of a Go string, as an [int]. *)
Definition len (s : string) : Z := Z.of_nat (String.length s).


(** ** Package [fmt]: the verbs used by the plugin *)

(** Decimal digits of an integer, with a leading minus sign ([%d]). *)
Definition fmt_d (z : Z) : string := NilZero.string_of_int (Z.to_int z).

Fixpoint string_repeat (c : ascii) (n : nat) : string :=
  match n with
  | O => EmptyString
  | S k => String c (string_repeat c k)
  end.

(** [%<w>d]: right-justified in a field of [w] bytes, padded with blanks. *)
Definition fmt_wd (w : nat) (z : Z) : string :=
  let d := fmt_d z in
  string_repeat " " (w - String.length d) +:+ d.

(** [%0<w>d]: padded with zeros after the sign. *)
Definition fmt_0wd (w : nat) (z : Z) : string :=
  if (z <? 0)%Z
  then
    let d := fmt_d (- z) in
    String "-" (string_repeat "0" (w - 1 - String.length d) +:+ d)
  else
    let d := fmt_d z in
    string_repeat "0" (w - String.length d) +:+ d.

(** [%-<w>s]: left-justified in a field of [w] runes; used on ASCII
    constants only, for which runes are bytes. *)
Definition fmt_lws (w : nat) (s : string) : string :=
  s +:+ string_repeat " " (w - String.length s).

(** ** Package [sort] *)

Fixpoint insert_sorted (x : string) (l : list string) : list string :=
  match l with
  | [] => [x]
  | y :: l' => if String.leb x y then x :: l else y :: insert_sorted x l'
  end.

(** [sort.Strings]: increasing byte-wise lexicographic order.  Equal
    strings are indistinguishable, so the result does not depend on the
    sorting algorithm. *)
Fixpoint sort_Strings (l : list string) : list string :=
  match l with
  | [] => []
  | x :: l' => insert_sorted x (sort_Strings l')
  end.

(** ** Package [regexp]: the two patterns of the sources *)

(** Offset of the last occurrence of [needle] in [s]. *)
Fixpoint last_index (needle s : string) : option nat :=
  match s with
  | EmptyString => if String.prefix needle s then Some O else None
  | String _ s' =>
      match last_index needle s' with
      | Some i => Some (S i)
      | None => if String.prefix needle s then Some O else None
      end
  end.

(** [FindStringSubmatch] for the title pattern of [Setup] and
    [ResultToString], which reads, with blanks between its parts,
    [(?s)  .*  <title>  (?P<Title> .* )  <\/title>  .*] :
    [None] when the pattern does not match, else the text of the group.
    The flag [s] lets [.] match a newline; no flag makes the match
    case-insensitive.  The pattern is anchored by its leading [.*], and
    both [.*] before [</title>] are greedy: the first one stops at the last
    [<title>] that is still followed by a [</title>], the group then runs
    to the last [</title>] of the text. *)
Definition title_FindStringSubmatch (s : string) : option string :=
  match last_index "</title>" s with
  | None => None
  | Some j =>
      match last_index "<title>" (String.substring 0 j s) with
      | None => None
      | Some i => Some (String.substring (i + 7) (j - (i + 7)) s)
      end
  end.

(** The static-asset pattern of [parseWaybackUrls]: under the flag [i], a
    run [[^/]+], a dot, one of the extensions below, and a trailing [.*]
    (which does not match a newline). *)
Definition asset_extensions : list string :=
  ["jpg"; "jpeg"; "woff"; "woff2"; "ico"; "css"; "eot"; "pdf"; "ttf"; "gif";
   "doc"; "docx"; "xls"; "xlsx"; "svg"; "csv"; "mp3"; "mp4"; "wma"; "ppt";
   "png"; "pptx"; "swf"].

Definition ascii_upper (c : ascii) : ascii :=
  let n := N_of_ascii c in
  if ((97 <=? n) && (n <=? 122))%N then ascii_of_N (n - 32) else c.

(** [fold_prefix e s]: [s] starts with the lower-case literal [e] under
    the flag [i].  A letter matches itself and its upper-case form; under
    Go's simple case folding [s] also matches U+017F (bytes C5 BF). *)
Fixpoint fold_prefix (e s : string) : bool :=
  match e with
  | EmptyString => true
  | String x e' =>
      match s with
      | EmptyString => false
      | String c s' =>
          if Ascii.eqb c x || Ascii.eqb c (ascii_upper x)
          then fold_prefix e' s'
          else
            match s' with
            | String c' s'' =>
                Ascii.eqb x "s" && (N_of_ascii c =? 197)%N
                && (N_of_ascii c' =? 191)%N && fold_prefix e' s''
            | EmptyString => false
            end
      end
  end.

Definition has_asset_ext (s : string) : bool :=
  existsb (fun e => fold_prefix e s) asset_extensions.

(** After at least one byte of [[^/]+]: some later point of the run is
    followed by a dot and an extension. *)
Fixpoint run_dot_ext (s : string) : bool :=
  match s with
  | EmptyString => false
  | String c s' =>
      (Ascii.eqb c "." && has_asset_ext s')
      || (negb (Ascii.eqb c "/") && run_dot_ext s')
  end.

(** The pattern matches at the head of [s]. *)
Definition asset_match_here (s : string) : bool :=
  match s with
  | EmptyString => false
  | String c s' => negb (Ascii.eqb c "/") && run_dot_ext s'
  end.

Definition newline : ascii := ascii_of_N 10.

(** [rgx.ReplaceAllString(s, "")]: every leftmost non-overlapping match is
    removed.  A match ends where its trailing [.*] ends: at the next
    newline or at the end of the text.  [inside] tells that the scan is
    inside a match.  A run [[^/]+] may itself contain newlines; at such a
    newline the pattern matches again (the rest of the run, the dot and
    the extension follow it), so that resuming the scan there removes what
    the longer match removes. *)
Fixpoint asset_ReplaceAllString (inside : bool) (s : string) : string :=
  match s with
  | EmptyString => EmptyString
  | String c s' =>
      if inside && negb (Ascii.eqb c newline)
      then asset_ReplaceAllString true s'
      else if asset_match_here s
           then asset_ReplaceAllString true s'
           else String c (asset_ReplaceAllString false s')
  end.

(** ** Package [net/url] *)

(** [url.Values] *)
Abbreviation Values := (gmap string (list string)).

(** The fields of a parsed [url.URL] that the sources read; [Query] is
    the result of the method [u.Query()]. *)
Module url.
Record URL := mkURL {
  Scheme : string;
  Host : string;
  Path : string;
  Query : Values
}.

(** [strings.Cut(s, sep)] for a one-byte separator: the text before the
    first [sep], and the text after it when there is one. *)
Fixpoint cut (sep : ascii) (s : string) : string * option string :=
  match s with
  | EmptyString => (EmptyString, None)
  | String c s' =>
      if Ascii.eqb c sep then (EmptyString, Some s')
      else let '(before, after) := cut sep s' in (String c before, after)
  end.

Definition is_letter (c : ascii) : bool :=
  let n := N_of_ascii c in
  (((97 <=? n) && (n <=? 122)) || ((65 <=? n) && (n <=? 90)))%N.

Definition is_scheme_mark (c : ascii) : bool :=
  let n := N_of_ascii c in
  (((48 <=? n) && (n <=? 57)) || (n =? 43) || (n =? 45) || (n =? 46))%N.

Definition ascii_lower (c : ascii) : ascii :=
  let n := N_of_ascii c in
  if ((65 <=? n) && (n <=? 90))%N then ascii_of_N (n + 32) else c.

Fixpoint ToLower (s : string) : string :=
  match s with
  | EmptyString => EmptyString
  | String c s' => String (ascii_lower c) (ToLower s')
  end.

(** The loop of [getScheme]: [s] is the text from byte [i] on.  [None] is
    the error "missing protocol scheme", else the scheme and the rest. *)
Fixpoint getScheme_loop (rawURL : string) (i : nat) (s : string)
  : option (string * string) :=
  match s with
  | EmptyString => Some (EmptyString, rawURL)
  | String c s' =>
      if is_letter c then getScheme_loop rawURL (S i) s'
      else if is_scheme_mark c then
        if (i =? 0)%nat then Some (EmptyString, rawURL)
        else getScheme_loop rawURL (S i) s'
      else if Ascii.eqb c ":" then
        if (i =? 0)%nat then None
        else Some (String.substring 0 i rawURL, s')
      else Some (EmptyString, rawURL)
  end.

Definition getScheme (rawURL : string) : option (string * string) :=
  getScheme_loop rawURL 0 rawURL.

Definition has_control_byte (s : string) : bool :=
  existsb (fun c => let n := N_of_ascii c in ((n <? 32) || (n =? 127))%N)
    (list_ascii_of_string s).

Fixpoint count_byte (c : ascii) (s : string) : nat :=
  match s with
  | EmptyString => O
  | String x s' => (if Ascii.eqb x c then 1 else 0) + count_byte c s'
  end.

Fixpoint plus_to_space (s : string) : string :=
  match s with
  | EmptyString => EmptyString
  | String c s' =>
      String (if Ascii.eqb c "+" then " "%char else c) (plus_to_space s')
  end.

(** The pairs of a raw query, split at [&]; [fuel] bounds the number of
    pairs and is taken as the length of the text. *)
Fixpoint query_pairs (fuel : nat) (query : string) : list string :=
  match fuel with
  | O => []
  | S fuel' =>
      match cut "&" query with
      | (key, Some rest) => key :: query_pairs fuel' rest
      | (key, None) => [key]
      end
  end.

(** [ParseQuery] (Go 1.17 and later) on a raw query without [%] escapes:
    a pair that holds a semicolon or has an empty text is skipped, a key
    and its value are separated by the first [=], and [+] stands for a
    blank. *)
Definition ParseQuery (query : string) : Values :=
  fold_left
    (fun (m : Values) pair =>
       if strings_Contains pair ";" then m
       else if String.eqb pair "" then m
       else
         let '(key, value) := cut "=" pair in
         let key := plus_to_space key in
         let value := plus_to_space (default EmptyString value) in
         <[key := default [] (m !! key) ++ [value]]> m)
    (query_pairs (String.length query) query) ∅.

(** A model of [url.Parse] followed by [Query()], for the examples below.
    It follows the library on texts without [%] escapes, without user
    information ([@]) and without bracketed hosts, whose host is made of
    letters, digits, dots and dashes with an optional decimal port: the
    fragment is cut off at the first [#]; a control byte is an error; the
    scheme is read by [getScheme] and lowered; the query is cut off at the
    first [?]; a text with a scheme and no leading slash is opaque; a
    colon in the first segment of a relative path is an error; after [//]
    comes the host, up to the next slash; what is left is the path. *)
Definition Parse (rawURL : string) : option URL :=
  let u := fst (cut "#" rawURL) in
  if has_control_byte u then None
  else if String.eqb u "*" then Some (mkURL "" "" "*" ∅)
  else
    match getScheme u with
    | None => None
    | Some (scheme, rest) =>
        let scheme := ToLower scheme in
        let '(rest, rawQuery) :=
          if strings_HasSuffix rest "?" && (count_byte "?" rest =? 1)%nat
          then (String.substring 0 (String.length rest - 1) rest, EmptyString)
          else let '(r, q) := cut "?" rest in (r, default EmptyString q) in
        if negb (strings_HasPrefix rest "/") && negb (String.eqb scheme "")
        then Some (mkURL scheme "" "" (ParseQuery rawQuery))
        else if negb (strings_HasPrefix rest "/")
                && strings_Contains (fst (cut "/" rest)) ":"
        then None
        else if strings_HasPrefix rest "//"
        then
          let authority := String.substring 2 (String.length rest - 2) rest in
          let '(host, path) :=
            match cut "/" authority with
            | (h, Some p) => (h, String "/" p)
            | (h, None) => (h, EmptyString)
            end in
          Some (mkURL scheme host path (ParseQuery rawQuery))
        else Some (mkURL scheme "" rest (ParseQuery rawQuery))
    end.
End url.

(** ** Package [libgobuster]: the data model *)

Module libgobuster.

(** Modelled from the spec: the declarations of [intSet] and [stringSet]
    are in a file of the package that is missing from the sources.  The
    specification speaks of the excluded status codes and of the
    configured extensions as sets, and the sources use them as such: a
    value wraps a Go map [Set] whose keys are the members, [Contains] is
    membership, [len(Set)] the number of members and [range Set] visits
    each member once. *)
Definition intSet := gset Z.
Definition stringSet := gset string.

Definition intSet_Contains (s : intSet) (i : Z) : bool := bool_decide (i ∈ s).

(** [Options]: the fields read by the functions modelled here. *)
Record Options := mkOptions {
  ExtensionsParsed : stringSet;
  ExcludedStatusCodesParsed : intSet;
  Threads : Z;
  URL : string;
  Wordlist : string;
  Verbose : bool;
  UseSlash : bool;
  WaybackUrls : string;
  ExcludeString : string;
  BlankExtension : bool;
  OutputFolder : string
}.

(** [Result]: the three pointer fields are [None] when nil. *)
Record Result := mkResult {
  Entity : string;
  Status : Z;
  Extra : string;
  Size : option Z;
  Content : option string;
  IsEntityURL : bool;
  RedirectURL : option string
}.

(** [BusterTarget] *)
Record BusterTarget := mkBusterTarget {
  IsURL : bool;
  Target : string
}.

(** [Gobuster]: the run state.  The HTTP client, the context, the mutex,
    the plugin and the two channels are not state of the functions below;
    [WildcardStatusCode] is a [*int], [None] when nil. *)
Record Gobuster := mkGobuster {
  Opts : Options;
  requestsExpected : Z;
  requestsIssued : Z;
  IsWildcard : bool;
  IsWildcardFileByContentLength : bool;
  IsWildcardDirByContentLength : bool;
  WildcardFileContentLength : Z;
  WildcardDirContentLength : Z;
  IsWildcardFileByTitle : bool;
  IsWildcardDirByTitle : bool;
  WildcardFileTitle : string;
  WildcardDirTitle : string;
  WildcardStatusCode : option Z;
  errorCount : Z;
  waybackParsed : string
}.

Definition set_requestsIssued (n : Z) (g : Gobuster) : Gobuster :=
  mkGobuster (Opts g) (requestsExpected g) n (IsWildcard g)
    (IsWildcardFileByContentLength g) (IsWildcardDirByContentLength g)
    (WildcardFileContentLength g) (WildcardDirContentLength g)
    (IsWildcardFileByTitle g) (IsWildcardDirByTitle g)
    (WildcardFileTitle g) (WildcardDirTitle g) (WildcardStatusCode g)
    (errorCount g) (waybackParsed g).

Definition set_requestsExpected (n : Z) (g : Gobuster) : Gobuster :=
  mkGobuster (Opts g) n (requestsIssued g) (IsWildcard g)
    (IsWildcardFileByContentLength g) (IsWildcardDirByContentLength g)
    (WildcardFileContentLength g) (WildcardDirContentLength g)
    (IsWildcardFileByTitle g) (IsWildcardDirByTitle g)
    (WildcardFileTitle g) (WildcardDirTitle g) (WildcardStatusCode g)
    (errorCount g) (waybackParsed g).

Definition set_errorCount (n : Z) (g : Gobuster) : Gobuster :=
  mkGobuster (Opts g) (requestsExpected g) (requestsIssued g) (IsWildcard g)
    (IsWildcardFileByContentLength g) (IsWildcardDirByContentLength g)
    (WildcardFileContentLength g) (WildcardDirContentLength g)
    (IsWildcardFileByTitle g) (IsWildcardDirByTitle g)
    (WildcardFileTitle g) (WildcardDirTitle g) (WildcardStatusCode g)
    n (waybackParsed g).

(** The state of a fresh run ([NewGobuster]): Go's zero values. *)
Definition NewGobuster (opts : Options) : Gobuster :=
  mkGobuster opts 0 0 false false false 0 0 false false "" "" None 0 "".

(** *** The request counters

    Each of the three functions runs under the exclusive lock [g.mu], so
    that a concurrent run is a sequence of these atomic steps. *)

Definition incrementRequests (g : Gobuster) : Gobuster :=
  set_requestsIssued (wrap (requestsIssued g + 1)) g.

Definition DecrementRequests (g : Gobuster) : Gobuster :=
  if (0 <? requestsIssued g)%Z
  then set_requestsIssued (wrap (requestsIssued g - 1)) g
  else g.

Definition IncrementErrorCount (g : Gobuster) : Gobuster :=
  set_errorCount (wrap (errorCount g + 1)) g.

(** An interleaving of the workers' increments and the error consumer's
    decrements. *)
Inductive counter_op := OpIncrement | OpDecrement.

Definition counter_step (g : Gobuster) (o : counter_op) : Gobuster :=
  match o with
  | OpIncrement => incrementRequests g
  | OpDecrement => DecrementRequests g
  end.

Definition run_counter (ops : list counter_op) (g : Gobuster) : Gobuster :=
  fold_left counter_step ops g.

Definition increments (ops : list counter_op) : nat :=
  List.length (List.filter (fun o => match o with OpIncrement => true | _ => false end) ops).

(** *** Errors, files and the plugin interface *)

(** A Go [error], by its message. *)
Definition error := string.

(** [fmt.Errorf(prefix + "%v", err)] *)
Definition Errorf (prefix : string) (err : error) : error := prefix +:+ err.

(** A line-oriented file as the sources use it: [os.Open] may fail; a
    [bufio.Scanner] yields the lines [file_lines] one by one ([Text()]) and
    then stops, [Err()] being [file_scan_err]; [Seek(0, 0)] may fail; a
    second scanner after the rewind yields the same lines. *)
Record File := mkFile {
  file_open_err : option error;
  file_lines : list string;
  file_scan_err : option error;
  file_seek_err : option error
}.

(** A clock reading [time.Now()], by the fields that are printed. *)
Record Time := mkTime {
  Year : Z; Month : Z; Day : Z; Hour : Z; Minute : Z; Second : Z
}.

(** What a call leaves behind: a value, or a run-time panic (a nil
    pointer dereference). *)
Inductive outcome (A : Type) : Type :=
| Panics : outcome A
| Returns : A -> outcome A.
Arguments Panics {A}.
Arguments Returns {A} _.

(** [GobusterPlugin].  [Setup] changes the run state through its pointer
    and may return an error; [ResultToString] returns the two lines and the
    status, its error being nil on every path that returns; the clock it
    reads is an explicit argument. *)
Record GobusterPlugin := mkPlugin {
  plugin_Setup : Gobuster -> Gobuster * option error;
  plugin_Process : Gobuster -> BusterTarget -> error + list Result;
  plugin_ResultToString :
    Time -> Gobuster -> Result -> outcome (string * string * Z)
}.

(** *** [worker] *)

(** What one iteration of the worker's [select] observes: the context is
    done, or a receive on [wordChan] completes, with a candidate or with
    [ok = false] when the channel is closed and drained. *)
Inductive select_event :=
| ContextDone
| Received (busterTarget : BusterTarget)
| ChannelClosed.

(** A send of the worker on [g.errorChan] or [g.resultChan]. *)
Inductive send :=
| SendError (err : error)
| SendResult (r : Result).

(** How the worker stands when the observed events are used up. *)
Inductive worker_status :=
| InLoop              (* back at the [select], waiting *)
| ReturnedOnDone      (* [return] in the case [<-g.context.Done()] *)
| ReturnedOnClose.    (* [return] in the case [!ok] *)

Section Worker.

Variable plugin : GobusterPlugin.

(** The loop of [worker], on the events its [select] observes one after
    the other; the sends are assumed to complete (their consumers drain the
    two channels).  The result is the run state, the sends in order, and
    the status of the loop. *)
Fixpoint worker (events : list select_event) (g : Gobuster)
  : Gobuster * list send * worker_status :=
  match events with
  | [] => (g, [], InLoop)
  | ContextDone :: _ => (g, [], ReturnedOnDone)
  | ChannelClosed :: _ => (g, [], ReturnedOnClose)
  | Received busterTarget :: events' =>
      let g1 := incrementRequests g in
      match plugin_Process plugin g1 busterTarget with
      | inl err =>
          (* do not exit and continue *)
          let '(g2, sends, st) := worker events' g1 in
          (g2, SendError err :: sends, st)
      | inr res =>
          let '(g2, sends, st) := worker events' g1 in
          (g2, List.map SendResult res ++ sends, st)
      end
  end.

End Worker.

(** *** [getWordlist] and the wordlist scan of [Start] *)

(** The first loop of [getWordlist]: [(lines, wordExtensionCount)]. *)
Definition countWords (texts : list string) : Z * Z :=
  fold_left
    (fun '(lines, wordExtensionCount) text =>
       let word := strings_TrimSpace text in
       if String.eqb word "" then (lines, wordExtensionCount)
       else
         (wrap (lines + 1),
          if strings_Contains word "%EXT%"
          then wrap (wordExtensionCount + 1)
          else wordExtensionCount))
    texts (0%Z, 0%Z).

(** [len(g.Opts.ExtensionsParsed.Set)] *)
Definition lenExtensions (g : Gobuster) : Z :=
  Z.of_nat (size (ExtensionsParsed (Opts g))).

(** The value assigned to [g.requestsExpected]. *)
Definition expectedRequests (g : Gobuster) (texts : list string) : Z :=
  let '(lines, wordExtensionCount) := countWords texts in
  if BlankExtension (Opts g)
  then wrap (lines + wrap (wordExtensionCount * lenExtensions g))
  else wrap (wrap (lines + wrap (wordExtensionCount * lenExtensions g))
             - wordExtensionCount).

(** [getWordlist]: the run state it leaves, and the error or the lines of
    the scanner it returns.  [stdin] holds the lines of standard input. *)
Definition getWordlist (stdin : list string) (wordlist : File) (g : Gobuster)
  : Gobuster * (error + list string) :=
  if String.eqb (Wordlist (Opts g)) "-" then (g, inr stdin)
  else
    match file_open_err wordlist with
    | Some err => (g, inl (Errorf "failed to open wordlist: " err))
    | None =>
        match file_scan_err wordlist with
        | Some serr =>
            (g, inl (Errorf "failed to scan word list for extensions: " serr))
        | None =>
            let g1 := set_requestsIssued 0 g in
            let g2 :=
              set_requestsExpected
                (expectedRequests g1 (file_lines wordlist)) g1 in
            match file_seek_err wordlist with
            | Some err => (g2, inl (Errorf "failed to rewind wordlist: " err))
            | None => (g2, inr (file_lines wordlist))
            end
        end
    end.

Definition target (isURL : bool) (s : string) : BusterTarget :=
  mkBusterTarget isURL s.

(** The candidates that one iteration of the [WordScan] loop sends on
    [wordChan], in order.  [exts] is the order in which this iteration's
    [range] visits [g.Opts.ExtensionsParsed.Set]. *)
Definition wordTargets (g : Gobuster) (exts : list string) (text : string)
  : list BusterTarget :=
  let word := strings_TrimSpace text in
  (* Skip "comment" (starts with #), as well as empty lines *)
  if negb (strings_HasPrefix word "#") && (0 <? len word)%Z then
    if strings_Contains word "%EXT%" then
      (if BlankExtension (Opts g)
       then [target false (strings_ReplaceAll word ".%EXT%" "")]
       else [])
      ++ List.map (fun ext => target false (strings_ReplaceAll word "%EXT%" ext))
           exts
    else [target false word]
  else [].

(** The [WordScan] loop from its iteration [i] on.  [done i] tells whether
    iteration [i] finds the context done, in which case the loop is left;
    [range_order i] is the order of the [range] over the extension set in
    iteration [i] (Go leaves it unspecified).  Each send is assumed to
    complete: the workers are receiving. *)
Fixpoint WordScan (g : Gobuster) (done : nat -> bool)
    (range_order : nat -> list string) (i : nat) (texts : list string)
  : list BusterTarget :=
  match texts with
  | [] => []
  | text :: texts' =>
      if done i then []
      else wordTargets g (range_order i) text
           ++ WordScan g done range_order (S i) texts'
  end.

(** The [WaybackScan] loop, likewise. *)
Fixpoint WaybackScan (done : nat -> bool) (i : nat) (texts : list string)
  : list BusterTarget :=
  match texts with
  | [] => []
  | text :: texts' =>
      if done i then []
      else
        let url := strings_TrimSpace text in
        (if negb (strings_HasPrefix url "#") && (0 <? len url)%Z
         then [target true url] else [])
        ++ WaybackScan done (S i) texts'
  end.

(** *** [parseWaybackUrls]: the URL dedup *)

(** [ParsedURL] *)
Module ParsedURL.
Record t := mk {
  Host : string;
  Path : string;
  Query : Values;
  URL : string
}.
End ParsedURL.

(** [len(q)] of a [url.Values]: its number of keys. *)
Definition lenValues (q : Values) : Z := Z.of_nat (size q).

(** The keys of a [url.Values] in the order of [map_to_list], which stands
    for the unspecified order of a Go [range] ([queryKeysLoop] is shown
    below not to depend on it). *)
Definition keysValues (q : Values) : list string := (map_to_list q).*1.

(** The loop [for parsedURLQueryKey := range parsedURL.Query] with its
    [break]; [isQueryMatching] is the flag it assigns. *)
Fixpoint queryKeysLoop (keys : list string) (valueQuery : Values)
    (isQueryMatching : bool) : bool :=
  match keys with
  | [] => isQueryMatching
  | parsedURLQueryKey :: keys' =>
      match valueQuery !! parsedURLQueryKey with
      | Some _ => queryKeysLoop keys' valueQuery true
      | None => false
      end
  end.

(** The value of [isQueryMatching] after the body of the inner loop over
    [uniqueParsedUrls], for one [value] and the current [parsedURL]. *)
Definition isQueryMatching (value parsedURL : ParsedURL.t) : bool :=
  if String.eqb (ParsedURL.Host value) (ParsedURL.Host parsedURL)
     && String.eqb (ParsedURL.Path value) (ParsedURL.Path parsedURL)
  then
    if (0 <? lenValues (ParsedURL.Query parsedURL))%Z
       && (lenValues (ParsedURL.Query value)
           =? lenValues (ParsedURL.Query parsedURL))%Z
    then queryKeysLoop (keysValues (ParsedURL.Query parsedURL))
           (ParsedURL.Query value) false
    else if (lenValues (ParsedURL.Query value) =? 0)%Z
            && (lenValues (ParsedURL.Query parsedURL) =? 0)%Z
         then true
         else false
  else false.

(** [isURLMatching]: the scan of [uniqueParsedUrls] stops at the first
    matching entry. *)
Definition isURLMatching (uniqueParsedUrls : list ParsedURL.t)
    (parsedURL : ParsedURL.t) : bool :=
  existsb (fun value => isQueryMatching value parsedURL) uniqueParsedUrls.

(** The loop that fills [uniqueParsedUrls]. *)
Fixpoint uniqueLoop (parsedUrls uniqueParsedUrls : list ParsedURL.t)
  : list ParsedURL.t :=
  match parsedUrls with
  | [] => uniqueParsedUrls
  | parsedURL :: rest =>
      if (List.length uniqueParsedUrls =? 0)%nat
      then uniqueLoop rest (uniqueParsedUrls ++ [parsedURL])
      else if isURLMatching uniqueParsedUrls parsedURL
           then uniqueLoop rest uniqueParsedUrls
           else uniqueLoop rest (uniqueParsedUrls ++ [parsedURL])
  end.

Section Wayback.

(** [url.Parse] of the Go library: [None] when it returns an error. *)
Variable url_Parse : string -> option url.URL.

(** The body of the loop over [waybackLines]. *)
Definition parseLine (line : string) : ParsedURL.t :=
  let '(host, path, query) :=
    match url_Parse line with
    | None => (line, "", (∅ : Values))
    | Some u => (url.Host u, url.Path u, url.Query u)
    end in
  ParsedURL.mk host (asset_ReplaceAllString false path) query
    (asset_ReplaceAllString false line).

Definition parsedUrls (waybackLines : list string) : list ParsedURL.t :=
  List.map parseLine (sort_Strings waybackLines).

Definition uniqueParsedUrls (waybackLines : list string) : list ParsedURL.t :=
  uniqueLoop (parsedUrls waybackLines) [].

(** The list [uniqueUrls] that [parseWaybackUrls] writes out, from the
    lines it has read: what the specification calls [Normalize]. *)
Definition uniqueUrls (waybackLines : list string) : list string :=
  List.map ParsedURL.URL (uniqueParsedUrls waybackLines).

(** [strings.TrimSuffix(s, "/")] *)
Definition TrimSuffix_slash (s : string) : string :=
  if strings_HasSuffix s "/"
  then String.substring 0 (String.length s - 1) s
  else s.

(** [fmt.Sprintf] of the Go library at a format, an [int32] and three
    strings, as the sources call it to make up the name of a file. *)
Definition NameFormatter := string -> Z -> string -> string -> string -> string.

(** The name given to the parsed file: the output folder is part of the
    format; [stamp] is [int32(time.Now().Unix())]. *)
Definition waybackParsedName (fmt_Sprintf : NameFormatter) (g : Gobuster)
    (stamp : Z) (parsedMainURL : url.URL) : string :=
  let sanitizedHost :=
    strings_ReplaceAll (strings_ReplaceAll (url.Host parsedMainURL) "." "_")
      ":" "_" in
  let sanitizedPath :=
    if negb (String.eqb (url.Path parsedMainURL) "/")
    then strings_ReplaceAll (TrimSuffix_slash (url.Path parsedMainURL)) "/" "_"
    else "" in
  fmt_Sprintf
    (OutputFolder (Opts g)
     +:+ "/output_waybackurls/waybackurls_parsed_%d_%s_%s%s.txt")
    stamp (url.Scheme parsedMainURL) sanitizedHost sanitizedPath.

(** What the run reads and writes for the wayback corpus: the corpus
    file, the clock, [fmt.Sprintf] as it makes up the name of the parsed
    file, and the failures of creating, flushing, reopening and rescanning
    the parsed file. *)
Record WaybackEnv := mkWaybackEnv {
  wb_source : File;
  wb_stamp : Z;
  wb_Sprintf : NameFormatter;
  wb_create_err : option error;
  wb_flush_err : option error;
  wb_reopen_err : option error;
  wb_rescan_err : option error;
  wb_reseek_err : option error
}.

Definition set_waybackParsed (name : string) (g : Gobuster) : Gobuster :=
  mkGobuster (Opts g) (requestsExpected g) (requestsIssued g) (IsWildcard g)
    (IsWildcardFileByContentLength g) (IsWildcardDirByContentLength g)
    (WildcardFileContentLength g) (WildcardDirContentLength g)
    (IsWildcardFileByTitle g) (IsWildcardDirByTitle g)
    (WildcardFileTitle g) (WildcardDirTitle g) (WildcardStatusCode g)
    (errorCount g) name.

(** [parseWaybackUrls]: the run state, and the error or the lines written
    to the parsed file.  [url.Parse(g.Opts.URL)] has its error dropped, and
    a nil result is dereferenced. *)
Definition parseWaybackUrls (env : WaybackEnv) (g : Gobuster)
  : outcome (Gobuster * (error + list string)) :=
  let src := wb_source env in
  match file_open_err src with
  | Some err => Returns (g, inl (Errorf "failed to open wayback urls: " err))
  | None =>
  match file_seek_err src with
  | Some err => Returns (g, inl (Errorf "failed to rewind wayback urls: " err))
  | None =>
  match file_scan_err src with
  | Some err => Returns (g, inl (Errorf "failed to scan wayback urls: " err))
  | None =>
      let uniqueUrls := uniqueUrls (file_lines src) in
      match url_Parse (URL (Opts g)) with
      | None => Panics
      | Some parsedMainURL =>
          let g1 :=
            set_waybackParsed
              (waybackParsedName (wb_Sprintf env) g (wb_stamp env)
                 parsedMainURL)
              g in
          match wb_create_err env with
          | Some err =>
              Returns (g1, inl (Errorf "failed to create wayback parsed: " err))
          | None =>
              match wb_flush_err env with
              | Some err =>
                  Returns (g1, inl (Errorf "failed to write wayback urls: " err))
              | None => Returns (g1, inr uniqueUrls)
              end
          end
      end
  end end end.

(** A line read back by a scanner has one trailing carriage return
    dropped. *)
Definition dropCR (s : string) : string :=
  if strings_HasSuffix s (String (ascii_of_N 13) EmptyString)
  then String.substring 0 (String.length s - 1) s
  else s.

(** The count of [getWaybackUrls]. *)
Definition countLines (texts : list string) : Z :=
  fold_left
    (fun lines text =>
       if String.eqb (strings_TrimSpace text) "" then lines
       else wrap (lines + 1))
    texts 0%Z.

(** [getWaybackUrls]: the lines written by [parseWaybackUrls] are read
    back (they hold no newline, since they come from a line scanner). *)
Definition getWaybackUrls (env : WaybackEnv) (g : Gobuster)
  : outcome (Gobuster * (error + list string)) :=
  match parseWaybackUrls env g with
  | Panics => Panics
  | Returns (g1, inl err) =>
      Returns (g1, inl (Errorf "failed to parse wayback urls: " err))
  | Returns (g1, inr written) =>
      match wb_reopen_err env with
      | Some err =>
          Returns (g1, inl (Errorf "failed to open parsed wayback: " err))
      | None =>
          let texts := List.map dropCR written in
          match wb_rescan_err env with
          | Some serr =>
              Returns (g1, inl (Errorf "failed to scan parsed way back: " serr))
          | None =>
              let g2 := set_requestsIssued 0
                          (set_requestsExpected (countLines texts) g1) in
              match wb_reseek_err env with
              | Some err =>
                  Returns
                    (g2, inl (Errorf "failed to rewind parsed wayback: " err))
              | None => Returns (g2, inr texts)
              end
          end
      end
  end.

(** *** [Start] *)

(** The environment of a run. *)
Record StartEnv := mkStartEnv {
  env_wayback : WaybackEnv;
  env_stdin : list string;
  env_wordlist : File;
  env_wayback_done : nat -> bool;
  env_word_done : nat -> bool;
  env_range_order : nat -> list string
}.

(** What [Start] leaves behind when it returns: the returned error, the
    candidates sent on [wordChan] in order, whether [wordChan],
    [g.resultChan] and [g.errorChan] have been closed, and the run state as
    the producer leaves it (the workers' increments apart). *)
Record Started := mkStarted {
  start_err : option error;
  start_sent : list BusterTarget;
  start_closed : bool;
  start_state : Gobuster
}.

(** The control flow of [Start] on the producer's side.  The workers run
    [worker] on what is sent; [Start] waits for them before it closes the
    two output channels. *)
Definition Start (plugin : GobusterPlugin) (env : StartEnv) (g : Gobuster)
  : outcome Started :=
  match plugin_Setup plugin g with
  | (g0, Some err) => Returns (mkStarted (Some err) [] false g0)
  | (g0, None) =>
      let wayback :=
        if negb (String.eqb (WaybackUrls (Opts g0)) "")
        then
          match getWaybackUrls (env_wayback env) g0 with
          | Panics => Panics
          | Returns (g1, inl err) => Returns (g1, inl err)
          | Returns (g1, inr texts) =>
              Returns (g1, inr (WaybackScan (env_wayback_done env) 0 texts))
          end
        else Returns (g0, inr [])
      in
      match wayback with
      | Panics => Panics
      | Returns (g1, inl err) => Returns (mkStarted (Some err) [] false g1)
      | Returns (g1, inr sent1) =>
          match getWordlist (env_stdin env) (env_wordlist env) g1 with
          | (g2, inl err) => Returns (mkStarted (Some err) sent1 false g2)
          | (g2, inr texts) =>
              Returns
                (mkStarted None
                   (sent1 ++ WordScan g2 (env_word_done env)
                               (env_range_order env) 0 texts)
                   true g2)
          end
      end
  end.

End Wayback.

End libgobuster.

(** ** Package [gobusterdir]: the directory plugin *)

Module gobusterdir.
Import libgobuster.

Definition set_WildcardStatusCode (p : option Z) (g : Gobuster) : Gobuster :=
  mkGobuster (Opts g) (requestsExpected g) (requestsIssued g) (IsWildcard g)
    (IsWildcardFileByContentLength g) (IsWildcardDirByContentLength g)
    (WildcardFileContentLength g) (WildcardDirContentLength g)
    (IsWildcardFileByTitle g) (IsWildcardDirByTitle g)
    (WildcardFileTitle g) (WildcardDirTitle g) p
    (errorCount g) (waybackParsed g).

(** [g.IsWildcardFileByTitle = true; g.WildcardFileTitle = title] *)
Definition set_WildcardFileByTitle (title : string) (g : Gobuster) : Gobuster :=
  mkGobuster (Opts g) (requestsExpected g) (requestsIssued g) (IsWildcard g)
    (IsWildcardFileByContentLength g) (IsWildcardDirByContentLength g)
    (WildcardFileContentLength g) (WildcardDirContentLength g)
    true (IsWildcardDirByTitle g)
    title (WildcardDirTitle g) (WildcardStatusCode g)
    (errorCount g) (waybackParsed g).

(** [g.IsWildcardFileByContentLength = true; g.WildcardFileContentLength = n] *)
Definition set_WildcardFileByContentLength (n : Z) (g : Gobuster) : Gobuster :=
  mkGobuster (Opts g) (requestsExpected g) (requestsIssued g) (IsWildcard g)
    true (IsWildcardDirByContentLength g)
    n (WildcardDirContentLength g)
    (IsWildcardFileByTitle g) (IsWildcardDirByTitle g)
    (WildcardFileTitle g) (WildcardDirTitle g) (WildcardStatusCode g)
    (errorCount g) (waybackParsed g).

(** [g.IsWildcardDirByTitle = true; g.WildcardDirTitle = title] *)
Definition set_WildcardDirByTitle (title : string) (g : Gobuster) : Gobuster :=
  mkGobuster (Opts g) (requestsExpected g) (requestsIssued g) (IsWildcard g)
    (IsWildcardFileByContentLength g) (IsWildcardDirByContentLength g)
    (WildcardFileContentLength g) (WildcardDirContentLength g)
    (IsWildcardFileByTitle g) true
    (WildcardFileTitle g) title (WildcardStatusCode g)
    (errorCount g) (waybackParsed g).

(** [g.IsWildcardDirByContentLength = true; g.WildcardDirContentLength = n] *)
Definition set_WildcardDirByContentLength (n : Z) (g : Gobuster) : Gobuster :=
  mkGobuster (Opts g) (requestsExpected g) (requestsIssued g) (IsWildcard g)
    (IsWildcardFileByContentLength g) true
    (WildcardFileContentLength g) n
    (IsWildcardFileByTitle g) (IsWildcardDirByTitle g)
    (WildcardFileTitle g) (WildcardDirTitle g) (WildcardStatusCode g)
    (errorCount g) (waybackParsed g).

(** What [g.GetRequest] returns when its error is nil: [makeRequest] then
    returns four non-nil pointers. *)
Record Response := mkResponse {
  resp_Status : Z;
  resp_Size : Z;
  resp_Content : string;
  resp_Redirect : string
}.

(** The four values of [uuid.New().String()] drawn by [Setup], in the
    order of the calls (36 bytes each, hexadecimal digits and dashes). *)
Record Uuids := mkUuids {
  uuid_File16 : string;
  uuid_File8 : string;
  uuid_Dir16 : string;
  uuid_Dir8 : string
}.

(** The title kept from a probe or a result body: the group of the title
    pattern with its white space trimmed, or the empty string when the
    pattern does not match. *)
Definition cleanTitle (content : string) : string :=
  match title_FindStringSubmatch content with
  | Some rs1 => strings_TrimSpace rs1
  | None => ""
  end.

(** [strings.ReplaceAll(u, "-", "")[0:n]] *)
Definition uuidPrefix (n : nat) (u : string) : string :=
  String.substring 0 n (strings_ReplaceAll u "-" "").

(** [strings.TrimPrefix(s, "/")] *)
Definition TrimPrefix_slash (s : string) : string :=
  match s with
  | String "/" s' => s'
  | _ => s
  end.

Section Plugin.

(** The transport: [g.GetRequest(url)], an error or a response. *)
Variable GetRequest : string -> error + Response.

(** [url.Parse] of the Go library. *)
Variable url_Parse : string -> option url.URL.

(** [Setup]: the wildcard calibration.  The run state is changed through
    the pointer [g], also when an error is returned. *)
Definition Setup (uuids : Uuids) (g : Gobuster) : Gobuster * option error :=
  match GetRequest (URL (Opts g)) with
  | inl err =>
      (g, Some ("unable to connect to " +:+ URL (Opts g) +:+ ": " +:+ err))
  | inr _ =>
  let g := set_WildcardStatusCode (Some 0%Z) g in

  let uuidFile16 := uuidPrefix 16 (uuid_File16 uuids) in
  let urlFile16 := URL (Opts g) +:+ uuidFile16 in
  match GetRequest urlFile16 with
  | inl errFile16 => (g, Some errFile16)
  | inr respFile16 =>
  let cleanWildcardContentFile16 :=
    strings_ReplaceAll (resp_Content respFile16) urlFile16 "" in
  let cleanTitleFile16 := cleanTitle (resp_Content respFile16) in

  let uuidFile8 := uuidPrefix 8 (uuid_File8 uuids) in
  let urlFile8 := URL (Opts g) +:+ uuidFile8 in
  match GetRequest urlFile8 with
  | inl errFile8 => (g, Some errFile8)
  | inr respFile8 =>
  let cleanWildcardContentFile8 :=
    strings_ReplaceAll (resp_Content respFile8) urlFile8 "" in
  let cleanTitleFile8 := cleanTitle (resp_Content respFile8) in

  let g :=
    if (resp_Status respFile16 =? resp_Status respFile8)%Z then
      let g := set_WildcardStatusCode (Some (resp_Status respFile16)) g in
      if negb (String.eqb cleanTitleFile16 "")
         && String.eqb cleanTitleFile16 cleanTitleFile8
      then set_WildcardFileByTitle cleanTitleFile16 g
      else if (len cleanWildcardContentFile16
               =? len cleanWildcardContentFile8)%Z
           then set_WildcardFileByContentLength
                  (len cleanWildcardContentFile16) g
           else g
    else g in

  let uuidDir16 := uuidPrefix 15 (uuid_Dir16 uuids) +:+ "/" in
  let urlDir16 := URL (Opts g) +:+ uuidDir16 in
  match GetRequest urlDir16 with
  | inl errDir16 => (g, Some errDir16)
  | inr respDir16 =>
  let cleanWildcardContentDir16 :=
    strings_ReplaceAll (resp_Content respDir16) urlDir16 "" in
  let cleanTitleDir16 := cleanTitle (resp_Content respDir16) in

  let uuidDir8 := uuidPrefix 7 (uuid_Dir8 uuids) +:+ "/" in
  let urlDir8 := URL (Opts g) +:+ uuidDir8 in
  match GetRequest urlDir8 with
  | inl errDir8 => (g, Some errDir8)
  | inr respDir8 =>
  let cleanWildcardContentDir8 :=
    strings_ReplaceAll (resp_Content respDir8) urlDir8 "" in
  let cleanTitleDir8 := cleanTitle (resp_Content respDir8) in

  let g :=
    if (resp_Status respDir16 =? resp_Status respDir8)%Z then
      let g := set_WildcardStatusCode (Some (resp_Status respDir16)) g in
      if negb (String.eqb cleanTitleDir16 "")
         && String.eqb cleanTitleDir16 cleanTitleDir8
      then set_WildcardDirByTitle cleanTitleDir16 g
      else if (len cleanWildcardContentDir16
               =? len cleanWildcardContentDir8)%Z
           then set_WildcardDirByContentLength
                  (len cleanWildcardContentDir16) g
           else g
    else g in

  (g, None)
  end end end end end.

(** [Process]; the choice of a random user agent only changes a header of
    the request and is left to the transport. *)
Definition Process (g : Gobuster) (busterTarget : BusterTarget)
  : error + list Result :=
  let suffix := if UseSlash (Opts g) then "/" else "" in
  let '(entity, isEntityURL, url) :=
    if negb (IsURL busterTarget) then
      let word := TrimPrefix_slash (Target busterTarget) in
      let entity := word +:+ suffix in
      (entity, false, URL (Opts g) +:+ entity)
    else (Target busterTarget, true, Target busterTarget) in
  match GetRequest url with
  | inl err => inl err
  | inr resp =>
      inr [mkResult entity (resp_Status resp) "" (Some (resp_Size resp))
             (Some (resp_Content resp)) isEntityURL
             (Some (resp_Redirect resp))]
  end.

(** [ResultToString], first part: the flag [isFalsePositive].  A nil
    [g.WildcardStatusCode] or [r.Content] that is dereferenced makes the
    call panic. *)
Definition isFalsePositive (g : Gobuster) (r : Result) : outcome bool :=
  let isDir := strings_HasSuffix (Entity r) "/" in
  match WildcardStatusCode g with
  | None => Panics
  | Some wildcardStatusCode =>
  if (Status r =? wildcardStatusCode)%Z then
    if isDir then
      if IsWildcardDirByTitle g then
        match Content r with
        | None => Panics
        | Some content =>
            match title_FindStringSubmatch content with
            | Some rsDir1 =>
                let cleanTitleDir := strings_TrimSpace rsDir1 in
                Returns (String.eqb cleanTitleDir (WildcardDirTitle g))
            | None => Returns false
            end
        end
      else if IsWildcardDirByContentLength g then
        let entity :=
          if negb (IsEntityURL r) then URL (Opts g) +:+ Entity r
          else Entity r in
        match Content r with
        | None => Panics
        | Some content =>
            let cleanWildcardContentDir :=
              strings_ReplaceAll content entity "" in
            Returns (len cleanWildcardContentDir
                     =? WildcardDirContentLength g)%Z
        end
      else Returns false
    else
      if IsWildcardFileByTitle g then
        match Content r with
        | None => Panics
        | Some content =>
            match title_FindStringSubmatch content with
            | Some rsFile1 =>
                let cleanTitleFile := strings_TrimSpace rsFile1 in
                Returns (String.eqb cleanTitleFile (WildcardFileTitle g))
            | None => Returns false
            end
        end
      else if IsWildcardFileByContentLength g then
        let entity :=
          if negb (IsEntityURL r) then URL (Opts g) +:+ Entity r
          else Entity r in
        match Content r with
        | None => Panics
        | Some content =>
            let cleanWildcardContentFile :=
              strings_ReplaceAll content entity "" in
            Returns (len cleanWildcardContentFile
                     =? WildcardFileContentLength g)%Z
        end
      else Returns false
  else Returns false
  end.

(** [hasExcludeString] *)
Definition hasExcludeString (g : Gobuster) (r : Result) : outcome bool :=
  if negb (String.eqb (ExcludeString (Opts g)) "") then
    match Content r with
    | None => Panics
    | Some content =>
        Returns (strings_Contains content (ExcludeString (Opts g)))
    end
  else Returns false.

(** The prefix written in verbose mode. *)
Definition verbosePrefix (g : Gobuster) (r : Result)
    (isFalsePositive hasExcludeString : bool) : string :=
  if Verbose (Opts g) then
    if isFalsePositive then fmt_lws 16 "FALSE POSITIVE"
    else if negb (intSet_Contains (ExcludedStatusCodesParsed (Opts g)) (Status r))
            && negb hasExcludeString
         then fmt_lws 16 "FOUND"
         else fmt_lws 16 "MISSED"
  else "".

(** The suffix ["  ->  " + redirect] of both lines. *)
Definition redirectSuffix (redirectURL : string) : string :=
  if negb (String.eqb redirectURL "") then "  ->  " +:+ redirectURL else "".

(** The display line after the verbose prefix. *)
Definition displayLine (t : Time) (g : Gobuster) (r : Result)
    (redirectURL : string) : string :=
  "[" +:+ fmt_0wd 2 (Hour t) +:+ ":" +:+ fmt_0wd 2 (Minute t) +:+ ":"
  +:+ fmt_0wd 2 (Second t) +:+ "]"
  +:+ fmt_wd 8 (Status r)
  +:+ fmt_wd 12 (match Size r with Some size => size | None => 0%Z end) +:+ " B"
  +:+ "     -     "
  +:+ (if negb (IsEntityURL r) then URL (Opts g) else "")
  +:+ Entity r
  +:+ redirectSuffix redirectURL
  +:+ String newline EmptyString.

(** The entity of the archive line: scheme and host are stripped from an
    entity that is a URL. *)
Definition allBufEntity (r : Result) : string :=
  if IsEntityURL r then
    match url_Parse (Entity r) with
    | Some u =>
        let schemeHost := url.Scheme u +:+ "://" +:+ url.Host u +:+ "/" in
        strings_ReplaceAll (Entity r) schemeHost ""
    | None => Entity r
    end
  else Entity r.

(** The archive line. *)
Definition archiveLine (t : Time) (r : Result) (redirectURL : string)
  : string :=
  "[" +:+ fmt_d (Year t) +:+ "-" +:+ fmt_0wd 2 (Month t) +:+ "-"
  +:+ fmt_0wd 2 (Day t) +:+ " " +:+ fmt_0wd 2 (Hour t) +:+ ":"
  +:+ fmt_0wd 2 (Minute t) +:+ ":" +:+ fmt_0wd 2 (Second t) +:+ "] - "
  +:+ "/" +:+ allBufEntity r +:+ " - "
  +:+ fmt_d (Status r)
  +:+ redirectSuffix redirectURL
  +:+ String newline EmptyString.

(** [ResultToString].  [t] is the value of [time.Now()] read by the call.
    The writes go to in-memory buffers and cannot fail, so that the
    returned error is nil whenever the call returns; the result is the
    display line, the archive line and the status. *)
Definition ResultToString (t : Time) (g : Gobuster) (r : Result)
  : outcome (string * string * Z) :=
  match isFalsePositive g r with
  | Panics => Panics
  | Returns isFalsePositive =>
  match hasExcludeString g r with
  | Panics => Panics
  | Returns hasExcludeString =>
      let buf := verbosePrefix g r isFalsePositive hasExcludeString in
      if negb (intSet_Contains (ExcludedStatusCodesParsed (Opts g)) (Status r))
         && negb isFalsePositive && negb hasExcludeString
         || Verbose (Opts g)
      then
        match RedirectURL r with
        | None => Panics
        | Some redirectURL =>
            Returns (buf +:+ displayLine t g r redirectURL,
                     archiveLine t r redirectURL,
                     Status r)
        end
      else Returns (buf, "", Status r)
  end end.

(** The plugin [GobusterDir{}] of a run: [Setup] draws [uuids]. *)
Definition GobusterDir (uuids : Uuids) : GobusterPlugin :=
  mkPlugin (Setup uuids) Process ResultToString.

End Plugin.

End gobusterdir.

(** ** Auxiliary definitions of the statements and proofs *)

Import libgobuster gobusterdir.

(** A line of a wordlist that is not blank once trimmed. *)
Definition nonblank (text : string) : bool :=
  negb (String.eqb (strings_TrimSpace text) "").

(** A word that holds the extension placeholder. *)
Definition extword (text : string) : bool :=
  nonblank text && strings_Contains (strings_TrimSpace text) "%EXT%".

(** The number of lines that satisfy [p]. *)
Definition count_if (p : string -> bool) (texts : list string) : nat :=
  List.length (List.filter p texts).

(** What a worker sends for one candidate: the error of [Process], or
    each of its results. *)
Definition sendsOf (plugin : GobusterPlugin) (g : Gobuster)
    (busterTarget : BusterTarget) : list send :=
  match plugin_Process plugin g busterTarget with
  | inl err => [SendError err]
  | inr res => List.map SendResult res
  end.

(** The run state and the sends of a worker that handles the candidates
    [targets] one after the other, whatever [Process] returns. *)
Fixpoint handleAll (plugin : GobusterPlugin) (targets : list BusterTarget)
    (g : Gobuster) : Gobuster * list send :=
  match targets with
  | [] => (g, [])
  | busterTarget :: targets' =>
      let g1 := incrementRequests g in
      let '(g2, sends) := handleAll plugin targets' g1 in
      (g2, sendsOf plugin g1 busterTarget ++ sends)
  end.

(** One iteration of the loop of [worker] on the shared run state. *)
Definition worker_iteration (plugin : GobusterPlugin) (event : select_event)
    (g : Gobuster) : Gobuster * list send * worker_status :=
  match event with
  | ContextDone => (g, [], ReturnedOnDone)
  | ChannelClosed => (g, [], ReturnedOnClose)
  | Received busterTarget =>
      let g1 := incrementRequests g in
      (g1, sendsOf plugin g1 busterTarget, InLoop)
  end.

(** The pool of workers that [Start] spawns: the run state they share,
    the status of each worker (by its number), and what has been sent on
    the two output channels so far. *)
Record Pool := mkPool {
  pool_state : Gobuster;
  pool_status : nat -> worker_status;
  pool_sent : list send
}.

(** A step of the pool: the worker [w] observes [event] and runs one
    iteration of its loop, taken as one step; a worker that has returned
    observes nothing more. *)
Definition pool_step (plugin : GobusterPlugin) (p : Pool)
    (step : nat * select_event) : Pool :=
  let '(w, event) := step in
  match pool_status p w with
  | InLoop =>
      let '(g, sends, st) := worker_iteration plugin event (pool_state p) in
      mkPool g (fun w' => if (w' =? w)%nat then st else pool_status p w')
        (pool_sent p ++ sends)
  | _ => p
  end.

(** A run of the pool under a schedule: which worker observes which
    event, in the order of the iterations. *)
Definition pool_run (plugin : GobusterPlugin)
    (schedule : list (nat * select_event)) (p : Pool) : Pool :=
  fold_left (pool_step plugin) schedule p.

(** The plugin with another [Process]. *)
Definition withProcess (plugin : GobusterPlugin)
    (process : Gobuster -> BusterTarget -> error + list Result)
  : GobusterPlugin :=
  mkPlugin (plugin_Setup plugin) process (plugin_ResultToString plugin).

(** The context is never found done. *)
Definition never_done : nat -> bool := fun _ => false.

(** Example values. *)
Definition example_options : Options :=
  mkOptions ∅ ∅ 10 "http://t/" "words.txt" false false "" "" false "out".

(** The fresh run of [example_options]. *)
Definition example_run : Gobuster := NewGobuster example_options.

(** A run with the extensions [php] and [html] and the blank-extension
    option. *)
Definition ext_options : Options :=
  mkOptions {[ "php"; "html" ]} ∅ 10 "http://t/" "words.txt" false false ""
    "" true "out".

(** The fresh run of [ext_options]. *)
Definition ext_run : Gobuster := NewGobuster ext_options.

(** A wordlist file that is read without failure. *)
Definition example_wordlist : File :=
  mkFile None ["admin"; ""; "index.%EXT%"; " login "; "	"] None None.

(** An order of the [range] over the extensions of [ext_options]. *)
Definition example_range_order : nat -> list string :=
  fun _ => elements (ExtensionsParsed ext_options).

(** The two scopes of the wildcard calibration. *)
Inductive scope := FileScope | DirScope.

(** The scope of a result: directory-like when its entity ends with a
    slash. *)
Definition scopeOf (r : Result) : scope :=
  if strings_HasSuffix (Entity r) "/" then DirScope else FileScope.

(** The flags and the title that the run state holds for a scope. *)
Definition byTitle (s : scope) (g : Gobuster) : bool :=
  match s with
  | FileScope => IsWildcardFileByTitle g
  | DirScope => IsWildcardDirByTitle g
  end.

Definition byContentLength (s : scope) (g : Gobuster) : bool :=
  match s with
  | FileScope => IsWildcardFileByContentLength g
  | DirScope => IsWildcardDirByContentLength g
  end.

Definition storedTitle (s : scope) (g : Gobuster) : string :=
  match s with
  | FileScope => WildcardFileTitle g
  | DirScope => WildcardDirTitle g
  end.

(** The assignments of [Setup] to the fields of a scope. *)
Definition set_byTitle (s : scope) : string -> Gobuster -> Gobuster :=
  match s with
  | FileScope => set_WildcardFileByTitle
  | DirScope => set_WildcardDirByTitle
  end.

Definition set_byContentLength (s : scope) : Z -> Gobuster -> Gobuster :=
  match s with
  | FileScope => set_WildcardFileByContentLength
  | DirScope => set_WildcardDirByContentLength
  end.

(** The comparison of the two probes of a scope in [Setup], as a function
    of the scope: [url16], [url8] are the URLs of the probes and [resp16],
    [resp8] their responses. *)
Definition calibrated (s : scope) (url16 url8 : string)
    (resp16 resp8 : Response) (g : Gobuster) : Gobuster :=
  if (resp_Status resp16 =? resp_Status resp8)%Z then
    let g := set_WildcardStatusCode (Some (resp_Status resp16)) g in
    if negb (String.eqb (cleanTitle (resp_Content resp16)) "")
       && String.eqb (cleanTitle (resp_Content resp16))
            (cleanTitle (resp_Content resp8))
    then set_byTitle s (cleanTitle (resp_Content resp16)) g
    else if (len (strings_ReplaceAll (resp_Content resp16) url16 "")
             =? len (strings_ReplaceAll (resp_Content resp8) url8 ""))%Z
         then set_byContentLength s
                (len (strings_ReplaceAll (resp_Content resp16) url16 "")) g
         else g
  else g.

(** The URLs of the long and of the short probe of a scope. *)
Definition probeURLs (s : scope) (uuids : Uuids) (g : Gobuster)
  : string * string :=
  match s with
  | FileScope =>
      (URL (Opts g) +:+ uuidPrefix 16 (uuid_File16 uuids),
       URL (Opts g) +:+ uuidPrefix 8 (uuid_File8 uuids))
  | DirScope =>
      (URL (Opts g) +:+ uuidPrefix 15 (uuid_Dir16 uuids) +:+ "/",
       URL (Opts g) +:+ uuidPrefix 7 (uuid_Dir8 uuids) +:+ "/")
  end.

(** Four identifiers as [uuid.New().String()] prints them. *)
Definition example_uuids : Uuids :=
  mkUuids "0a1b2c3d-4e5f-4a6b-8c7d-9e0f1a2b3c4d"
          "11223344-5566-4778-8990-aabbccddeeff"
          "deadbeef-0000-4111-8222-333344445555"
          "cafebabe-1234-4567-89ab-cdef01234567".

(** A transport that answers the base URL and the four probes of
    [example_uuids] against the base URL [http://t/]. *)
Definition example_transport (file16 file8 dir16 dir8 : Response)
  : string -> error + Response :=
  fun url =>
    if String.eqb url "http://t/" then inr (mkResponse 200 0 "" "")
    else if String.eqb url "http://t/0a1b2c3d4e5f4a6b" then inr file16
    else if String.eqb url "http://t/11223344" then inr file8
    else if String.eqb url "http://t/deadbeef0000411/" then inr dir16
    else if String.eqb url "http://t/cafebab/" then inr dir8
    else inl "connection refused".

(** A response with the given status and body, without redirection. *)
Definition page (status : Z) (body : string) : Response :=
  mkResponse status (len body) body "".

(** A target whose file probes agree on status 200 with bodies that
    share neither a title nor a length, and whose directory probes
    disagree. *)
Definition transport_status_only : string -> error + Response :=
  example_transport (page 200 "not here") (page 200 "nothing at all")
    (page 404 "a") (page 403 "b").

(** A target that answers unknown files with status 200 and unknown
    directories with status 404, each with a title of its own. *)
Definition transport_two_statuses : string -> error + Response :=
  example_transport
    (page 200 "<title>Not Found</title>") (page 200 "<title>Not Found</title>")
    (page 404 "<title>Gone</title>") (page 404 "<title>Gone</title>").

(** A target whose pages spell the title tag in capitals. *)
Definition transport_capitals : string -> error + Response :=
  example_transport
    (page 200 "<TITLE>Not Found</TITLE>") (page 200 "<TITLE>Not Found</TITLE>")
    (page 404 "a") (page 403 "b").

(** A target after the specification's own example: equal status 200 and
    equal title on the file probes. *)
Definition transport_titled : string -> error + Response :=
  example_transport
    (page 200 "<html><title>Not Found</title> 0a1b</html>")
    (page 200 "<html><title>Not Found</title> 11</html>")
    (page 404 "a") (page 403 "b").

(** The result that [Process] builds for the word [admin] from a
    response with the given status and body. *)
Definition file_result (status : Z) (body : string) : Result :=
  mkResult "admin" status "" (Some (len body)) (Some body) false (Some "").

(** The same run in verbose mode. *)
Definition verbose_options : Options :=
  mkOptions ∅ ∅ 10 "http://t/" "words.txt" true false "" "" false "out".

(** The fresh run of [verbose_options]. *)
Definition verbose_run : Gobuster := NewGobuster verbose_options.

(** 9 March 2024, 07:05:01. *)
Definition example_time : Time := mkTime 2024 3 9 7 5 1.

(** Offset of the first place where [s] continues with [needle], the
    case of letters being ignored. *)
Fixpoint index_fold (needle s : string) : option nat :=
  if fold_prefix needle s then Some O
  else
    match s with
    | EmptyString => None
    | String _ s' => option_map S (index_fold needle s')
    end.

(** The title in the words of the specification: the first
    [<title>...</title>] match, case-insensitive, over several lines; that
    is, the text from the first opening tag to the first closing tag after
    it. *)
Definition specTitle (body : string) : option string :=
  match index_fold "<title>" body with
  | None => None
  | Some i =>
      let rest := String.substring (i + 7) (String.length body - (i + 7)) body in
      match index_fold "</title>" rest with
      | None => None
      | Some j => Some (String.substring 0 j rest)
      end
  end.

(** The run [example_run] after the calibration against
    [transport_status_only]. *)
Definition calibrated_run : Gobuster :=
  fst (Setup transport_status_only example_uuids example_run).

(** A literal without a slash. *)
Fixpoint slash_free (e : string) : bool :=
  match e with
  | EmptyString => true
  | String x e' => negb (Ascii.eqb x "/") && slash_free e'
  end.

(** The equivalence of the specification: same host, same
    (asset-stripped) path, same set of query keys. *)
Definition equivURL (value parsedURL : ParsedURL.t) : Prop :=
  ParsedURL.Host value = ParsedURL.Host parsedURL
  /\ ParsedURL.Path value = ParsedURL.Path parsedURL
  /\ dom (ParsedURL.Query value) = (dom (ParsedURL.Query parsedURL) : gset string).

(** The same, as a test. *)
Definition equivb (value parsedURL : ParsedURL.t) : bool :=
  String.eqb (ParsedURL.Host value) (ParsedURL.Host parsedURL)
  && String.eqb (ParsedURL.Path value) (ParsedURL.Path parsedURL)
  && bool_decide (dom (ParsedURL.Query value)
                  = (dom (ParsedURL.Query parsedURL) : gset string)).

(** The deduplication in the words of the specification: an entry is
    kept when no entry before it ([earlier]) is equivalent to it, so that
    the first occurrence of each class wins. *)
Fixpoint firstOccurrences (earlier parsedUrls : list ParsedURL.t)
  : list ParsedURL.t :=
  match parsedUrls with
  | [] => []
  | parsedURL :: rest =>
      (if existsb (fun value => equivb value parsedURL) earlier
       then [] else [parsedURL])
      ++ firstOccurrences (earlier ++ [parsedURL]) rest
  end.

(** A corpus on which a second pass of the dedup drops a URL. *)
Definition corpus_not_idempotent : list string :=
  ["http://h/?x=/p.jpg&y"; "http://h/?x=1"].

(** The entries kept so far stand for the entries seen so far. *)
Definition represents (earlier unique : list ParsedURL.t) : Prop :=
  forall p, existsb (fun value => equivb value p) earlier
            = existsb (fun value => equivb value p) unique.

(** The order of [sort.Strings]. *)
Definition string_le (a b : string) : Prop := String.leb a b = true.

(** The stripped content length that the run state holds for a scope. *)
Definition storedLength (s : scope) (g : Gobuster) : Z :=
  match s with
  | FileScope => WildcardFileContentLength g
  | DirScope => WildcardDirContentLength g
  end.

(** The text that [ResultToString] strips from the body of a result before
    it measures it: the entity, after the base URL when the entity is a
    word. *)
Definition strippedEntity (g : Gobuster) (r : Result) : string :=
  if negb (IsEntityURL r) then URL (Opts g) +:+ Entity r else Entity r.

(** A result is shown when its status is not excluded, it is no false
    positive and its body does not hold the exclude string. *)
Definition shown (g : Gobuster) (r : Result) (fp hx : bool) : bool :=
  negb (intSet_Contains (ExcludedStatusCodesParsed (Opts g)) (Status r))
  && negb fp && negb hx.

(** A target whose unknown files answer 200 with a page of constant
    length that echoes the requested URL and has no title. *)
Definition transport_echo : string -> error + Response :=
  example_transport
    (page 200 "No page at http://t/0a1b2c3d4e5f4a6b here")
    (page 200 "No page at http://t/11223344 here")
    (page 404 "a") (page 403 "b").

(** The URL that [Process] requests for a candidate. *)
Definition requestedURL (g : Gobuster) (busterTarget : BusterTarget) : string :=
  if IsURL busterTarget then Target busterTarget
  else URL (Opts g) +:+ TrimPrefix_slash (Target busterTarget)
       +:+ (if UseSlash (Opts g) then "/" else "").

(** The mark that the display line carries in verbose mode. *)
Definition verboseMark (g : Gobuster) (r : Result) (fp hx : bool) : string :=
  if fp then "FALSE POSITIVE"
  else if shown g r fp hx then "FOUND" else "MISSED".

(** A run that excludes the status 404. *)
Definition excluding_options : Options :=
  mkOptions ∅ {[ 404%Z ]} 10 "http://t/" "words.txt" false false "" "" false
    "out".

(** That run after [Setup]. *)
Definition excluding_run : Gobuster :=
  fst (Setup transport_status_only example_uuids (NewGobuster excluding_options)).

(** No entry of the list is equivalent to a later one. *)
Definition inequivalent (l : list ParsedURL.t) : Prop :=
  ForallOrdPairs (fun q p => ~ equivURL q p) l.

(** The number of decrements of an interleaving. *)
Definition decrements (ops : list counter_op) : nat :=
  List.length
    (List.filter (fun o => match o with OpDecrement => true | _ => false end) ops).

(** [errorWorker] of the command: for every error received from
    [g.Errors()], the error count is incremented and the issued count
    decremented (what it logs is left out). *)
Definition errorWorker (errors : list error) (g : Gobuster) : Gobuster :=
  fold_left (fun g (_ : error) => DecrementRequests (IncrementErrorCount g))
    errors g.

(** The errors among the sends of a worker. *)
Definition errorsOf (sends : list send) : list error :=
  omap (fun s => match s with SendError err => Some err | SendResult _ => None end)
    sends.

(** The number of requests that a trimmed line stands for in the count of
    [getWordlist]. *)
Definition expectedOf (g : Gobuster) (text : string) : nat :=
  if nonblank text then
    if extword text
    then ((if BlankExtension (Opts g) then 1 else 0)
          + size (ExtensionsParsed (Opts g)))%nat
    else 1%nat
  else 0%nat.

(** A wordlist with a comment line. *)
Definition commented_wordlist : File :=
  mkFile None ["# common names"; "admin"; "index.%EXT%"] None None.

(** A scan that finds the context done at its third line. *)
Definition done_at_2 : nat -> bool := fun i => (2 <=? i)%nat.

(** A format with the arguments put in the place of its verbs, one after
    the other: what [fmt.Sprintf] returns when each verb fits its argument
    ([%d] at an integer, [%s] at a string), printed in [args], and there
    are as many verbs as arguments. *)
Fixpoint Sprintf_verbs (format : string) (args : list string) : string :=
  match format with
  | EmptyString => EmptyString
  | String c rest =>
      if Ascii.eqb c "%" then
        match rest with
        | String _ rest' =>
            match args with
            | arg :: args' => arg +:+ Sprintf_verbs rest' args'
            | [] => Sprintf_verbs rest' []
            end
        | EmptyString => EmptyString
        end
      else String c (Sprintf_verbs rest args)
  end.

(** [fmt.Sprintf] on the formats of the examples, which hold the verbs
    [%d], [%s], [%s], [%s] and no other. *)
Definition example_Sprintf : NameFormatter :=
  fun format stamp scheme host path =>
    Sprintf_verbs format [fmt_d stamp; scheme; host; path].

(** A wayback corpus that is read and written without failure. *)
Definition example_wayback : WaybackEnv :=
  mkWaybackEnv
    (mkFile None ["http://t/a?x=2"; "http://t/img/logo.png"; "http://t/a?x=1"]
       None None)
    1700000000 example_Sprintf None None None None None.

(** The names of a wordlist whose first is not served: the transport
    [transport_status_only] refuses the connection for [http://t/admin] and
    answers the base URL. *)
Definition failing_targets : list BusterTarget :=
  [target false "admin"; target true "http://t/"].





(** ** The validation of the options ([options.go]) *)

(** [Options], continued: the fields that only the validation reads or
    writes.  An [Options] value of the sources is this record together with
    the record [Options] above. *)
Record OtherOptions := mkOtherOptions {
  Mode : string;
  Extensions : string;
  ExcludedStatusCodes : string;
  Username : string;
  Password : string;
  RandomAgent : string;
  RandomAgentParsed : list string;
  TargetUrls : string
}.

Definition ModeDir : string := "dir".
Definition ModeDNS : string := "dns".

Definition set_URL (url : string) (opt : Options) : Options :=
  mkOptions (ExtensionsParsed opt) (ExcludedStatusCodesParsed opt)
    (Threads opt) url (Wordlist opt) (Verbose opt) (UseSlash opt)
    (WaybackUrls opt) (ExcludeString opt) (BlankExtension opt)
    (OutputFolder opt).

Definition set_ExtensionsParsed (exts : stringSet) (opt : Options) : Options :=
  mkOptions exts (ExcludedStatusCodesParsed opt)
    (Threads opt) (URL opt) (Wordlist opt) (Verbose opt) (UseSlash opt)
    (WaybackUrls opt) (ExcludeString opt) (BlankExtension opt)
    (OutputFolder opt).

Definition set_ExcludedStatusCodesParsed (codes : intSet) (opt : Options)
  : Options :=
  mkOptions (ExtensionsParsed opt) codes
    (Threads opt) (URL opt) (Wordlist opt) (Verbose opt) (UseSlash opt)
    (WaybackUrls opt) (ExcludeString opt) (BlankExtension opt)
    (OutputFolder opt).

Definition set_RandomAgentParsed (agents : list string) (more : OtherOptions)
  : OtherOptions :=
  mkOtherOptions (Mode more) (Extensions more) (ExcludedStatusCodes more)
    (Username more) (Password more) (RandomAgent more) agents
    (TargetUrls more).

(** [strings.Split(s, sep)] for a separator of one byte: the first field
    and the other fields. *)
Fixpoint split_from (sep : ascii) (s : string) : string * list string :=
  match s with
  | EmptyString => (EmptyString, [])
  | String c s' =>
      let '(field, fields) := split_from sep s' in
      if Ascii.eqb c sep then (EmptyString, field :: fields)
      else (String c field, fields)
  end.

(** [strings.Split(s, sep)] for a separator of one byte: the texts between
    the occurrences of the separator, one more than there are occurrences
    (a single empty text for the empty string). *)
Definition strings_Split (s : string) (sep : ascii) : list string :=
  let '(field, fields) := split_from sep s in field :: fields.

(** [strings.TrimPrefix(s, ".")] *)
Definition TrimPrefix_dot (s : string) : string :=
  match s with
  | String "." s' => s'
  | _ => s
  end.

(** A decimal digit. *)
Definition is_digit (c : ascii) : bool :=
  let n := N_of_ascii c in ((48 <=? n) && (n <=? 57))%N.

(** The value of a text of decimal digits after the value [acc] of the
    digits before it; [None] when a byte is no digit. *)
Fixpoint digits_value (acc : Z) (s : string) : option Z :=
  match s with
  | EmptyString => Some acc
  | String c s' =>
      if is_digit c
      then digits_value (10 * acc + (Z.of_N (N_of_ascii c) - 48)) s'
      else None
  end.

(** [strconv.Atoi(s)], [None] standing for an error: an optional sign
    and at least one decimal digit, the value being within Go's [int]. *)
Definition strconv_Atoi (s : string) : option Z :=
  let '(neg, digits) :=
    match s with
    | String "-" s' => (true, s')
    | String "+" s' => (false, s')
    | _ => (false, s)
    end in
  match digits with
  | EmptyString => None
  | _ =>
      match digits_value 0 digits with
      | None => None
      | Some n =>
          let i := if neg : bool then (- n)%Z else n in
          if ((int_min <=? i) && (i <=? int_max))%Z then Some i else None
      end
  end.

(** The longest prefix of decimal digits. *)
Fixpoint digits_prefix (s : string) : string :=
  match s with
  | EmptyString => EmptyString
  | String c s' =>
      if is_digit c then String c (digits_prefix s') else EmptyString
  end.

(** The pattern of [validateDirMode] (a start of the text without slash,
    of one byte or more, then a colon, then the group of one decimal digit
    or more), matched as Go's [regexp] does: the first part is as long as
    it can be, the colon being the last one before the first slash that is
    followed by a digit and not the first byte; the group is the longest
    run of digits after it.  [seen] tells whether a byte precedes [s]. *)
Fixpoint port_scan (seen : bool) (s : string) : option string :=
  match s with
  | EmptyString => None
  | String c s' =>
      if Ascii.eqb c "/" then None
      else
        match port_scan true s' with
        | Some port => Some port
        | None =>
            if seen && Ascii.eqb c ":"
               && match s' with
                  | String d _ => is_digit d
                  | EmptyString => false
                  end
            then Some (digits_prefix s')
            else None
        end
  end.

(** [re.FindStringSubmatch(s)] for that pattern: [None] when there is no
    match ([len(match) < 2]), else [match[1]]. *)
Definition port_FindStringSubmatch (s : string) : option string :=
  port_scan false s.

(** [parseExtensions] *)
Definition parseExtensions (more : OtherOptions) (opt : Options)
  : Options * option error :=
  if String.eqb (Extensions more) "" then
    (opt, Some "invalid extension string provided")
  else
    let exts := strings_Split (Extensions more) "," in
    (fold_left
       (fun opt e =>
          let e := strings_TrimSpace e in
          (* remove leading . from extensions *)
          set_ExtensionsParsed ({[ TrimPrefix_dot e ]} ∪ ExtensionsParsed opt)
            opt)
       exts opt,
     None).

(** The loop of [parseStatusCodes], which returns at the first text that
    is no number. *)
Fixpoint parseStatusCodes_loop (fields : list string) (opt : Options)
  : Options * option error :=
  match fields with
  | [] => (opt, None)
  | c :: fields' =>
      let c := strings_TrimSpace c in
      match strconv_Atoi c with
      | None => (opt, Some ("invalid status code given: " +:+ c))
      | Some i =>
          parseStatusCodes_loop fields'
            (set_ExcludedStatusCodesParsed
               ({[ i ]} ∪ ExcludedStatusCodesParsed opt) opt)
      end
  end.

(** [parseStatusCodes] *)
Definition parseStatusCodes (more : OtherOptions) (opt : Options)
  : Options * option error :=
  if String.eqb (ExcludedStatusCodes more) "" then
    (opt, Some "invalid status code string provided")
  else
    parseStatusCodes_loop (strings_Split (ExcludedStatusCodes more) ",") opt.

(** [parseRandomAgents], on the file named by [opt.RandomAgent]. *)
Definition parseRandomAgents (randomAgents : File) (more : OtherOptions)
  : OtherOptions * option error :=
  match file_open_err randomAgents with
  | Some err => (more, Some (Errorf "failed to open random agents: " err))
  | None =>
  match file_seek_err randomAgents with
  | Some err => (more, Some (Errorf "failed to rewind random agents: " err))
  | None =>
      let more1 :=
        set_RandomAgentParsed
          (RandomAgentParsed more
           ++ List.filter
                (fun text =>
                   negb (strings_HasPrefix text "#") && (0 <? len text)%Z)
                (file_lines randomAgents))
          more in
      match file_scan_err randomAgents with
      | Some err => (more1, Some (Errorf "failed to scan random agents: " err))
      | None => (more1, None)
      end
  end end.

(** [validateDirMode] *)
Definition validateDirMode (more : OtherOptions) (opt : Options)
  : Options * option error :=
  (* bail out if we are not in dir mode *)
  if negb (String.eqb (Mode more) ModeDir) then (opt, None)
  else
    let schemed : Options * option error :=
      if negb (strings_HasPrefix (URL opt) "http") then
        (* check to see if a port was specified *)
        match port_FindStringSubmatch (URL opt) with
        | None =>
            (* no port, default to http on 80 *)
            (set_URL ("http://" +:+ URL opt) opt, None)
        | Some digits =>
            match strconv_Atoi digits with
            | None => (opt, Some "url scheme not specified")
            | Some port =>
                if (negb (port =? 80) && negb (port =? 443))%Z then
                  (opt, Some "url scheme not specified")
                else if (port =? 80)%Z then
                  (set_URL ("http://" +:+ URL opt) opt, None)
                else (set_URL ("https://" +:+ URL opt) opt, None)
            end
        end
      else (opt, None) in
    match schemed with
    | (opt1, Some err) => (opt1, Some err)
    | (opt1, None) =>
        if negb (String.eqb (Username more) "")
           && String.eqb (Password more) ""
        then (opt1, Some "username was provided but password is missing")
        else (opt1, None)
    end.

(** Whether [strings.ToLower(s)] is [lower], for a text [lower] of small
    ASCII letters.  The runes that [unicode.ToLower] maps to a small ASCII
    letter are the letter, its capital, U+0130 for [i] and U+212A for
    [k]. *)
Fixpoint lowers_to (s lower : string) : bool :=
  match lower with
  | EmptyString => String.eqb s EmptyString
  | String l lower' =>
      match s with
      | String c s' =>
          if Ascii.eqb (url.ascii_lower c) l then lowers_to s' lower'
          else
            match s with
            | String c1 (String c2 s2) =>
                if Ascii.eqb l "i" && (N_of_ascii c1 =? 196)%N
                   && (N_of_ascii c2 =? 176)%N
                then lowers_to s2 lower'
                else
                  match s2 with
                  | String c3 s3 =>
                      Ascii.eqb l "k" && (N_of_ascii c1 =? 226)%N
                      && (N_of_ascii c2 =? 132)%N && (N_of_ascii c3 =? 170)%N
                      && lowers_to s3 lower'
                  | EmptyString => false
                  end
            | _ => false
            end
      | EmptyString => false
      end
  end.

(** An error of the list when the condition holds. *)
Definition errorIf (cond : bool) (err : error) : list error :=
  if cond then [err] else [].

(** What a call that may fail adds to the list. *)
Definition errorOf (err : option error) : list error :=
  match err with
  | Some e => [e]
  | None => []
  end.

(** [validate]: the options as it leaves them and the errors appended to
    the list, in order (the list is nil when there is none).
    [not_exist name] tells whether [os.Stat(name)] fails with an error for
    which [os.IsNotExist] holds; [randomAgents] is the file named by
    [opt.RandomAgent]. *)
Definition validate (not_exist : string -> bool) (randomAgents : File)
    (more : OtherOptions) (opt : Options)
  : OtherOptions * Options * list error :=
  let e_mode :=
    errorIf (negb (lowers_to (Mode more) ModeDir)
             && negb (lowers_to (Mode more) ModeDNS))
      ("Mode (-m): Invalid value: " +:+ Mode more) in
  let e_threads :=
    errorIf (Threads opt <? 0)%Z
      ("Threads (-t): Invalid value: " +:+ fmt_d (Threads opt)) in
  let e_wordlist :=
    if String.eqb (Wordlist opt) "" then
      ["WordList (-w): Must be specified (use `-w -` for stdin)"]
    else if String.eqb (Wordlist opt) "-" then []
    else
      errorIf (not_exist (Wordlist opt))
        ("Wordlist (-w): File does not exist: " +:+ Wordlist opt) in
  let e_url :=
    errorIf (String.eqb (URL opt) "")
      ("Url/Domain (-u): Must be specified: " +:+ URL opt) in
  let e_folder :=
    errorIf (String.eqb (OutputFolder opt) "")
      ("Output folder (-of): Must be specified: " +:+ OutputFolder opt) in
  let '(opt1, e_codes) :=
    if negb (String.eqb (ExcludedStatusCodes more) "")
    then parseStatusCodes more opt else (opt, None) in
  let '(opt2, e_exts) :=
    if negb (String.eqb (Extensions more) "")
    then parseExtensions more opt1 else (opt1, None) in
  let '(opt3, e_dir) :=
    if String.eqb (Mode more) ModeDir then
      validateDirMode more
        (if negb (strings_HasSuffix (URL opt2) "/")
         then set_URL (URL opt2 +:+ "/") opt2 else opt2)
    else (opt2, None) in
  let e_wayback :=
    errorIf (negb (String.eqb (WaybackUrls opt3) "")
             && not_exist (WaybackUrls opt3))
      ("Wayback urls (-waybackurls): File does not exist: "
       +:+ WaybackUrls opt3) in
  let '(more1, e_agents) :=
    if negb (String.eqb (RandomAgent more) "") then
      if not_exist (RandomAgent more) then
        (more,
         ["Random agent (-random-agent): File does not exist: "
          +:+ RandomAgent more])
      else
        let '(more1, err) := parseRandomAgents randomAgents more in
        (more1, errorOf err)
    else (more, []) in
  let e_targets :=
    errorIf (negb (String.eqb (TargetUrls more) "")
             && not_exist (TargetUrls more))
      ("Target urls (-target-urls): File does not exist: "
       +:+ TargetUrls more) in
  (more1, opt3,
   e_mode ++ e_threads ++ e_wordlist ++ e_url ++ e_folder
   ++ errorOf e_codes ++ errorOf e_exts ++ errorOf e_dir
   ++ e_wayback ++ e_agents ++ e_targets).

(** A host name: no slash and no colon. *)
Fixpoint plain_host (s : string) : bool :=
  match s with
  | EmptyString => true
  | String c s' =>
      negb (Ascii.eqb c "/") && negb (Ascii.eqb c ":") && plain_host s'
  end.

(** A text of decimal digits. *)
Fixpoint all_digits (s : string) : bool :=
  match s with
  | EmptyString => true
  | String c s' => is_digit c && all_digits s'
  end.

(** The text is empty or starts with a slash. *)
Definition path_or_end (s : string) : bool :=
  match s with
  | EmptyString => true
  | String c _ => Ascii.eqb c "/"
  end.

(** Options of the directory mode without credentials. *)
Definition dir_mode : OtherOptions :=
  mkOtherOptions "dir" "" "" "" "" "" [] "".

(** [strings.Join(fields, sep)] for a separator of one byte. *)
Fixpoint strings_Join (fields : list string) (sep : ascii) : string :=
  match fields with
  | [] => EmptyString
  | [field] => field
  | field :: fields' => field +:+ String sep (strings_Join fields' sep)
  end.

(** The number of bytes [c] in a text. *)
Fixpoint count_byte (c : ascii) (s : string) : nat :=
  match s with
  | EmptyString => 0
  | String x s' => (if Ascii.eqb x c then 1 else 0) + count_byte c s'
  end.

(** The texts of a list of status codes as [parseStatusCodes] reads
    them. *)
Definition codeFields (more : OtherOptions) : list string :=
  List.map strings_TrimSpace (strings_Split (ExcludedStatusCodes more) ",").

(** The extensions of a list as [parseExtensions] reads them. *)
Definition extensionFields (more : OtherOptions) : list string :=
  List.map (fun e => TrimPrefix_dot (strings_TrimSpace e))
    (strings_Split (Extensions more) ",").

(** The numbers at the start of a list of texts, up to the first text
    that is no number, and that text. *)
Fixpoint leading_codes (fields : list string) : list Z * option string :=
  match fields with
  | [] => ([], None)
  | c :: fields' =>
      match strconv_Atoi c with
      | None => ([], Some c)
      | Some i =>
          let '(codes, bad) := leading_codes fields' in (i :: codes, bad)
      end
  end.

(** Options with a list of status codes and a list of extensions. *)
Definition listed_options : OtherOptions :=
  mkOtherOptions "dir" "php, .php,html" "404, 500,x,403" "" "" "" [] "".

(** Options of the directory mode with two status codes and two
    extensions. *)
Definition valid_options : OtherOptions :=
  mkOtherOptions "dir" "php, .html" "404,500" "" "" "" [] "".

(** The same with the mode in capitals. *)
Definition capital_options : OtherOptions :=
  mkOtherOptions "DIR" "php, .html" "404,500" "" "" "" [] "".

(** Every named file exists. *)
Definition all_exist : string -> bool := fun _ => false.

(** A text without newline, as a line scanner yields it. *)
Fixpoint no_newline (s : string) : bool :=
  match s with
  | EmptyString => true
  | String c s' => negb (Ascii.eqb c newline) && no_newline s'
  end.

(** A corpus with assets. *)
Definition asset_corpus : list string :=
  ["http://t/img/logo.png?v=2"; "http://t/a?x=1"; "logo.PNG"].

(** The host as the two file names carry it:
    [strings.ReplaceAll(strings.ReplaceAll(host, ".", "_"), ":", "_")]. *)
Definition sanitizedHost (parsedMainURL : url.URL) : string :=
  strings_ReplaceAll (strings_ReplaceAll (url.Host parsedMainURL) "." "_")
    ":" "_".

(** The path as the two file names carry it. *)
Definition sanitizedPath (parsedMainURL : url.URL) : string :=
  if negb (String.eqb (url.Path parsedMainURL) "/")
  then strings_ReplaceAll (TrimSuffix_slash (url.Path parsedMainURL)) "/" "_"
  else "".

(** The name that [resultWorker] gives to the file of matches when no
    name is given: the output folder is part of the format; [stamp] is
    [int32(time.Now().Unix())]. *)
Definition autoFilename (fmt_Sprintf : NameFormatter) (outputfolder : string)
    (stamp : Z) (parsedMainURL : url.URL) : string :=
  fmt_Sprintf (outputfolder +:+ "/output_matches/matches_%d_%s_%s%s.txt")
    stamp (url.Scheme parsedMainURL) (sanitizedHost parsedMainURL)
    (sanitizedPath parsedMainURL).

(** What is known of [fmt.Sprintf] here: a start of the format that holds
    no [%] is copied, and the verbs [%d], [%s], [%s], [%s] after it print
    the integer in decimal digits and the three strings as they are. *)
Definition copies_plain_prefix (fmt_Sprintf : NameFormatter) : Prop :=
  forall (prefix : string) (stamp : Z) (scheme host path : string),
    count_byte "%" prefix = 0%nat ->
    fmt_Sprintf (prefix +:+ "%d_%s_%s%s.txt") stamp scheme host path
    = prefix +:+ fmt_d stamp +:+ "_" +:+ scheme +:+ "_" +:+ host +:+ path
      +:+ ".txt".

(** Two targets. *)
Definition dotted_target : url.URL := url.mkURL "http" "a.b:8080" "/x/y/" ∅.
Definition plain_target : url.URL := url.mkURL "http" "a_b_8080" "/x_y" ∅.

(** ** The request ([makeRequest]) *)

(** The byte [c] lies between [lo] and [hi]. *)
Definition byte_between (lo hi : N) (c : ascii) : bool :=
  ((lo <=? N_of_ascii c) && (N_of_ascii c <=? hi))%N.

(** The number of bytes that Go decodes as one rune at the head of
    [String c s]: a well-formed UTF-8 sequence of two, three or four
    bytes, and else the one byte [c] (an ASCII byte, or the first byte of
    a sequence that is ill-formed or cut short). *)
Definition rune_size (c : ascii) (s : string) : nat :=
  let n := N_of_ascii c in
  if (n <? 194)%N then 1
  else if (n <=? 223)%N then
    match s with
    | String c1 _ => if byte_between 128 191 c1 then 2 else 1
    | _ => 1
    end
  else if (n <=? 239)%N then
    match s with
    | String c1 (String c2 _) =>
        if byte_between (if (n =? 224)%N then 160 else 128)
             (if (n =? 237)%N then 159 else 191) c1
           && byte_between 128 191 c2
        then 3 else 1
    | _ => 1
    end
  else if (n <=? 244)%N then
    match s with
    | String c1 (String c2 (String c3 _)) =>
        if byte_between (if (n =? 240)%N then 144 else 128)
             (if (n =? 244)%N then 143 else 191) c1
           && byte_between 128 191 c2 && byte_between 128 191 c3
        then 4 else 1
    | _ => 1
    end
  else 1.

(** The runes of [s] after [skip] more bytes of the rune before it. *)
Fixpoint rune_count_from (skip : nat) (s : string) : nat :=
  match s with
  | EmptyString => 0
  | String c s' =>
      match skip with
      | S k => rune_count_from k s'
      | O => S (rune_count_from (rune_size c s' - 1) s')
      end
  end.

(** [utf8.RuneCountInString(s)] *)
Definition utf8_RuneCountInString (s : string) : Z :=
  Z.of_nat (rune_count_from 0 s).

(** What the network answers to the request that [makeRequest] builds
    from the URL, the cookie, the user agent and the credentials: the
    error of [http.NewRequest]; the error of [client.Do], with the text of
    the error it wraps when it is a [*url.Error]; and, of a response, the
    status code, the content length, the body as [ioutil.ReadAll] reads it
    or the error of the read, the error of [io.Copy], and the location as
    [resp.Location()] returns it, printed. *)
Record Exchange := mkExchange {
  ex_request_err : option error;
  ex_do_err : option (error * option error);
  ex_StatusCode : Z;
  ex_ContentLength : Z;
  ex_body : error + string;
  ex_copy_err : option error;
  ex_Location : error + string
}.

(** [makeRequest], for a client with the given [includeLength]. *)
Definition makeRequest (includeLength : bool) (ex : Exchange)
  : error + Response :=
  match ex_request_err ex with
  | Some err => inl err
  | None =>
  match ex_do_err ex with
  | Some (err, Some cause) =>
      if strings_HasPrefix cause "x509"
      then inl ("Invalid certificate: " +:+ cause)
      else inl err
  | Some (err, None) => inl err
  | None =>
      let '(content, length) :=
        match ex_body ex with
        | inr body => (body, utf8_RuneCountInString body)
        | inl _ => (EmptyString, 0%Z)
        end in
      let measured : error + Z :=
        if includeLength then
          inr (if (0 <? ex_ContentLength ex)%Z then ex_ContentLength ex
               else length)
        else
          (* absolutely needed so golang will reuse connections! *)
          match ex_copy_err ex with
          | Some err => inl err
          | None => inr length
          end in
      match measured with
      | inl err => inl err
      | inr length =>
          if ((ex_StatusCode ex =? 301) || (ex_StatusCode ex =? 302))%Z then
            match ex_Location ex with
            | inl err => inl err
            | inr value =>
                inr (mkResponse (ex_StatusCode ex) length content value)
            end
          else inr (mkResponse (ex_StatusCode ex) length content "")
      end
  end end.

(** A text of ASCII bytes. *)
Fixpoint is_ascii (s : string) : bool :=
  match s with
  | EmptyString => true
  | String c s' => (N_of_ascii c <? 128)%N && is_ascii s'
  end.

(** A page that is served, and a redirection without location. *)
Definition served (body : string) : Exchange :=
  mkExchange None None 200 (-1) (inr body) None (inl "http: no Location header in response").
Definition lost_redirect : Exchange :=
  mkExchange None None 301 0 (inr "") None (inl "http: no Location header in response").

(** ** The consumer of the results ([resultWorker]) *)

(** The styles in which [resultWorker] prints a line. *)
Inductive Style :=
| White | GreenBold | YellowBold | WhiteBold | CyanBold | MagentaBold
| RedBold.

(** The style chosen for a status. *)
Definition styleOf (status : Z) : Style :=
  if (status =? 200)%Z then GreenBold
  else if ((status =? 301) || (status =? 302))%Z then YellowBold
  else if (status =? 400)%Z then WhiteBold
  else if (status =? 401)%Z then CyanBold
  else if (status =? 403)%Z then MagentaBold
  else if (status =? 500)%Z then RedBold
  else White.

(** What [resultWorker] has put out: the lines printed, with their style,
    and the lines of the file of matches and of the file of all matches,
    which are the lines that the file held when it was opened followed by
    the texts given to [writeToFile] (each is written followed by a
    newline). *)
Record Written := mkWritten {
  printed : list (Style * string);
  matches : list string;
  all_matches : list string
}.

(** [Result.ToString]: the lines and the status of the plugin. *)
Definition ToString (plugin : GobusterPlugin) (t : Time) (g : Gobuster)
    (r : Result) : outcome (string * string * Z) :=
  plugin_ResultToString plugin t g r.

(** The loop of [resultWorker] over the results received, from its
    iteration [i] on, the two files being open.  [clock i] is the time
    read in iteration [i]; [write_err i] and [all_write_err i] are the
    errors of the two writes of that iteration.  The loop ends when the
    channel is closed, or in [log.Fatalf] with a message, or in the panic
    of [ToString].  The message of a failed write to the file of all
    matches prints the error of the write before, which is nil. *)
Fixpoint resultWorker_loop (plugin : GobusterPlugin) (clock : nat -> Time)
    (write_err all_write_err : nat -> option error) (g : Gobuster)
    (i : nat) (results : list Result) (w : Written)
  : outcome (string + Written) :=
  match results with
  | [] => Returns (inr w)
  | r :: results' =>
      match ToString plugin (clock i) g r with
      | Panics => Panics
      | Returns (s, as_, status) =>
          let shown : string + Written :=
            if negb (String.eqb s "") then
              let s := strings_TrimSpace s in
              let w1 :=
                mkWritten (printed w ++ [(styleOf status, s)]) (matches w)
                  (all_matches w) in
              match write_err i with
              | Some err =>
                  inl ("error on writing output file: "
                       +:+ Errorf "[!] Unable to write to file " err)
              | None =>
                  inr (mkWritten (printed w1) (matches w1 ++ [s])
                         (all_matches w1))
              end
            else inr w in
          match shown with
          | inl msg => Returns (inl msg)
          | inr w2 =>
              if negb (String.eqb as_ "") then
                let as_ := strings_TrimSpace as_ in
                match all_write_err i with
                | Some _ =>
                    Returns
                      (inl "error on writing all time matches file: <nil>")
                | None =>
                    resultWorker_loop plugin clock write_err all_write_err g
                      (S i) results'
                      (mkWritten (printed w2) (matches w2)
                         (all_matches w2 ++ [as_]))
                end
              else
                resultWorker_loop plugin clock write_err all_write_err g
                  (S i) results' w2
          end
      end
  end.



(** The opening of [all_time_matches.txt] in [resultWorker]: [before] is
    [None] when [os.Stat] reports that the file does not exist, and the
    file is then created; else it holds the lines of the file, which is
    opened for appending.  The result is the message of [log.Fatalf], or
    the lines that the file holds when the loop starts. *)
Definition openAllMatches (before : option (list string))
    (create_err open_err : option error) : string + list string :=
  match before with
  | None =>
      match create_err with
      | Some aerr =>
          inl ("error on creating all time matches file: " +:+ aerr)
      | None => inr []
      end
  | Some lines =>
      match open_err with
      | Some aerr => inl ("error on opening all time matches file: " +:+ aerr)
      | None => inr lines
      end
  end.

(** [resultWorker] from the opening of [all_time_matches.txt] on, the
    file of matches having just been created: nothing is printed yet and
    the file of matches is empty when the loop starts. *)
Definition resultWorker_output (plugin : GobusterPlugin) (clock : nat -> Time)
    (write_err all_write_err : nat -> option error)
    (before : option (list string)) (create_err open_err : option error)
    (g : Gobuster) (results : list Result) : outcome (string + Written) :=
  match openAllMatches before create_err open_err with
  | inl msg => Returns (inl msg)
  | inr lines =>
      resultWorker_loop plugin clock write_err all_write_err g 0 results
        (mkWritten [] [] lines)
  end.


(** No write fails. *)
Definition no_write_err : nat -> option error := fun _ => None.

(** The clock stands still. *)
Definition still_clock : nat -> Time := fun _ => example_time.

(** Two results, of which the second has an excluded status. *)
Definition example_results : list Result :=
  [file_result 200 "hello"; file_result 404 "gone"].

(** A file of all matches that an earlier run has left. *)
Definition earlier_matches : option (list string) :=
  Some ["[2024-03-08 21:15:40] - /login - 200"].


(** * Verified properties *)

(** ** The models of the Go library on examples *)

Example TrimSpace_examples :
  strings_TrimSpace "  ab c	 " = "ab c"
  /\ strings_TrimSpace "" = ""
  /\ strings_TrimSpace " # x" = "# x".
Proof. repeat split; reflexivity. Qed.

Example ReplaceAll_examples :
  strings_ReplaceAll "a.%EXT%.b.%EXT%" ".%EXT%" "" = "a.b"
  /\ strings_ReplaceAll "index.%EXT%" "%EXT%" "php" = "index.php"
  /\ strings_ReplaceAll "aaa" "aa" "b" = "ba"
  /\ strings_ReplaceAll "abc" "" "-" = "-a-b-c-".
Proof. repeat split; reflexivity. Qed.

Example fmt_examples :
  fmt_0wd 2 5 = "05" /\ fmt_0wd 2 (-5) = "-5" /\ fmt_0wd 2 123 = "123"
  /\ fmt_wd 8 200 = "     200" /\ fmt_lws 16 "FOUND" = "FOUND           "
  /\ fmt_d 0 = "0".
Proof. repeat split; reflexivity. Qed.

Example title_examples :
  title_FindStringSubmatch "<html><title> Not Found </title></html>"
  = Some " Not Found "
  /\ title_FindStringSubmatch "<title>A</title> <title>B</title> </title>"
     = Some "B</title> "
  /\ title_FindStringSubmatch "<TITLE>Not Found</TITLE>" = None
  /\ title_FindStringSubmatch "</title><title>" = None.
Proof. repeat split; vm_compute; reflexivity. Qed.

Example asset_examples :
  asset_ReplaceAllString false "http://h/img/pic.jpg?ver=3" = "http://h/img/"
  /\ asset_ReplaceAllString false "/img/pic.JPG" = "/img/"
  /\ asset_ReplaceAllString false "http://h/a?x=1" = "http://h/a?x=1"
  /\ asset_ReplaceAllString false "http://example.docs.com/a" = "http://".
Proof. repeat split; vm_compute; reflexivity. Qed.

Example url_Parse_examples :
  url.Parse "http://h/a?x=1&y=2"
  = Some (url.mkURL "http" "h" "/a" (<["x" := ["1"]]> (<["y" := ["2"]]> ∅)))
  /\ url.Parse "http://h/img/" = Some (url.mkURL "http" "h" "/img/" ∅)
  /\ url.Parse ":a" = None.
Proof. repeat split; vm_compute; reflexivity. Qed.

Example sort_Strings_example :
  sort_Strings ["http://h/?x=1"; "b"; "http://h/?x=/p.jpg&y"; "B"]
  = ["B"; "b"; "http://h/?x=/p.jpg&y"; "http://h/?x=1"].
Proof. reflexivity. Qed.

(** ** Arithmetic of [int] *)

Lemma wrap_id (x : Z) : in_int x -> wrap x = x.
Proof.
  unfold in_int, wrap, int_min, int_max, int_bits. intros H.
  change (2 ^ (64 - 1))%Z with 9223372036854775808%Z in *.
  change (2 ^ 64)%Z with 18446744073709551616%Z.
  rewrite Z.mod_small; lia.
Qed.

Lemma wrap_mod (x : Z) : (wrap x `mod` 2 ^ int_bits = x `mod` 2 ^ int_bits)%Z.
Proof.
  unfold wrap, int_bits.
  change (2 ^ (64 - 1))%Z with 9223372036854775808%Z.
  change (2 ^ 64)%Z with 18446744073709551616%Z.
  rewrite Zminus_mod, Zmod_mod, <- Zminus_mod. f_equal. lia.
Qed.

Lemma wrap_congr (x y : Z) :
  (x `mod` 2 ^ int_bits = y `mod` 2 ^ int_bits)%Z -> wrap x = wrap y.
Proof.
  unfold wrap, int_bits. intros H.
  change (2 ^ (64 - 1))%Z with 9223372036854775808%Z.
  change (2 ^ 64)%Z with 18446744073709551616%Z in *.
  rewrite (Zplus_mod x), (Zplus_mod y), H. reflexivity.
Qed.

Lemma wrap_add_l (x y : Z) : wrap (wrap x + y) = wrap (x + y).
Proof.
  apply wrap_congr. rewrite Zplus_mod, wrap_mod, <- Zplus_mod. reflexivity.
Qed.

Lemma wrap_add_r (x y : Z) : wrap (x + wrap y) = wrap (x + y).
Proof. rewrite Z.add_comm, wrap_add_l. f_equal. lia. Qed.

Lemma wrap_sub_l (x y : Z) : wrap (wrap x - y) = wrap (x - y).
Proof. unfold Z.sub. apply wrap_add_l. Qed.

(** ** The request counters *)

Lemma requestsIssued_set n g : requestsIssued (set_requestsIssued n g) = n.
Proof. reflexivity. Qed.

Lemma counter_step_bounds (g : Gobuster) (o : counter_op) :
  (0 <= requestsIssued g)%Z ->
  (requestsIssued g
   + match o with OpIncrement => 1 | OpDecrement => 0 end <= int_max)%Z ->
  (0 <= requestsIssued (counter_step g o)
   <= requestsIssued g + match o with OpIncrement => 1 | OpDecrement => 0 end)%Z.
Proof.
  intros H0 Hmax. destruct o; unfold counter_step.
  - unfold incrementRequests. rewrite requestsIssued_set, wrap_id.
    + lia.
    + unfold in_int, int_min, int_max, int_bits in *. lia.
  - unfold DecrementRequests. destruct (0 <? requestsIssued g)%Z eqn:E.
    + apply Z.ltb_lt in E. rewrite requestsIssued_set, wrap_id.
      * lia.
      * unfold in_int, int_min, int_max, int_bits in *. lia.
    + lia.
Qed.

Lemma increments_cons o ops :
  increments (o :: ops)
  = ((match o with OpIncrement => 1 | OpDecrement => 0 end) + increments ops)%nat.
Proof. destruct o; reflexivity. Qed.

Lemma run_counter_bounds (ops : list counter_op) : forall g : Gobuster,
  (0 <= requestsIssued g)%Z ->
  (requestsIssued g + Z.of_nat (increments ops) <= int_max)%Z ->
  (0 <= requestsIssued (run_counter ops g)
   <= requestsIssued g + Z.of_nat (increments ops))%Z.
Proof.
  induction ops as [|o ops IH]; intros g H0 Hmax.
  - unfold increments. simpl. lia.
  - rewrite increments_cons in *.
    assert (Hs := counter_step_bounds g o H0).
    change (run_counter (o :: ops) g) with (run_counter ops (counter_step g o)).
    specialize (IH (counter_step g o)).
    destruct o; cbv iota in *; lia.
Qed.

Lemma increments_take (k : nat) (ops : list counter_op) :
  (increments (take k ops) <= increments ops)%nat.
Proof.
  revert k. induction ops as [|o ops IH]; intros [|k]; simpl; try (unfold increments; simpl; lia).
  rewrite !increments_cons. specialize (IH k). lia.
Qed.

(** C10: starting from zero, after any number of steps of any interleaving
    of [incrementRequests] and [DecrementRequests], [requestsIssued] is not
    negative (the interleaving holds at most [int_max] increments, so that
    the 64-bit counter does not overflow). *)
Theorem requestsIssued_never_negative
    (ops : list counter_op) (g : Gobuster) (k : nat) :
  requestsIssued g = 0%Z ->
  (Z.of_nat (increments ops) <= int_max)%Z ->
  (0 <= requestsIssued (run_counter (take k ops) g))%Z.
Proof.
  intros H0 Hmax.
  pose proof (increments_take k ops) as Hk.
  apply run_counter_bounds; lia.
Qed.

Lemma requestsIssued_never_negative_witness :
  let ops := [OpDecrement; OpIncrement; OpDecrement; OpDecrement; OpIncrement] in
  let g := example_run in
  requestsIssued g = 0%Z
  /\ (Z.of_nat (increments ops) <= int_max)%Z
  /\ (0 <= requestsIssued (run_counter (take 4 ops) g))%Z.
Proof.
  split; [reflexivity|]. split; [vm_compute; discriminate|].
  apply (requestsIssued_never_negative
           [OpDecrement; OpIncrement; OpDecrement; OpDecrement; OpIncrement]
           _ 4%nat); [reflexivity | vm_compute; discriminate].
Defined.

(** ** White space trimming keeps a leading [#] *)

Lemma append_empty_r (s : string) : s +:+ "" = s.
Proof. induction s as [|c s IH]; simpl; [reflexivity|]. f_equal. exact IH. Qed.

Lemma append_assoc (s t u : string) : (s +:+ t) +:+ u = s +:+ (t +:+ u).
Proof. induction s as [|c s IH]; simpl; [reflexivity|]. f_equal. exact IH. Qed.

Lemma string_rev_app (s t : string) :
  string_rev (s +:+ t) = string_rev t +:+ string_rev s.
Proof.
  induction s as [|c s IH]; simpl.
  - symmetry. apply append_empty_r.
  - rewrite IH. apply append_assoc.
Qed.

Lemma space2_hash_l (a : ascii) : space2 "#" a = false.
Proof. reflexivity. Qed.

Lemma space3_hash_l (a b : ascii) : space3 "#" a b = false.
Proof. reflexivity. Qed.

Lemma trim_left_hash (s : string) :
  trim_left (String "#" s) = String "#" s.
Proof. destruct s as [|b [|c s]]; reflexivity. Qed.

Lemma trim_left_rev_hash (n : nat) : forall t : string,
  (String.length t <= n)%nat ->
  exists t', trim_left_rev (t +:+ "#") = t' +:+ "#".
Proof.
  induction n as [|n IH]; intros t Hn.
  - destruct t; simpl in Hn; [|lia]. exists EmptyString. reflexivity.
  - destruct t as [|a t1]; [exists EmptyString; reflexivity|].
    simpl in Hn. cbn [String.append trim_left_rev].
    destruct (space1 a); [apply IH; lia|].
    destruct t1 as [|b t2].
    { exists (String a EmptyString). reflexivity. }
    simpl in Hn. cbn [String.append].
    destruct (space2 b a); [apply IH; lia|].
    destruct t2 as [|c t3].
    { exists (String a (String b EmptyString)). reflexivity. }
    simpl in Hn. cbn [String.append].
    destruct (space3 c b a); [apply IH; lia|].
    exists (String a (String b (String c t3))). reflexivity.
Qed.

Lemma prefix_cons (a c : ascii) (p s : string) :
  String.prefix (String a p) (String c s)
  = if ascii_dec a c then String.prefix p s else false.
Proof. reflexivity. Qed.

Lemma HasPrefix_byte (a : ascii) (s : string) :
  strings_HasPrefix s (String a EmptyString) = true <->
  exists s', s = String a s'.
Proof.
  unfold strings_HasPrefix. split.
  - destruct s as [|c s]; [discriminate|]. rewrite prefix_cons.
    destruct (ascii_dec a c) as [<-|]; [|discriminate]. eauto.
  - intros [s' ->]. rewrite prefix_cons.
    destruct (ascii_dec a a); [|congruence]. destruct s'; reflexivity.
Qed.

Lemma TrimSpace_keeps_hash (text : string) :
  strings_HasPrefix text "#" = true ->
  strings_HasPrefix (strings_TrimSpace text) "#" = true.
Proof.
  rewrite !HasPrefix_byte. intros [s ->].
  unfold strings_TrimSpace. rewrite trim_left_hash.
  unfold trim_right. cbn [string_rev].
  destruct (trim_left_rev_hash (String.length (string_rev s)) (string_rev s))
    as [t' Ht']; [lia|].
  rewrite Ht', string_rev_app. eexists. reflexivity.
Qed.

(** ** The wordlist scan of [Start] *)

Lemma len_pos (s : string) : (0 <? len s)%Z = negb (String.eqb s "").
Proof. destruct s; reflexivity. Qed.

Lemma length_range (g : Gobuster) (exts : list string) :
  exts ≡ₚ elements (ExtensionsParsed (Opts g)) ->
  List.length exts = size (ExtensionsParsed (Opts g)).
Proof. intros H. rewrite H. reflexivity. Qed.

Lemma wordTargets_skipped (g : Gobuster) (exts : list string) (text : string) :
  strings_TrimSpace text = "" \/ strings_HasPrefix text "#" = true ->
  wordTargets g exts text = [].
Proof.
  intros [H|H]; unfold wordTargets.
  - rewrite H. reflexivity.
  - rewrite (TrimSpace_keeps_hash _ H). reflexivity.
Qed.

(** C7: a word of the wordlist that is not blank, is no comment and holds
    [%EXT%] is expanded into the word with [.%EXT%] removed, when the
    blank-extension option is set, followed by one candidate per
    configured extension, the word with every [%EXT%] replaced by it: [N]
    candidates for [N] extensions, and one more with the option.  A blank
    line or a line that begins with [#] yields no candidate. *)
Theorem wordTargets_expansion
    (g : Gobuster) (exts : list string) (text : string) :
  exts ≡ₚ elements (ExtensionsParsed (Opts g)) ->
  strings_TrimSpace text <> "" ->
  strings_HasPrefix (strings_TrimSpace text) "#" = false ->
  strings_Contains (strings_TrimSpace text) "%EXT%" = true ->
  let word := strings_TrimSpace text in
  wordTargets g exts text
  = (if BlankExtension (Opts g)
     then [target false (strings_ReplaceAll word ".%EXT%" "")] else [])
    ++ List.map (fun ext => target false (strings_ReplaceAll word "%EXT%" ext))
         exts
  /\ List.length (wordTargets g exts text)
     = ((if BlankExtension (Opts g) then 1 else 0)
        + size (ExtensionsParsed (Opts g)))%nat
  /\ (forall ext, ext ∈ ExtensionsParsed (Opts g) ->
      target false (strings_ReplaceAll word "%EXT%" ext)
      ∈ wordTargets g exts text)
  /\ (forall other : string,
      strings_TrimSpace other = "" \/ strings_HasPrefix other "#" = true ->
      wordTargets g exts other = []).
Proof.
  intros Hperm Hne Hhash Hext word.
  assert (E : wordTargets g exts text
    = (if BlankExtension (Opts g)
       then [target false (strings_ReplaceAll word ".%EXT%" "")] else [])
      ++ List.map (fun ext => target false (strings_ReplaceAll word "%EXT%" ext))
           exts).
  { unfold wordTargets, word. cbv zeta.
    rewrite Hhash, len_pos, Hext.
    apply String.eqb_neq in Hne. rewrite Hne. reflexivity. }
  split; [exact E|]. split; [|split].
  - rewrite E, length_app, length_map, (length_range g exts Hperm).
    destruct (BlankExtension (Opts g)); reflexivity.
  - intros ext Hin. rewrite E. apply elem_of_app. right.
    apply (list_elem_of_fmap_2 (fun ext => target false (strings_ReplaceAll word "%EXT%" ext))).
    rewrite Hperm. apply elem_of_elements. exact Hin.
  - intros other. apply wordTargets_skipped.
Qed.

Lemma wordTargets_expansion_witness :
  let g := ext_run in
  let exts := elements (ExtensionsParsed (Opts g)) in
  let text := "  admin.%EXT% " in
  exts ≡ₚ elements (ExtensionsParsed (Opts g))
  /\ strings_TrimSpace text <> ""
  /\ strings_HasPrefix (strings_TrimSpace text) "#" = false
  /\ strings_Contains (strings_TrimSpace text) "%EXT%" = true
  /\ List.length (wordTargets g exts text) = 3%nat.
Proof.
  split; [reflexivity|]. split; [vm_compute; discriminate|].
  split; [vm_compute; reflexivity|]. split; [vm_compute; reflexivity|].
  apply (wordTargets_expansion ext_run
           (elements (ExtensionsParsed (Opts ext_run))) "  admin.%EXT% ").
  - reflexivity.
  - vm_compute; discriminate.
  - vm_compute; reflexivity.
  - vm_compute; reflexivity.
Defined.

(** ** [getWordlist]: the expected number of requests *)

Lemma wrap_mul_l (x y : Z) : wrap (wrap x * y) = wrap (x * y).
Proof.
  apply wrap_congr. rewrite Zmult_mod, wrap_mod, <- Zmult_mod. reflexivity.
Qed.

Lemma wrap_sub_r (x y : Z) : wrap (x - wrap y) = wrap (x - y).
Proof.
  apply wrap_congr. rewrite Zminus_mod, wrap_mod, <- Zminus_mod. reflexivity.
Qed.

Lemma wrap_0 : wrap 0 = 0%Z.
Proof. reflexivity. Qed.

Lemma count_if_cons (p : string -> bool) (text : string) (texts : list string) :
  count_if p (text :: texts) = ((if p text then 1 else 0) + count_if p texts)%nat.
Proof. unfold count_if. simpl. destruct (p text); reflexivity. Qed.

Lemma countWords_from (texts : list string) : forall a b : Z,
  fold_left
    (fun '(lines, wordExtensionCount) text =>
       let word := strings_TrimSpace text in
       if String.eqb word "" then (lines, wordExtensionCount)
       else
         (wrap (lines + 1),
          if strings_Contains word "%EXT%"
          then wrap (wordExtensionCount + 1)
          else wordExtensionCount))
    texts (wrap a, wrap b)
  = (wrap (a + Z.of_nat (count_if nonblank texts)),
     wrap (b + Z.of_nat (count_if extword texts))).
Proof.
  induction texts as [|text texts IH]; intros a b.
  - simpl. unfold count_if. simpl. rewrite !Z.add_0_r. reflexivity.
  - cbn [fold_left]. rewrite !count_if_cons. cbv zeta.
    assert (Hn : nonblank text = negb (String.eqb (strings_TrimSpace text) ""))
      by reflexivity.
    assert (He : extword text
                 = nonblank text
                   && strings_Contains (strings_TrimSpace text) "%EXT%")
      by reflexivity.
    destruct (String.eqb (strings_TrimSpace text) "") eqn:E.
    + rewrite He, Hn, IH. simpl. f_equal; f_equal; lia.
    + destruct (strings_Contains (strings_TrimSpace text) "%EXT%");
        rewrite He, Hn, !wrap_add_l, IH; simpl; f_equal; f_equal; lia.
Qed.

Lemma countWords_spec (texts : list string) :
  countWords texts
  = (wrap (Z.of_nat (count_if nonblank texts)),
     wrap (Z.of_nat (count_if extword texts))).
Proof.
  unfold countWords. rewrite <- wrap_0 at 1 2. rewrite countWords_from.
  reflexivity.
Qed.

Lemma expectedRequests_spec (g : Gobuster) (texts : list string) :
  expectedRequests g texts
  = wrap (Z.of_nat (count_if nonblank texts)
          + Z.of_nat (count_if extword texts) * lenExtensions g
          - (if BlankExtension (Opts g) then 0
             else Z.of_nat (count_if extword texts))).
Proof.
  unfold expectedRequests. rewrite countWords_spec.
  destruct (BlankExtension (Opts g)).
  - rewrite wrap_mul_l, wrap_add_l, wrap_add_r. f_equal. lia.
  - rewrite wrap_mul_l, wrap_add_l, wrap_add_r, wrap_sub_l, wrap_sub_r.
    reflexivity.
Qed.

Lemma extword_le (texts : list string) :
  (count_if extword texts <= count_if nonblank texts)%nat.
Proof.
  induction texts as [|text texts IH]; [unfold count_if; simpl; lia|].
  rewrite !count_if_cons. unfold extword at 1.
  destruct (nonblank text); simpl; [|lia].
  destruct (strings_Contains (strings_TrimSpace text) "%EXT%"); lia.
Qed.

Lemma length_wordTargets (g : Gobuster) (exts : list string) (text : string) :
  exts ≡ₚ elements (ExtensionsParsed (Opts g)) ->
  strings_HasPrefix (strings_TrimSpace text) "#" = false ->
  List.length (wordTargets g exts text)
  = if nonblank text then
      if extword text
      then ((if BlankExtension (Opts g) then 1 else 0)
            + size (ExtensionsParsed (Opts g)))%nat
      else 1%nat
    else 0%nat.
Proof.
  intros Hperm Hhash. unfold wordTargets, extword, nonblank. cbv zeta.
  rewrite Hhash, len_pos.
  destruct (String.eqb (strings_TrimSpace text) ""); cbn [negb andb]; [reflexivity|].
  destruct (strings_Contains (strings_TrimSpace text) "%EXT%"); [|reflexivity].
  rewrite length_app, length_map, (length_range g exts Hperm).
  destruct (BlankExtension (Opts g)); reflexivity.
Qed.

Lemma length_WordScan (g : Gobuster) (done : nat -> bool)
    (range_order : nat -> list string) (texts : list string) : forall i : nat,
  (forall j, done j = false) ->
  (forall j, range_order j ≡ₚ elements (ExtensionsParsed (Opts g))) ->
  (forall text, text ∈ texts ->
     strings_HasPrefix (strings_TrimSpace text) "#" = false) ->
  Z.of_nat (List.length (WordScan g done range_order i texts))
  = (Z.of_nat (count_if nonblank texts)
     + Z.of_nat (count_if extword texts) * lenExtensions g
     - (if BlankExtension (Opts g) then 0
        else Z.of_nat (count_if extword texts)))%Z.
Proof.
  intros i Hdone Hrange. revert i.
  induction texts as [|text texts IH]; intros i Hhash.
  - unfold count_if. simpl. destruct (BlankExtension (Opts g)); reflexivity.
  - cbn [WordScan]. rewrite Hdone, length_app, Nat2Z.inj_add, IH.
    2:{ intros t Ht. apply Hhash. apply elem_of_cons. right. exact Ht. }
    rewrite (length_wordTargets g (range_order i) text (Hrange i)).
    2:{ apply Hhash. apply elem_of_cons. left. reflexivity. }
    rewrite !count_if_cons. unfold lenExtensions.
    assert (Hn : extword text = true -> nonblank text = true).
    { unfold extword. destruct (nonblank text); [reflexivity|discriminate]. }
    destruct (nonblank text), (extword text), (BlankExtension (Opts g));
      try (specialize (Hn eq_refl); discriminate); lia.
Qed.

(** C9: for a wordlist file none of whose trimmed lines begins with [#],
    the value of [requestsExpected] that [getWordlist] computes is the
    number of candidates that the wordlist scan of [Start] sends when the
    context is never done (that number being an [int]). *)
Theorem requestsExpected_counts_candidates
    (g : Gobuster) (stdin : list string) (wordlist : File)
    (done : nat -> bool) (range_order : nat -> list string) :
  String.eqb (Wordlist (Opts g)) "-" = false ->
  file_open_err wordlist = None ->
  file_scan_err wordlist = None ->
  file_seek_err wordlist = None ->
  (forall text, text ∈ file_lines wordlist ->
     strings_HasPrefix (strings_TrimSpace text) "#" = false) ->
  (forall j, done j = false) ->
  (forall j, range_order j ≡ₚ elements (ExtensionsParsed (Opts g))) ->
  (Z.of_nat (List.length (WordScan g done range_order 0 (file_lines wordlist)))
   <= int_max)%Z ->
  exists g' : Gobuster,
    getWordlist stdin wordlist g = (g', inr (file_lines wordlist))
    /\ Opts g' = Opts g
    /\ requestsExpected g'
       = Z.of_nat
           (List.length (WordScan g' done range_order 0 (file_lines wordlist))).
Proof.
  intros Hw Hopen Hscan Hseek Hhash Hdone Hrange Hmax.
  unfold getWordlist. rewrite Hw, Hopen, Hscan, Hseek.
  eexists. split; [reflexivity|]. split; [reflexivity|].
  cbn [requestsExpected set_requestsExpected].
  rewrite expectedRequests_spec.
  rewrite (length_WordScan g done range_order _ 0 Hdone Hrange Hhash) in Hmax.
  rewrite (length_WordScan
             (set_requestsExpected
                (wrap
                   (Z.of_nat (count_if nonblank (file_lines wordlist))
                    + Z.of_nat (count_if extword (file_lines wordlist))
                      * lenExtensions (set_requestsIssued 0 g)
                    - (if BlankExtension (Opts (set_requestsIssued 0 g))
                       then 0
                       else Z.of_nat
                              (count_if extword (file_lines wordlist)))))
                (set_requestsIssued 0 g))
             done range_order _ 0 Hdone Hrange Hhash).
  cbn [Opts set_requestsExpected set_requestsIssued] in *.
  unfold lenExtensions in *.
  cbn [Opts set_requestsExpected set_requestsIssued] in *.
  apply wrap_id. unfold in_int, int_min, int_bits.
  pose proof (extword_le (file_lines wordlist)).
  change (2 ^ (64 - 1))%Z with 9223372036854775808%Z.
  unfold int_max, int_bits in *.
  change (2 ^ (64 - 1))%Z with 9223372036854775808%Z in *.
  destruct (BlankExtension (Opts g)); split; try lia; nia.
Qed.

Lemma requestsExpected_counts_candidates_witness :
  String.eqb (Wordlist (Opts ext_run)) "-" = false
  /\ file_open_err example_wordlist = None
  /\ file_scan_err example_wordlist = None
  /\ file_seek_err example_wordlist = None
  /\ (forall text, text ∈ file_lines example_wordlist ->
        strings_HasPrefix (strings_TrimSpace text) "#" = false)
  /\ (forall j, never_done j = false)
  /\ (forall j, example_range_order j
                ≡ₚ elements (ExtensionsParsed (Opts ext_run)))
  /\ (Z.of_nat (List.length (WordScan ext_run never_done example_range_order 0
                               (file_lines example_wordlist)))
      <= int_max)%Z
  /\ exists g' : Gobuster,
       getWordlist [] example_wordlist ext_run
       = (g', inr (file_lines example_wordlist))
       /\ Opts g' = Opts ext_run
       /\ requestsExpected g'
          = Z.of_nat
              (List.length (WordScan g' never_done example_range_order 0
                              (file_lines example_wordlist))).
Proof.
  assert (Hhash : forall text, text ∈ file_lines example_wordlist ->
            strings_HasPrefix (strings_TrimSpace text) "#" = false).
  { intros text Ht. cbn [file_lines example_wordlist] in Ht.
    repeat (apply elem_of_cons in Ht as [->|Ht]; [vm_compute; reflexivity|]).
    apply elem_of_nil in Ht. destruct Ht. }
  assert (Hmax : (Z.of_nat (List.length (WordScan ext_run never_done
                     example_range_order 0 (file_lines example_wordlist)))
                  <= int_max)%Z) by (vm_compute; discriminate).
  repeat (split; [first [reflexivity | exact Hhash | exact Hmax]|]).
  apply (requestsExpected_counts_candidates ext_run [] example_wordlist
           never_done example_range_order);
    first [reflexivity | exact Hhash | exact Hmax].
Defined.

Example requestsExpected_example :
  requestsExpected (fst (getWordlist [] example_wordlist ext_run)) = 5%Z
  /\ List.map Target
       (WordScan ext_run never_done example_range_order 0
          (file_lines example_wordlist))
     = ["admin"; "index"; "index.html"; "index.php"; "login"].
Proof. split; vm_compute; reflexivity. Qed.

(** ** The worker loop and the errors of [Start] *)

Lemma worker_Received (plugin : GobusterPlugin) (busterTarget : BusterTarget)
    (events : list select_event) (g : Gobuster) :
  worker plugin (Received busterTarget :: events) g
  = let g1 := incrementRequests g in
    let '(g2, sends, st) := worker plugin events g1 in
    (g2, sendsOf plugin g1 busterTarget ++ sends, st).
Proof.
  cbn [worker]. unfold sendsOf. cbv zeta.
  destruct (plugin_Process plugin (incrementRequests g) busterTarget);
    destruct (worker plugin events (incrementRequests g)) as [[g2 sends] st];
    reflexivity.
Qed.

Lemma worker_handles_all (plugin : GobusterPlugin)
    (targets : list BusterTarget) (events : list select_event) :
  forall g : Gobuster,
  worker plugin (List.map Received targets ++ events) g
  = let '(g1, sends1) := handleAll plugin targets g in
    let '(g2, sends2, st) := worker plugin events g1 in
    (g2, sends1 ++ sends2, st).
Proof.
  induction targets as [|t targets IH]; intros g.
  - cbn [List.map app handleAll].
    destruct (worker plugin events g) as [[g2 sends2] st]. reflexivity.
  - cbn [List.map app handleAll]. rewrite worker_Received. cbv zeta.
    rewrite IH.
    destruct (handleAll plugin targets (incrementRequests g)) as [g1 sends1].
    destruct (worker plugin events g1) as [[g2 sends2] st].
    rewrite app_assoc. reflexivity.
Qed.

Lemma worker_returns_on_event (plugin : GobusterPlugin)
    (events : list select_event) : forall (g g' : Gobuster) sends st,
  worker plugin events g = (g', sends, st) ->
  match st with
  | InLoop => True
  | ReturnedOnDone => ContextDone ∈ events
  | ReturnedOnClose => ChannelClosed ∈ events
  end.
Proof.
  induction events as [|e events IH]; intros g g' sends st H.
  - inversion H. exact I.
  - destruct e as [|t|].
    + inversion H. apply elem_of_cons. left. reflexivity.
    + rewrite worker_Received in H. cbv zeta in H.
      destruct (worker plugin events (incrementRequests g))
        as [[g2 sends2] st2] eqn:E.
      inversion H; subst. specialize (IH _ _ _ _ E).
      destruct st; [exact I | | ]; apply elem_of_cons; right; exact IH.
    + inversion H. apply elem_of_cons. left. reflexivity.
Qed.

Lemma requestsIssued_handleAll (plugin : GobusterPlugin)
    (targets : list BusterTarget) : forall g : Gobuster,
  wrap (requestsIssued (fst (handleAll plugin targets g)))
  = wrap (requestsIssued g + Z.of_nat (List.length targets)).
Proof.
  induction targets as [|t targets IH]; intros g.
  - cbn [handleAll fst List.length]. f_equal. lia.
  - cbn [handleAll]. specialize (IH (incrementRequests g)).
    destruct (handleAll plugin targets (incrementRequests g)) as [g2 sends].
    cbn [fst] in *. rewrite IH. unfold incrementRequests.
    rewrite requestsIssued_set, wrap_add_l. f_equal. cbn [List.length]. lia.
Qed.

Lemma Start_without_Process (plugin : GobusterPlugin)
    (process : Gobuster -> BusterTarget -> error + list Result)
    (url_Parse : string -> option url.URL) (env : StartEnv) (g : Gobuster) :
  Start url_Parse (withProcess plugin process) env g
  = Start url_Parse plugin env g.
Proof. reflexivity. Qed.

Lemma Start_error_origin (plugin : GobusterPlugin)
    (url_Parse : string -> option url.URL) (env : StartEnv) (g : Gobuster)
    (st : Started) :
  Start url_Parse plugin env g = Returns st ->
  match start_err st with
  | Some err =>
      start_closed st = false
      /\ (snd (plugin_Setup plugin g) = Some err
          \/ (exists g0 g1,
                getWaybackUrls url_Parse (env_wayback env) g0
                = Returns (g1, inl err))
          \/ (exists g1 g2,
                getWordlist (env_stdin env) (env_wordlist env) g1
                = (g2, inl err)))
  | None => start_closed st = true /\ snd (plugin_Setup plugin g) = None
  end.
Proof.
  unfold Start. destruct (plugin_Setup plugin g) as [g0 [err|]] eqn:ES.
  - intros H. inversion H; subst. cbn. split; [reflexivity|]. left. reflexivity.
  - destruct (negb (String.eqb (WaybackUrls (Opts g0)) "")).
    + destruct (getWaybackUrls url_Parse (env_wayback env) g0)
        as [|[g1 [err|texts]]] eqn:EW; [discriminate| |].
      * intros H. inversion H; subst. cbn. split; [reflexivity|].
        right. left. eauto.
      * destruct (getWordlist (env_stdin env) (env_wordlist env) g1)
          as [g2 [err|texts']] eqn:EL; intros H; inversion H; subst; cbn.
        -- split; [reflexivity|]. right. right. eauto.
        -- split; reflexivity.
    + destruct (getWordlist (env_stdin env) (env_wordlist env) g0)
        as [g2 [err|texts']] eqn:EL; intros H; inversion H; subst; cbn.
      * split; [reflexivity|]. right. right. eauto.
      * split; reflexivity.
Qed.

(** The loop of [worker] runs [worker_iteration] until it returns. *)
Lemma worker_iterates (plugin : GobusterPlugin) (event : select_event)
    (events : list select_event) (g : Gobuster) :
  worker plugin (event :: events) g
  = let '(g1, sends1, st1) := worker_iteration plugin event g in
    match st1 with
    | InLoop =>
        let '(g2, sends2, st2) := worker plugin events g1 in
        (g2, sends1 ++ sends2, st2)
    | _ => (g1, sends1, st1)
    end.
Proof.
  destruct event as [|t|]; [reflexivity| |reflexivity].
  rewrite worker_Received. reflexivity.
Qed.

(** A failing candidate in the pool: the error is sent and no worker
    changes its status. *)
Lemma pool_step_error (plugin : GobusterPlugin) (p : Pool) (w : nat)
    (busterTarget : BusterTarget) (err : error) :
  pool_status p w = InLoop ->
  plugin_Process plugin (incrementRequests (pool_state p)) busterTarget
  = inl err ->
  let p' := pool_step plugin p (w, Received busterTarget) in
  pool_sent p' = pool_sent p ++ [SendError err]
  /\ forall w', pool_status p' w' = pool_status p w'.
Proof.
  intros Hw He. unfold pool_step. rewrite Hw.
  cbn [worker_iteration]. unfold sendsOf. rewrite He. cbn.
  split; [reflexivity|]. intros w'.
  destruct (w' =? w)%nat eqn:E; [|reflexivity].
  apply Nat.eqb_eq in E. subst w'. symmetry. exact Hw.
Qed.

Lemma pool_step_status (plugin : GobusterPlugin) (p : Pool)
    (step : nat * select_event) (w : nat) :
  pool_status (pool_step plugin p step) w = pool_status p w
  \/ (pool_status p w = InLoop
      /\ ((step = (w, ContextDone)
           /\ pool_status (pool_step plugin p step) w = ReturnedOnDone)
          \/ (step = (w, ChannelClosed)
              /\ pool_status (pool_step plugin p step) w = ReturnedOnClose))).
Proof.
  destruct step as [w0 event]. unfold pool_step.
  destruct (pool_status p w0) eqn:Hw0; [|left; reflexivity|left; reflexivity].
  destruct event as [|t|]; cbn [worker_iteration pool_status].
  - destruct (w =? w0)%nat eqn:E; [|left; reflexivity].
    apply Nat.eqb_eq in E. subst w0. right. split; [exact Hw0|].
    left. split; reflexivity.
  - left. destruct (w =? w0)%nat eqn:E; [|reflexivity].
    apply Nat.eqb_eq in E. subst w0. symmetry. exact Hw0.
  - destruct (w =? w0)%nat eqn:E; [|left; reflexivity].
    apply Nat.eqb_eq in E. subst w0. right. split; [exact Hw0|].
    right. split; reflexivity.
Qed.

Lemma pool_returned_stays (plugin : GobusterPlugin)
    (schedule : list (nat * select_event)) : forall (p : Pool) (w : nat),
  pool_status p w <> InLoop ->
  pool_status (pool_run plugin schedule p) w = pool_status p w.
Proof.
  induction schedule as [|step schedule IH]; intros p w Hw; [reflexivity|].
  cbn [pool_run fold_left]. fold (pool_run plugin schedule (pool_step plugin p step)).
  destruct (pool_step_status plugin p step w) as [H|[H _]]; [|congruence].
  rewrite IH; [exact H|]. rewrite H. exact Hw.
Qed.

(** A worker of the pool returns only on the events that make [worker]
    return. *)
Lemma pool_returns_on_event (plugin : GobusterPlugin)
    (schedule : list (nat * select_event)) : forall (p : Pool) (w : nat),
  pool_status p w = InLoop ->
  match pool_status (pool_run plugin schedule p) w with
  | InLoop => True
  | ReturnedOnDone => (w, ContextDone) ∈ schedule
  | ReturnedOnClose => (w, ChannelClosed) ∈ schedule
  end.
Proof.
  induction schedule as [|step schedule IH]; intros p w Hw.
  - cbn. rewrite Hw. exact I.
  - cbn [pool_run fold_left].
    fold (pool_run plugin schedule (pool_step plugin p step)).
    destruct (pool_step_status plugin p step w) as [H|[_ [[-> H]|[-> H]]]].
    + rewrite Hw in H. specialize (IH _ _ H).
      destruct (pool_status (pool_run plugin schedule (pool_step plugin p step)) w);
        [exact I | apply list_elem_of_further, IH
         | apply list_elem_of_further, IH].
    + rewrite pool_returned_stays by (rewrite H; discriminate).
      rewrite H. apply list_elem_of_here.
    + rewrite pool_returned_stays by (rewrite H; discriminate).
      rewrite H. apply list_elem_of_here.
Qed.

(** C5: a worker that receives a candidate for which [Process] returns an
    error sends the error on the error channel and goes on with its loop.
    Whatever [Process] returns for the candidates [targets], the worker
    handles them all and then handles the next events; after them it is
    still in its loop; it returns only when it observes the context done
    or the candidate channel closed; so it is in a pool of workers under
    any schedule, where a failing candidate adds its error to what is sent
    and changes the status of no worker.  [Start] does not depend on what
    [Process] returns: an error that it returns is the error of [Setup],
    of the wayback corpus or of the wordlist, and it closes the channels
    only when it returns no error. *)
Theorem worker_continues_after_error
    (plugin : GobusterPlugin) (url_Parse : string -> option url.URL) :
  (forall (g : Gobuster) (busterTarget : BusterTarget) (err : error)
          (events : list select_event),
      plugin_Process plugin (incrementRequests g) busterTarget = inl err ->
      worker plugin (Received busterTarget :: events) g
      = let '(g2, sends, st) := worker plugin events (incrementRequests g) in
        (g2, SendError err :: sends, st))
  /\ (forall (targets : list BusterTarget) (events : list select_event)
             (g : Gobuster),
        worker plugin (List.map Received targets ++ events) g
        = let '(g1, sends1) := handleAll plugin targets g in
          let '(g2, sends2, st) := worker plugin events g1 in
          (g2, sends1 ++ sends2, st))
  /\ (forall (targets : list BusterTarget) (g : Gobuster),
        worker plugin (List.map Received targets) g
        = (fst (handleAll plugin targets g),
           snd (handleAll plugin targets g), InLoop))
  /\ (forall (events : list select_event) (g g' : Gobuster) sends st,
        worker plugin events g = (g', sends, st) ->
        match st with
        | InLoop => True
        | ReturnedOnDone => ContextDone ∈ events
        | ReturnedOnClose => ChannelClosed ∈ events
        end)
  /\ (forall (p : Pool) (w : nat) (busterTarget : BusterTarget) (err : error),
        pool_status p w = InLoop ->
        plugin_Process plugin (incrementRequests (pool_state p)) busterTarget
        = inl err ->
        let p' := pool_step plugin p (w, Received busterTarget) in
        pool_sent p' = pool_sent p ++ [SendError err]
        /\ forall w', pool_status p' w' = pool_status p w')
  /\ (forall (schedule : list (nat * select_event)) (p : Pool) (w : nat),
        pool_status p w = InLoop ->
        match pool_status (pool_run plugin schedule p) w with
        | InLoop => True
        | ReturnedOnDone => (w, ContextDone) ∈ schedule
        | ReturnedOnClose => (w, ChannelClosed) ∈ schedule
        end)
  /\ (forall process env g,
        Start url_Parse (withProcess plugin process) env g
        = Start url_Parse plugin env g)
  /\ (forall env g st,
        Start url_Parse plugin env g = Returns st ->
        match start_err st with
        | Some err =>
            start_closed st = false
            /\ (snd (plugin_Setup plugin g) = Some err
                \/ (exists g0 g1,
                      getWaybackUrls url_Parse (env_wayback env) g0
                      = Returns (g1, inl err))
                \/ (exists g1 g2,
                      getWordlist (env_stdin env) (env_wordlist env) g1
                      = (g2, inl err)))
        | None => start_closed st = true /\ snd (plugin_Setup plugin g) = None
        end).
Proof.
  split; [|split; [|split; [|split; [|split; [|split; [|split]]]]]].
  - intros g t err events H. cbn [worker]. rewrite H. reflexivity.
  - intros targets events g. apply worker_handles_all.
  - intros targets g.
    pose proof (worker_handles_all plugin targets [] g) as H.
    rewrite app_nil_r in H. rewrite H.
    destruct (handleAll plugin targets g) as [g1 sends1].
    cbn [worker fst snd]. rewrite app_nil_r. reflexivity.
  - apply worker_returns_on_event.
  - intros p w t err Hw He. apply pool_step_error; assumption.
  - intros schedule p w Hw. apply pool_returns_on_event. exact Hw.
  - intros process env g. apply Start_without_Process.
  - intros env g st. apply Start_error_origin.
Qed.

(** ** The wildcard calibration of [Setup] *)

Lemma Opts_calibrated (s : scope) (url16 url8 : string)
    (resp16 resp8 : Response) (g : Gobuster) :
  Opts (calibrated s url16 url8 resp16 resp8 g) = Opts g.
Proof.
  unfold calibrated.
  destruct s; repeat match goal with |- context [if ?c then _ else _] =>
                       destruct c end; reflexivity.
Qed.

(** A call of [Setup] that returns no error has received the four probe
    responses and has compared them scope by scope, the directory scope
    last. *)
Lemma Setup_returns (GetRequest : string -> error + Response)
    (uuids : Uuids) (g g' : Gobuster) :
  Setup GetRequest uuids g = (g', None) ->
  exists file16 file8 dir16 dir8 : Response,
    GetRequest (fst (probeURLs FileScope uuids g)) = inr file16
    /\ GetRequest (snd (probeURLs FileScope uuids g)) = inr file8
    /\ GetRequest (fst (probeURLs DirScope uuids g)) = inr dir16
    /\ GetRequest (snd (probeURLs DirScope uuids g)) = inr dir8
    /\ g' = calibrated DirScope
              (fst (probeURLs DirScope uuids g))
              (snd (probeURLs DirScope uuids g)) dir16 dir8
              (calibrated FileScope
                 (fst (probeURLs FileScope uuids g))
                 (snd (probeURLs FileScope uuids g)) file16 file8
                 (set_WildcardStatusCode (Some 0%Z) g)).
Proof.
  unfold Setup.
  destruct (GetRequest (URL (Opts g))) as [err|resp]; [discriminate|].
  cbv zeta.
  change (Opts (set_WildcardStatusCode (Some 0%Z) g)) with (Opts g).
  destruct (GetRequest (URL (Opts g) +:+ uuidPrefix 16 (uuid_File16 uuids)))
    as [err|file16] eqn:E16; [discriminate|].
  destruct (GetRequest (URL (Opts g) +:+ uuidPrefix 8 (uuid_File8 uuids)))
    as [err|file8] eqn:E8; [discriminate|].
  match goal with
  | |- context [GetRequest (URL (Opts ?gF) +:+ uuidPrefix 15 _ +:+ "/")] =>
      change gF with
        (calibrated FileScope
           (URL (Opts g) +:+ uuidPrefix 16 (uuid_File16 uuids))
           (URL (Opts g) +:+ uuidPrefix 8 (uuid_File8 uuids)) file16 file8
           (set_WildcardStatusCode (Some 0%Z) g))
  end.
  rewrite !Opts_calibrated.
  change (Opts (set_WildcardStatusCode (Some 0%Z) g)) with (Opts g).
  destruct (GetRequest (URL (Opts g) +:+ uuidPrefix 15 (uuid_Dir16 uuids) +:+ "/"))
    as [err|dir16] eqn:D16; [discriminate|].
  destruct (GetRequest (URL (Opts g) +:+ uuidPrefix 7 (uuid_Dir8 uuids) +:+ "/"))
    as [err|dir8] eqn:D8; [discriminate|].
  intros H. inversion H as [Hg]. clear H.
  exists file16, file8, dir16, dir8.
  cbn [probeURLs fst snd]. repeat (split; [assumption|]).
  reflexivity.
Qed.

Lemma calibrated_byTitle (s : scope) (url16 url8 : string)
    (resp16 resp8 : Response) (g : Gobuster) :
  resp_Status resp16 = resp_Status resp8 ->
  cleanTitle (resp_Content resp16) <> "" ->
  cleanTitle (resp_Content resp16) = cleanTitle (resp_Content resp8) ->
  let g' := calibrated s url16 url8 resp16 resp8 g in
  byTitle s g' = true
  /\ storedTitle s g' = cleanTitle (resp_Content resp16)
  /\ WildcardStatusCode g' = Some (resp_Status resp16).
Proof.
  intros Hst Hne Heq. unfold calibrated.
  rewrite Hst, Z.eqb_refl, <- Heq, String.eqb_refl.
  apply String.eqb_neq in Hne. rewrite Hne. cbn [negb andb].
  destruct s; repeat split; reflexivity.
Qed.

Lemma calibrated_other_scope (s s' : scope) (url16 url8 : string)
    (resp16 resp8 : Response) (g : Gobuster) :
  s <> s' ->
  let g' := calibrated s' url16 url8 resp16 resp8 g in
  byTitle s g' = byTitle s g
  /\ byContentLength s g' = byContentLength s g
  /\ storedTitle s g' = storedTitle s g.
Proof.
  intros Hne. unfold calibrated.
  destruct s, s'; try congruence;
    repeat match goal with |- context [if ?c then _ else _] =>
             destruct c end; repeat split; reflexivity.
Qed.

(** The flags and the title of a scope after a call of [Setup] whose
    probes of the scope agree on the status and on a non-empty title. *)
Lemma Setup_byTitle (GetRequest : string -> error + Response)
    (uuids : Uuids) (g g' : Gobuster) (s : scope) (resp16 resp8 : Response) :
  Setup GetRequest uuids g = (g', None) ->
  GetRequest (fst (probeURLs s uuids g)) = inr resp16 ->
  GetRequest (snd (probeURLs s uuids g)) = inr resp8 ->
  resp_Status resp16 = resp_Status resp8 ->
  cleanTitle (resp_Content resp16) <> "" ->
  cleanTitle (resp_Content resp16) = cleanTitle (resp_Content resp8) ->
  byTitle s g' = true
  /\ storedTitle s g' = cleanTitle (resp_Content resp16).
Proof.
  intros HS H16 H8 Hst Hne Heq.
  destruct (Setup_returns _ _ _ _ HS)
    as (file16 & file8 & dir16 & dir8 & F16 & F8 & D16 & D8 & ->).
  destruct s.
  - rewrite F16 in H16. rewrite F8 in H8.
    injection H16 as ->. injection H8 as ->.
    destruct (calibrated_other_scope FileScope DirScope
                (fst (probeURLs DirScope uuids g))
                (snd (probeURLs DirScope uuids g)) dir16 dir8
                (calibrated FileScope (fst (probeURLs FileScope uuids g))
                   (snd (probeURLs FileScope uuids g)) resp16 resp8
                   (set_WildcardStatusCode (Some 0%Z) g)))
      as (-> & _ & ->); [discriminate|].
    destruct (calibrated_byTitle FileScope (fst (probeURLs FileScope uuids g))
                (snd (probeURLs FileScope uuids g)) resp16 resp8
                (set_WildcardStatusCode (Some 0%Z) g) Hst Hne Heq)
      as (-> & -> & _).
    split; reflexivity.
  - rewrite D16 in H16. rewrite D8 in H8.
    injection H16 as ->. injection H8 as ->.
    destruct (calibrated_byTitle DirScope (fst (probeURLs DirScope uuids g))
                (snd (probeURLs DirScope uuids g)) resp16 resp8
                (calibrated FileScope (fst (probeURLs FileScope uuids g))
                   (snd (probeURLs FileScope uuids g)) file16 file8
                   (set_WildcardStatusCode (Some 0%Z) g)) Hst Hne Heq)
      as (-> & -> & _).
    split; reflexivity.
Qed.

(** ** The classification of [ResultToString] *)

Lemma scopeOf_File (r : Result) :
  scopeOf r = FileScope <-> strings_HasSuffix (Entity r) "/" = false.
Proof.
  unfold scopeOf. destruct (strings_HasSuffix (Entity r) "/");
    split; congruence.
Qed.

Lemma scopeOf_Dir (r : Result) :
  scopeOf r = DirScope <-> strings_HasSuffix (Entity r) "/" = true.
Proof.
  unfold scopeOf. destruct (strings_HasSuffix (Entity r) "/");
    split; congruence.
Qed.

(** With the by-title flag of its scope set, a result with the stored
    status is a false positive exactly when the title of its body is the
    stored one (the stored title is not empty). *)
Lemma isFalsePositive_byTitle (g : Gobuster) (r : Result) (content : string) :
  byTitle (scopeOf r) g = true ->
  storedTitle (scopeOf r) g <> "" ->
  WildcardStatusCode g = Some (Status r) ->
  Content r = Some content ->
  isFalsePositive g r
  = Returns (String.eqb (cleanTitle content) (storedTitle (scopeOf r) g)).
Proof.
  intros Hflag Hne Hst Hc. unfold isFalsePositive, cleanTitle.
  rewrite Hst, Z.eqb_refl, Hc.
  unfold scopeOf in *.
  destruct (strings_HasSuffix (Entity r) "/"); cbn [byTitle storedTitle] in *;
    rewrite Hflag;
    (destruct (title_FindStringSubmatch content); [reflexivity|]);
    f_equal; symmetry; apply String.eqb_neq; congruence.
Qed.

(** With neither flag of its scope set, no result is a false positive. *)
Lemma isFalsePositive_no_flag (g : Gobuster) (r : Result) (w : Z) :
  byTitle (scopeOf r) g = false ->
  byContentLength (scopeOf r) g = false ->
  WildcardStatusCode g = Some w ->
  isFalsePositive g r = Returns false.
Proof.
  intros Ht Hl Hst. unfold isFalsePositive. rewrite Hst.
  unfold scopeOf in *.
  destruct (strings_HasSuffix (Entity r) "/");
    cbn [byTitle byContentLength] in *; rewrite Ht, Hl;
    destruct (Status r =? w)%Z; reflexivity.
Qed.

(** C1, as stated, fails: the file probes of [transport_status_only] agree
    on the status 200 and leave no discriminator, and a file result with
    status 200 is not classified as a false positive; in verbose mode it
    is printed as found. *)
Lemma status_alone_counterexample :
  let g := fst (Setup transport_status_only example_uuids verbose_run) in
  let r := file_result 200 "hello" in
  snd (Setup transport_status_only example_uuids verbose_run) = None
  /\ WildcardStatusCode g = Some (Status r)
  /\ scopeOf r = FileScope
  /\ byTitle (scopeOf r) g = false
  /\ byContentLength (scopeOf r) g = false
  /\ isFalsePositive g r = Returns false
  /\ ResultToString url.Parse example_time g r
     = Returns
         ("FOUND           [07:05:01]     200           5 B     -     http://t/admin"
          +:+ String newline "",
          "[2024-03-09 07:05:01] - /admin - 200" +:+ String newline "",
          200%Z).
Proof. repeat split; vm_compute; reflexivity. Qed.

Lemma verbosePrefix_not_false_positive (g : Gobuster) (r : Result)
    (hasExclude : bool) (line : string) :
  Verbose (Opts g) = true ->
  strings_HasPrefix (verbosePrefix g r false hasExclude +:+ line)
    "FALSE POSITIVE" = false.
Proof.
  intros Hv. unfold verbosePrefix. rewrite Hv.
  destruct (negb (intSet_Contains (ExcludedStatusCodesParsed (Opts g)) (Status r))
            && negb hasExclude); reflexivity.
Qed.

(** C1, amended: a result for whose scope no discriminator was captured
    (neither the by-title nor the by-content-length flag is set) is not
    classified as a false positive, also when its status equals the stored
    wildcard status code; in verbose mode its display line does not carry
    the mark of a false positive. *)
Theorem status_alone_not_false_positive (g : Gobuster) (r : Result) :
  WildcardStatusCode g = Some (Status r) ->
  byTitle (scopeOf r) g = false ->
  byContentLength (scopeOf r) g = false ->
  isFalsePositive g r = Returns false
  /\ forall (url_Parse : string -> option url.URL) (t : Time)
            (display archive : string) (status : Z),
       Verbose (Opts g) = true ->
       ResultToString url_Parse t g r = Returns (display, archive, status) ->
       strings_HasPrefix display "FALSE POSITIVE" = false.
Proof.
  intros Hst Ht Hl.
  pose proof (isFalsePositive_no_flag g r _ Ht Hl Hst) as Hfp.
  split; [exact Hfp|].
  intros url_Parse t display archive status Hv. unfold ResultToString.
  rewrite Hfp. destruct (hasExcludeString g r) as [|hasExclude]; [discriminate|].
  rewrite Hv, orb_true_r.
  destruct (RedirectURL r) as [redirectURL|]; [|discriminate].
  intros H. injection H as <- _ _.
  apply verbosePrefix_not_false_positive. exact Hv.
Qed.

Lemma status_alone_not_false_positive_witness :
  let g := fst (Setup transport_status_only example_uuids verbose_run) in
  let r := file_result 200 "hello" in
  WildcardStatusCode g = Some (Status r)
  /\ byTitle (scopeOf r) g = false
  /\ byContentLength (scopeOf r) g = false
  /\ isFalsePositive g r = Returns false.
Proof.
  repeat (split; [vm_compute; reflexivity|]).
  apply (status_alone_not_false_positive
           (fst (Setup transport_status_only example_uuids verbose_run))
           (file_result 200 "hello")); vm_compute; reflexivity.
Defined.

(** C2 at a target whose unknown files answer 200 and whose unknown
    directories answer 404: [Setup] flags the file scope by its title, and
    then stores the status 404 of the directory scope over the status 200
    of the file scope.  A file result with status 200 and the file scope's
    title is compared with 404 and printed as found, and a file result
    with status 404 is compared with the directory scope's status and
    marked as a false positive. *)
Theorem Setup_overwrites_file_status :
  let g := fst (Setup transport_two_statuses example_uuids verbose_run) in
  snd (Setup transport_two_statuses example_uuids verbose_run) = None
  /\ transport_two_statuses (fst (probeURLs FileScope example_uuids verbose_run))
     = inr (page 200 "<title>Not Found</title>")
  /\ transport_two_statuses (snd (probeURLs FileScope example_uuids verbose_run))
     = inr (page 200 "<title>Not Found</title>")
  /\ byTitle FileScope g = true
  /\ storedTitle FileScope g = "Not Found"
  /\ WildcardStatusCode g = Some 404%Z
  /\ scopeOf (file_result 200 "<title>Not Found</title>") = FileScope
  /\ isFalsePositive g (file_result 200 "<title>Not Found</title>")
     = Returns false
  /\ ResultToString url.Parse example_time g
       (file_result 200 "<title>Not Found</title>")
     = Returns
         ("FOUND           [07:05:01]     200          24 B     -     http://t/admin"
          +:+ String newline "",
          "[2024-03-09 07:05:01] - /admin - 200" +:+ String newline "",
          200%Z)
  /\ isFalsePositive g (file_result 404 "<title>Not Found</title>")
     = Returns true.
Proof. repeat split; vm_compute; reflexivity. Qed.

(** The status that [Setup] leaves is the one of the directory scope
    whenever the directory probes agree, whatever the file probes
    returned. *)
Lemma Setup_stores_dir_status (GetRequest : string -> error + Response)
    (uuids : Uuids) (g g' : Gobuster) (dir16 dir8 : Response) :
  Setup GetRequest uuids g = (g', None) ->
  GetRequest (fst (probeURLs DirScope uuids g)) = inr dir16 ->
  GetRequest (snd (probeURLs DirScope uuids g)) = inr dir8 ->
  resp_Status dir16 = resp_Status dir8 ->
  WildcardStatusCode g' = Some (resp_Status dir16).
Proof.
  intros HS H16 H8 Hst.
  destruct (Setup_returns _ _ _ _ HS)
    as (file16 & file8 & d16 & d8 & F16 & F8 & D16 & D8 & ->).
  rewrite D16 in H16. rewrite D8 in H8. injection H16 as ->. injection H8 as ->.
  unfold calibrated at 1. rewrite Hst, Z.eqb_refl.
  repeat match goal with |- context [if ?c then _ else _] => destruct c end;
    reflexivity.
Qed.

(** C3, as stated, fails: the two file probes of [transport_capitals]
    return the status 200 and bodies whose first title, read without
    regard to case, is [Not Found]; the title pattern of [Setup] does not
    match them, and the file scope is not flagged by title. *)
Lemma capital_title_counterexample :
  transport_capitals (fst (probeURLs FileScope example_uuids example_run))
  = inr (page 200 "<TITLE>Not Found</TITLE>")
  /\ transport_capitals (snd (probeURLs FileScope example_uuids example_run))
     = inr (page 200 "<TITLE>Not Found</TITLE>")
  /\ specTitle "<TITLE>Not Found</TITLE>" = Some "Not Found"
  /\ cleanTitle "<TITLE>Not Found</TITLE>" = ""
  /\ snd (Setup transport_capitals example_uuids example_run) = None
  /\ byTitle FileScope (fst (Setup transport_capitals example_uuids example_run))
     = false.
Proof. repeat split; vm_compute; reflexivity. Qed.

(** The title pattern is greedy: of several titles the last one is
    kept, not the first. *)
Example cleanTitle_last :
  cleanTitle "<title>A</title><title>B</title>" = "B"
  /\ specTitle "<title>A</title><title>B</title>" = Some "A".
Proof. split; vm_compute; reflexivity. Qed.

(** C3, amended: if the two calibration probes of a scope return equal
    status codes, and the titles that the title pattern of [Setup]
    extracts from their bodies (case-sensitive; from the last opening tag
    that a closing tag follows to the last closing tag, newlines
    included; white space trimmed) are both non-empty and equal, then
    [Setup] flags the scope by title and stores the title; thereafter a
    result of that scope whose status is the stored wildcard status is a
    false positive when the title of its body is the stored one, and is
    none when it is another. *)
Theorem wildcard_by_title (GetRequest : string -> error + Response)
    (uuids : Uuids) (g g' : Gobuster) (s : scope) (resp16 resp8 : Response) :
  Setup GetRequest uuids g = (g', None) ->
  GetRequest (fst (probeURLs s uuids g)) = inr resp16 ->
  GetRequest (snd (probeURLs s uuids g)) = inr resp8 ->
  resp_Status resp16 = resp_Status resp8 ->
  cleanTitle (resp_Content resp16) <> "" ->
  cleanTitle (resp_Content resp16) = cleanTitle (resp_Content resp8) ->
  byTitle s g' = true
  /\ storedTitle s g' = cleanTitle (resp_Content resp16)
  /\ forall (r : Result) (content : string),
       scopeOf r = s ->
       WildcardStatusCode g' = Some (Status r) ->
       Content r = Some content ->
       (cleanTitle content = storedTitle s g' ->
        isFalsePositive g' r = Returns true)
       /\ (cleanTitle content <> storedTitle s g' ->
           isFalsePositive g' r = Returns false).
Proof.
  intros HS H16 H8 Hst Hne Heq.
  destruct (Setup_byTitle _ _ _ _ _ _ _ HS H16 H8 Hst Hne Heq) as [Hflag Htitle].
  split; [exact Hflag|]. split; [exact Htitle|].
  intros r content <- Hw Hc.
  rewrite (isFalsePositive_byTitle g' r content Hflag); try assumption.
  - split; intros H.
    + rewrite H, String.eqb_refl. reflexivity.
    + apply String.eqb_neq in H. rewrite H. reflexivity.
  - rewrite Htitle. exact Hne.
Qed.

Lemma wildcard_by_title_witness :
  let g' := fst (Setup transport_titled example_uuids example_run) in
  Setup transport_titled example_uuids example_run = (g', None)
  /\ transport_titled (fst (probeURLs FileScope example_uuids example_run))
     = inr (page 200 "<html><title>Not Found</title> 0a1b</html>")
  /\ transport_titled (snd (probeURLs FileScope example_uuids example_run))
     = inr (page 200 "<html><title>Not Found</title> 11</html>")
  /\ resp_Status (page 200 "<html><title>Not Found</title> 0a1b</html>")
     = resp_Status (page 200 "<html><title>Not Found</title> 11</html>")
  /\ cleanTitle
       (resp_Content (page 200 "<html><title>Not Found</title> 0a1b</html>"))
     <> ""
  /\ cleanTitle
       (resp_Content (page 200 "<html><title>Not Found</title> 0a1b</html>"))
     = cleanTitle
         (resp_Content (page 200 "<html><title>Not Found</title> 11</html>"))
  /\ byTitle FileScope g' = true
  /\ storedTitle FileScope g' = "Not Found".
Proof.
  pose proof (wildcard_by_title transport_titled example_uuids example_run
                (fst (Setup transport_titled example_uuids example_run))
                FileScope
                (page 200 "<html><title>Not Found</title> 0a1b</html>")
                (page 200 "<html><title>Not Found</title> 11</html>")) as H.
  assert (H1 : Setup transport_titled example_uuids example_run
               = (fst (Setup transport_titled example_uuids example_run), None))
    by (vm_compute; reflexivity).
  assert (H2 : transport_titled
                 (fst (probeURLs FileScope example_uuids example_run))
               = inr (page 200 "<html><title>Not Found</title> 0a1b</html>"))
    by (vm_compute; reflexivity).
  assert (H3 : transport_titled
                 (snd (probeURLs FileScope example_uuids example_run))
               = inr (page 200 "<html><title>Not Found</title> 11</html>"))
    by (vm_compute; reflexivity).
  assert (H4 : resp_Status (page 200 "<html><title>Not Found</title> 0a1b</html>")
               = resp_Status (page 200 "<html><title>Not Found</title> 11</html>"))
    by reflexivity.
  assert (H5 : cleanTitle
                 (resp_Content
                    (page 200 "<html><title>Not Found</title> 0a1b</html>"))
               <> "") by (vm_compute; discriminate).
  assert (H6 : cleanTitle
                 (resp_Content
                    (page 200 "<html><title>Not Found</title> 0a1b</html>"))
               = cleanTitle
                   (resp_Content
                      (page 200 "<html><title>Not Found</title> 11</html>")))
    by (vm_compute; reflexivity).
  destruct (H H1 H2 H3 H4 H5 H6) as (Hflag & Htitle & _).
  cbv zeta.
  refine (conj H1 (conj H2 (conj H3 (conj H4 (conj H5 (conj H6
           (conj Hflag _))))))).
  rewrite Htitle. vm_compute. reflexivity.
Defined.

Example wildcard_by_title_example :
  let g' := fst (Setup transport_titled example_uuids example_run) in
  isFalsePositive g' (file_result 200 "<title>Not Found</title>") = Returns true
  /\ isFalsePositive g' (file_result 200 "<title>Welcome</title>")
     = Returns false.
Proof. split; vm_compute; reflexivity. Qed.

(** ** [ResultToString] and the clock *)

(** C8, as stated, fails: two calls on the same result and the same run
    state, one second apart, return different display and archive
    lines. *)
Lemma clock_counterexample :
  ResultToString url.Parse (mkTime 2024 3 9 7 5 1) calibrated_run
    (file_result 200 "hello")
  = Returns
      ("[07:05:01]     200           5 B     -     http://t/admin"
       +:+ String newline "",
       "[2024-03-09 07:05:01] - /admin - 200" +:+ String newline "",
       200%Z)
  /\ ResultToString url.Parse (mkTime 2024 3 9 7 5 2) calibrated_run
       (file_result 200 "hello")
     = Returns
         ("[07:05:02]     200           5 B     -     http://t/admin"
          +:+ String newline "",
          "[2024-03-09 07:05:02] - /admin - 200" +:+ String newline "",
          200%Z)
  /\ ResultToString url.Parse (mkTime 2024 3 9 7 5 1) calibrated_run
       (file_result 200 "hello")
     <> ResultToString url.Parse (mkTime 2024 3 9 7 5 2) calibrated_run
          (file_result 200 "hello").
Proof.
  split; [vm_compute; reflexivity|]. split; [vm_compute; reflexivity|].
  vm_compute. discriminate.
Qed.

Lemma append_not_empty (s t : string) : t <> "" -> s +:+ t <> "".
Proof. destruct s; simpl; [trivial | discriminate]. Qed.

Lemma displayLine_not_empty t g r redirectURL :
  displayLine t g r redirectURL <> "".
Proof. unfold displayLine. cbn [String.append]. discriminate. Qed.

Lemma archiveLine_not_empty url_Parse t r redirectURL :
  archiveLine url_Parse t r redirectURL <> "".
Proof. unfold archiveLine. cbn [String.append]. discriminate. Qed.

(** C8, amended: [ResultToString] is a function of the result, of the
    run's wildcard signature and options, and of the clock it reads.  Two
    calls on the same result and run state both panic or both return; they
    return the same status, the status of the result; they return the same
    display line when the two clock readings agree in hour, minute and
    second, and the same archive line when they agree in year, month and
    day as well; and whether a line is empty does not depend on the
    clock. *)
Theorem ResultToString_clock (url_Parse : string -> option url.URL)
    (t1 t2 : Time) (g : Gobuster) (r : Result) :
  match ResultToString url_Parse t1 g r, ResultToString url_Parse t2 g r with
  | Panics, Panics => True
  | Returns (display1, archive1, status1),
    Returns (display2, archive2, status2) =>
      status1 = Status r /\ status2 = Status r
      /\ (Hour t1 = Hour t2 -> Minute t1 = Minute t2 ->
          Second t1 = Second t2 -> display1 = display2)
      /\ (Year t1 = Year t2 -> Month t1 = Month t2 -> Day t1 = Day t2 ->
          Hour t1 = Hour t2 -> Minute t1 = Minute t2 ->
          Second t1 = Second t2 -> archive1 = archive2)
      /\ (display1 = "" <-> display2 = "")
      /\ (archive1 = "" <-> archive2 = "")
  | _, _ => False
  end.
Proof.
  unfold ResultToString.
  destruct (isFalsePositive g r) as [|fp]; [exact I|].
  destruct (hasExcludeString g r) as [|hx]; [exact I|].
  destruct (negb (intSet_Contains (ExcludedStatusCodesParsed (Opts g)) (Status r))
            && negb fp && negb hx || Verbose (Opts g)).
  - destruct (RedirectURL r) as [redirectURL|]; [|exact I].
    repeat split; try reflexivity.
    + intros Hh Hm Hs. unfold displayLine. rewrite Hh, Hm, Hs. reflexivity.
    + intros Hy Hmo Hd Hh Hm Hs. unfold archiveLine.
      rewrite Hy, Hmo, Hd, Hh, Hm, Hs. reflexivity.
    + intros H. exfalso. revert H. apply append_not_empty, displayLine_not_empty.
    + intros H. exfalso. revert H. apply append_not_empty, displayLine_not_empty.
    + intros H. exfalso. revert H. apply archiveLine_not_empty.
    + intros H. exfalso. revert H. apply archiveLine_not_empty.
  - repeat split; trivial.
Qed.

(** ** The static-asset pattern *)

Lemma asset_kept (inside : bool) (c : ascii) (s : string) :
  (inside && negb (Ascii.eqb c newline)) = false ->
  asset_match_here (String c s) = false ->
  asset_ReplaceAllString inside (String c s)
  = String c (asset_ReplaceAllString false s).
Proof. intros H1 H2. cbn [asset_ReplaceAllString]. rewrite H1, H2. reflexivity. Qed.

Lemma asset_kept_slash (s : string) :
  asset_ReplaceAllString false (String "/" s)
  = String "/" (asset_ReplaceAllString false s).
Proof. apply asset_kept; reflexivity. Qed.

Lemma run_dot_ext_cons (c : ascii) (s : string) :
  run_dot_ext (String c s)
  = (Ascii.eqb c "." && has_asset_ext s)
    || (negb (Ascii.eqb c "/") && run_dot_ext s).
Proof. reflexivity. Qed.

Lemma run_dot_ext_tail (c : ascii) (s : string) :
  Ascii.eqb c "/" = false ->
  run_dot_ext (String c s) = false ->
  run_dot_ext s = false /\ asset_match_here (String c s) = false.
Proof.
  intros Hc H. rewrite run_dot_ext_cons, Hc in H. cbn [negb andb] in H.
  apply orb_false_iff in H as [_ H]. split; [exact H|].
  cbn [asset_match_here]. rewrite Hc, H. reflexivity.
Qed.

Lemma slash_not_upper (x : ascii) :
  Ascii.eqb x "/" = false ->
  Ascii.eqb "/" x || Ascii.eqb "/" (ascii_upper x) = false.
Proof.
  destruct x as [[] [] [] [] [] [] [] []]; intros H;
    first [reflexivity | discriminate H].
Qed.

Lemma fold_prefix_clean (e : string) :
  slash_free e = true ->
  forall s : string,
    run_dot_ext s = false ->
    fold_prefix e (asset_ReplaceAllString false s) = fold_prefix e s.
Proof.
  induction e as [|x e' IH]; intros He s Hs; [reflexivity|].
  cbn [slash_free] in He. apply andb_true_iff in He as [Hx He'].
  apply negb_true_iff in Hx. specialize (IH He').
  destruct s as [|c s']; [reflexivity|].
  destruct (Ascii.eqb c "/") eqn:Hc.
  - apply Ascii.eqb_eq in Hc. subst c. rewrite asset_kept_slash.
    cbn [fold_prefix]. rewrite (slash_not_upper x Hx).
    destruct (asset_ReplaceAllString false s'), s'; cbn;
      rewrite ?andb_false_r; reflexivity.
  - destruct (run_dot_ext_tail c s' Hc Hs) as [Hs' Hm].
    rewrite (asset_kept false c s' eq_refl Hm). cbn [fold_prefix].
    destruct (Ascii.eqb c x || Ascii.eqb c (ascii_upper x)); [apply IH, Hs'|].
    destruct s' as [|c' s'']; [reflexivity|].
    destruct (Ascii.eqb c' "/") eqn:Hc'.
    + apply Ascii.eqb_eq in Hc'. subst c'. rewrite asset_kept_slash.
      cbn. rewrite !andb_false_r. reflexivity.
    + destruct (run_dot_ext_tail c' s'' Hc' Hs') as [Hs'' Hm'].
      rewrite (asset_kept false c' s'' eq_refl Hm').
      rewrite (IH s'' Hs''). reflexivity.
Qed.

Lemma has_asset_ext_clean (s : string) :
  run_dot_ext s = false ->
  has_asset_ext (asset_ReplaceAllString false s) = has_asset_ext s.
Proof.
  intros Hs. unfold has_asset_ext, asset_extensions. cbn [existsb].
  rewrite !(fun e H => fold_prefix_clean e H s Hs) by reflexivity.
  reflexivity.
Qed.

Lemma run_dot_ext_clean (s : string) :
  run_dot_ext s = false ->
  run_dot_ext (asset_ReplaceAllString false s) = false.
Proof.
  induction s as [|c s IH]; intros Hs; [reflexivity|].
  destruct (Ascii.eqb c "/") eqn:Hc.
  - apply Ascii.eqb_eq in Hc. subst c. rewrite asset_kept_slash. reflexivity.
  - destruct (run_dot_ext_tail c s Hc Hs) as [Hs' Hm].
    rewrite (asset_kept false c s eq_refl Hm).
    rewrite run_dot_ext_cons, (has_asset_ext_clean s Hs'), (IH Hs').
    rewrite run_dot_ext_cons, Hc, Hs' in Hs. cbn [negb andb] in Hs.
    rewrite orb_false_r in Hs. rewrite Hs, andb_false_r. reflexivity.
Qed.

(** What is left by the replacement holds no match at its head. *)
Lemma asset_no_match_left (s : string) : forall inside : bool,
  asset_match_here (asset_ReplaceAllString inside s) = false.
Proof.
  induction s as [|c s IH]; intros inside; [reflexivity|].
  cbn [asset_ReplaceAllString].
  destruct (inside && negb (Ascii.eqb c newline)); [apply IH|].
  destruct (asset_match_here (String c s)) eqn:Hm; [apply IH|].
  cbn [asset_match_here] in *.
  destruct (Ascii.eqb c "/"); [reflexivity|]. cbn [negb andb] in *.
  apply run_dot_ext_clean, Hm.
Qed.

(** The replacement is idempotent. *)
Lemma asset_ReplaceAllString_idem (s : string) : forall inside : bool,
  asset_ReplaceAllString false (asset_ReplaceAllString inside s)
  = asset_ReplaceAllString inside s.
Proof.
  induction s as [|c s IH]; intros inside; [reflexivity|].
  pose proof (asset_no_match_left (String c s) inside) as Hn.
  cbn [asset_ReplaceAllString] in *.
  destruct (inside && negb (Ascii.eqb c newline)); [apply IH|].
  destruct (asset_match_here (String c s)) eqn:Hm; [apply IH|].
  rewrite (asset_kept false c _ eq_refl Hn), IH. reflexivity.
Qed.

(** ** The equivalence decided by [parseWaybackUrls] *)

Lemma equivb_spec (value parsedURL : ParsedURL.t) :
  equivb value parsedURL = true <-> equivURL value parsedURL.
Proof.
  unfold equivb, equivURL.
  rewrite !andb_true_iff, !String.eqb_eq, bool_decide_eq_true. tauto.
Qed.

Lemma equivURL_refl (p : ParsedURL.t) : equivURL p p.
Proof. repeat split. Qed.

Lemma equivURL_sym (p q : ParsedURL.t) : equivURL p q -> equivURL q p.
Proof. intros (H1 & H2 & H3). repeat split; congruence. Qed.

Lemma equivURL_trans (p q r : ParsedURL.t) :
  equivURL p q -> equivURL q r -> equivURL p r.
Proof. intros (H1 & H2 & H3) (H4 & H5 & H6). repeat split; congruence. Qed.

Lemma elem_of_keysValues (q : Values) (k : string) :
  k ∈ keysValues q <-> k ∈ (dom q : gset string).
Proof.
  unfold keysValues. rewrite elem_of_dom, list_elem_of_fmap. split.
  - intros [[k' v] [-> H]]. apply elem_of_map_to_list in H. eauto.
  - intros [v H]. exists (k, v). split; [reflexivity|].
    apply elem_of_map_to_list. exact H.
Qed.

(** The loop over the keys returns true exactly when there is a key and
    every key is a key of the other query; the order of the keys does not
    matter. *)
Lemma queryKeysLoop_spec (keys : list string) (valueQuery : Values) :
  forall flag : bool,
  queryKeysLoop keys valueQuery flag = true <->
  (keys = [] /\ flag = true)
  \/ (keys <> [] /\ forall k, k ∈ keys -> k ∈ (dom valueQuery : gset string)).
Proof.
  induction keys as [|k keys IH]; intros flag.
  - cbn. split; [intros ->; left; split; reflexivity|].
    intros [[_ H]|[H _]]; [exact H|congruence].
  - cbn [queryKeysLoop]. destruct (valueQuery !! k) as [v|] eqn:Hk.
    + rewrite IH. split.
      * intros H. right. split; [discriminate|]. intros k' Hk'.
        apply elem_of_cons in Hk' as [->|Hk'].
        -- apply elem_of_dom. eauto.
        -- destruct H as [[-> _]|[_ H]]; [inversion Hk'|apply H, Hk'].
      * intros [[H _]|[_ H]]; [discriminate|].
        destruct keys as [|k' keys']; [left; split; reflexivity|].
        right. split; [discriminate|]. intros k'' Hk''. apply H.
        apply elem_of_cons. right. exact Hk''.
    + split; [discriminate|]. intros [[H _]|[_ H]]; [discriminate|].
      exfalso. assert (Hin : k ∈ (dom valueQuery : gset string)).
      { apply H. apply elem_of_cons. left. reflexivity. }
      apply elem_of_dom in Hin as [v Hv]. congruence.
Qed.

Lemma queryKeysLoop_order (keys keys' : list string) (valueQuery : Values)
    (flag : bool) :
  keys ≡ₚ keys' ->
  queryKeysLoop keys valueQuery flag = queryKeysLoop keys' valueQuery flag.
Proof.
  intros Hp. apply eq_true_iff_eq. rewrite !queryKeysLoop_spec.
  assert (Hnil : keys = [] <-> keys' = []).
  { split; intros ->; [apply Permutation_nil in Hp|
                       symmetry in Hp; apply Permutation_nil in Hp]; exact Hp. }
  split; intros [[H1 H2]|[H1 H2]].
  - left. split; [apply Hnil, H1|exact H2].
  - right. split; [intros E; apply H1, Hnil, E|].
    intros k Hk. apply H2. rewrite Hp. exact Hk.
  - left. split; [apply Hnil, H1|exact H2].
  - right. split; [intros E; apply H1, Hnil, E|].
    intros k Hk. apply H2. rewrite <- Hp. exact Hk.
Qed.

Lemma keysValues_nil (q : Values) : keysValues q = [] <-> size q = 0%nat.
Proof.
  unfold keysValues. rewrite <- (length_map_to_list q).
  destruct (map_to_list q); cbn; split; congruence.
Qed.

Lemma dom_eq_size (q q' : Values) :
  dom q = (dom q' : gset string) -> size q = size q'.
Proof. intros H. rewrite <- (size_dom q), <- (size_dom q'), H. reflexivity. Qed.

(** The test of the inner loop of [parseWaybackUrls] decides the
    equivalence. *)
Lemma isQueryMatching_equivb (value parsedURL : ParsedURL.t) :
  isQueryMatching value parsedURL = equivb value parsedURL.
Proof.
  unfold isQueryMatching, equivb, lenValues.
  destruct (String.eqb (ParsedURL.Host value) (ParsedURL.Host parsedURL)
            && String.eqb (ParsedURL.Path value) (ParsedURL.Path parsedURL));
    [|reflexivity].
  cbn [andb].
  set (pq := ParsedURL.Query parsedURL). set (vq := ParsedURL.Query value).
  apply eq_true_iff_eq. rewrite bool_decide_eq_true.
  destruct ((0 <? Z.of_nat (size pq))%Z
            && (Z.of_nat (size vq) =? Z.of_nat (size pq))%Z) eqn:HA.
  - apply andb_true_iff in HA as [Hpos Heq].
    apply Z.ltb_lt in Hpos. apply Z.eqb_eq in Heq.
    rewrite queryKeysLoop_spec. split.
    + intros [[_ H]|[_ H]]; [discriminate|]. symmetry.
      apply set_subseteq_size_eq.
      * intros k Hk. apply H, elem_of_keysValues, Hk.
      * rewrite !size_dom. lia.
    + intros Hdom. right. split.
      * rewrite keysValues_nil. lia.
      * intros k Hk. rewrite Hdom. apply elem_of_keysValues, Hk.
  - destruct ((Z.of_nat (size vq) =? 0)%Z && (Z.of_nat (size pq) =? 0)%Z) eqn:HB.
    + apply andb_true_iff in HB as [Hv Hp].
      apply Z.eqb_eq in Hv. apply Z.eqb_eq in Hp.
      split; [intros _|reflexivity].
      assert (Ev : vq = ∅) by (apply map_size_empty_iff; lia).
      assert (Ep : pq = ∅) by (apply map_size_empty_iff; lia).
      rewrite Ev, Ep. reflexivity.
    + split; [discriminate|]. intros Hdom. apply dom_eq_size in Hdom.
      apply andb_false_iff in HA. apply andb_false_iff in HB.
      rewrite Z.ltb_ge in HA. rewrite !Z.eqb_neq in HA, HB.
      exfalso. lia.
Qed.

Lemma isQueryMatching_spec (value parsedURL : ParsedURL.t) :
  isQueryMatching value parsedURL = true <-> equivURL value parsedURL.
Proof. rewrite isQueryMatching_equivb. apply equivb_spec. Qed.

Lemma isURLMatching_equivb (unique : list ParsedURL.t) (p : ParsedURL.t) :
  isURLMatching unique p = existsb (fun value => equivb value p) unique.
Proof.
  unfold isURLMatching. induction unique as [|q unique IH]; [reflexivity|].
  cbn [existsb]. rewrite IH, isQueryMatching_equivb. reflexivity.
Qed.

Lemma existsb_equivb (l : list ParsedURL.t) (p : ParsedURL.t) :
  existsb (fun value => equivb value p) l = true <->
  exists q, q ∈ l /\ equivURL q p.
Proof.
  rewrite existsb_exists. split; intros [q [H1 H2]]; exists q.
  - split; [apply list_elem_of_In, H1 | apply equivb_spec, H2].
  - split; [apply list_elem_of_In, H1 | apply equivb_spec, H2].
Qed.

Lemma represents_add (earlier unique : list ParsedURL.t) (p : ParsedURL.t) :
  represents earlier unique -> represents (earlier ++ [p]) (unique ++ [p]).
Proof. intros H x. rewrite !existsb_app, H. reflexivity. Qed.

Lemma represents_skip (earlier unique : list ParsedURL.t) (p : ParsedURL.t) :
  represents earlier unique ->
  existsb (fun value => equivb value p) unique = true ->
  represents (earlier ++ [p]) unique.
Proof.
  intros H Hp x. rewrite existsb_app, H. cbn [existsb]. rewrite orb_false_r.
  destruct (equivb p x) eqn:Hpx; [|apply orb_false_r].
  rewrite orb_true_r. symmetry. apply existsb_equivb.
  apply existsb_equivb in Hp as [q [Hq Hqp]]. exists q. split; [exact Hq|].
  apply equivb_spec in Hpx. eapply equivURL_trans; eassumption.
Qed.

(** The loop of [parseWaybackUrls] keeps the first occurrences. *)
Lemma uniqueLoop_firstOccurrences (parsed : list ParsedURL.t) :
  forall earlier unique : list ParsedURL.t,
  represents earlier unique ->
  uniqueLoop parsed unique = unique ++ firstOccurrences earlier parsed
  /\ represents (earlier ++ parsed) (uniqueLoop parsed unique).
Proof.
  induction parsed as [|p rest IH]; intros earlier unique Hrep.
  - cbn. rewrite !app_nil_r. split; [reflexivity|exact Hrep].
  - cbn [uniqueLoop firstOccurrences].
    rewrite (Hrep p), isURLMatching_equivb.
    replace (earlier ++ p :: rest) with ((earlier ++ [p]) ++ rest)
      by (rewrite <- app_assoc; reflexivity).
    destruct (List.length unique =? 0)%nat eqn:Hlen.
    + apply Nat.eqb_eq in Hlen. destruct unique; [|discriminate Hlen].
      cbn [existsb].
      destruct (IH (earlier ++ [p]) ([] ++ [p]) (represents_add _ _ p Hrep))
        as [-> Hrep'].
      split; [reflexivity|exact Hrep'].
    + destruct (existsb (fun value => equivb value p) unique) eqn:Hex.
      * destruct (IH (earlier ++ [p]) unique (represents_skip _ _ p Hrep Hex))
          as [-> Hrep'].
        split; [reflexivity|exact Hrep'].
      * destruct (IH (earlier ++ [p]) (unique ++ [p])
                    (represents_add _ _ p Hrep)) as [-> Hrep'].
        split; [|exact Hrep']. rewrite <- !app_assoc. reflexivity.
Qed.

Lemma uniqueParsedUrls_firstOccurrences
    (url_Parse : string -> option url.URL) (lines : list string) :
  uniqueParsedUrls url_Parse lines
  = firstOccurrences [] (parsedUrls url_Parse lines).
Proof.
  unfold uniqueParsedUrls.
  destruct (uniqueLoop_firstOccurrences (parsedUrls url_Parse lines) [] [])
    as [-> _]; [intros p; reflexivity|reflexivity].
Qed.

(** ** [sort.Strings] *)

Lemma insert_sorted_perm (x : string) (l : list string) :
  insert_sorted x l ≡ₚ x :: l.
Proof.
  induction l as [|y l IH]; cbn [insert_sorted]; [reflexivity|].
  destruct (String.leb x y); [reflexivity|].
  rewrite IH. apply perm_swap.
Qed.

Lemma sort_Strings_perm (l : list string) : sort_Strings l ≡ₚ l.
Proof.
  induction l as [|x l IH]; cbn [sort_Strings]; [reflexivity|].
  rewrite insert_sorted_perm, IH. reflexivity.
Qed.

Lemma insert_sorted_HdRel (a x : string) (l : list string) :
  string_le a x -> HdRel string_le a l -> HdRel string_le a (insert_sorted x l).
Proof.
  intros Hax Hl. destruct l as [|y l]; cbn [insert_sorted].
  - constructor. exact Hax.
  - destruct (String.leb x y); constructor; [exact Hax|].
    inversion Hl. assumption.
Qed.

Lemma insert_sorted_Sorted (x : string) (l : list string) :
  Sorted string_le l -> Sorted string_le (insert_sorted x l).
Proof.
  induction l as [|y l IH]; intros Hs; cbn [insert_sorted].
  - repeat constructor.
  - destruct (String.leb x y) eqn:Hxy.
    + constructor; [exact Hs|]. constructor. exact Hxy.
    + inversion Hs as [|? ? Hs' Hhd]; subst. constructor; [apply IH, Hs'|].
      apply insert_sorted_HdRel; [|exact Hhd].
      destruct (String.leb_total x y) as [H|H]; [congruence|exact H].
Qed.

Lemma sort_Strings_Sorted (l : list string) : Sorted string_le (sort_Strings l).
Proof.
  induction l as [|x l IH]; cbn [sort_Strings]; [constructor|].
  apply insert_sorted_Sorted, IH.
Qed.

(** C4: the test of the dedup loop holds exactly for two parsed URLs with
    the same host, the same asset-stripped path and the same set of query
    keys (the values are ignored, two empty sets are equal), whatever the
    order in which the keys are visited; the corpus is sorted, and the
    loop keeps of the sorted, parsed corpus the entries that no earlier
    entry is equivalent to, so that the first occurrence wins.  The parsed
    URL of a line carries the host and the query of [url.Parse] and its
    path with the static asset removed (the line as host, an empty path
    and no query when [url.Parse] fails), so that two lines are taken for
    the same exactly when their hosts, their paths after the removal of
    the asset and their sets of keys agree.  The two corpora of the
    specification yield one URL and two URLs, and two assets of one
    directory yield that directory once. *)
Theorem dedup_by_equivalence :
  (forall value parsedURL : ParsedURL.t,
      isQueryMatching value parsedURL = true <-> equivURL value parsedURL)
  /\ (forall (value parsedURL : ParsedURL.t) (keys : list string) (flag : bool),
        keys ≡ₚ keysValues (ParsedURL.Query parsedURL) ->
        queryKeysLoop keys (ParsedURL.Query value) flag
        = queryKeysLoop (keysValues (ParsedURL.Query parsedURL))
            (ParsedURL.Query value) flag)
  /\ (forall (url_Parse : string -> option url.URL) (lines : list string),
        Sorted string_le (sort_Strings lines)
        /\ sort_Strings lines ≡ₚ lines
        /\ uniqueUrls url_Parse lines
           = List.map ParsedURL.URL
               (firstOccurrences []
                  (List.map (parseLine url_Parse) (sort_Strings lines))))
  /\ (forall (url_Parse : string -> option url.URL) (line : string),
        ParsedURL.URL (parseLine url_Parse line)
        = asset_ReplaceAllString false line
        /\ match url_Parse line with
           | Some u =>
               ParsedURL.Host (parseLine url_Parse line) = url.Host u
               /\ ParsedURL.Path (parseLine url_Parse line)
                  = asset_ReplaceAllString false (url.Path u)
               /\ ParsedURL.Query (parseLine url_Parse line) = url.Query u
           | None =>
               ParsedURL.Host (parseLine url_Parse line) = line
               /\ ParsedURL.Path (parseLine url_Parse line) = ""
               /\ ParsedURL.Query (parseLine url_Parse line) = ∅
           end)
  /\ (forall (url_Parse : string -> option url.URL) (line1 line2 : string)
             (u1 u2 : url.URL),
        url_Parse line1 = Some u1 -> url_Parse line2 = Some u2 ->
        (isQueryMatching (parseLine url_Parse line1)
           (parseLine url_Parse line2) = true
         <-> url.Host u1 = url.Host u2
             /\ asset_ReplaceAllString false (url.Path u1)
                = asset_ReplaceAllString false (url.Path u2)
             /\ dom (url.Query u1) = (dom (url.Query u2) : gset string)))
  /\ uniqueUrls url.Parse ["http://h/a?x=1"; "http://h/a?x=2"]
     = ["http://h/a?x=1"]
  /\ List.map (fun p => (ParsedURL.Host p, ParsedURL.Path p))
       (uniqueParsedUrls url.Parse ["http://h/a?x=1"; "http://h/a?x=2"])
     = [("h", "/a")]
  /\ uniqueUrls url.Parse ["http://h/a?x=1"; "http://h/a?x=1&y=2"]
     = ["http://h/a?x=1"; "http://h/a?x=1&y=2"]
  /\ uniqueUrls url.Parse ["http://h/img/b.png"; "http://h/img/a.jpg"]
     = ["http://h/img/"]
  /\ List.map (fun p => (ParsedURL.Host p, ParsedURL.Path p))
       (uniqueParsedUrls url.Parse ["http://h/img/b.png"; "http://h/img/a.jpg"])
     = [("h", "/img/")]
  /\ uniqueUrls url.Parse ["http://h/img/a.jpg"; "http://h/css/a.jpg"]
     = ["http://h/css/"; "http://h/img/"].
Proof.
  split; [exact isQueryMatching_spec|].
  split; [intros value parsedURL keys flag H; apply queryKeysLoop_order, H|].
  split.
  { intros url_Parse lines.
    split; [apply sort_Strings_Sorted|]. split; [apply sort_Strings_perm|].
    unfold uniqueUrls. rewrite uniqueParsedUrls_firstOccurrences. reflexivity. }
  split.
  { intros url_Parse line. unfold parseLine.
    destruct (url_Parse line) as [u|]; repeat split. }
  split.
  { intros url_Parse line1 line2 u1 u2 E1 E2.
    rewrite isQueryMatching_spec. unfold equivURL, parseLine.
    rewrite E1, E2. reflexivity. }
  repeat split; vm_compute; reflexivity.
Qed.

(** ** A second pass of the dedup *)

Lemma firstOccurrences_subset (parsed : list ParsedURL.t) :
  forall (earlier : list ParsedURL.t) (p : ParsedURL.t),
  p ∈ firstOccurrences earlier parsed -> p ∈ parsed.
Proof.
  induction parsed as [|q rest IH]; intros earlier p Hp; [exact Hp|].
  cbn [firstOccurrences] in Hp. apply elem_of_app in Hp as [Hp|Hp].
  - destruct (existsb (fun value => equivb value q) earlier).
    + inversion Hp.
    + apply list_elem_of_singleton in Hp as ->. apply list_elem_of_here.
  - apply list_elem_of_further. eapply IH, Hp.
Qed.

Lemma elem_of_uniqueParsedUrls (url_Parse : string -> option url.URL)
    (lines : list string) (p : ParsedURL.t) :
  p ∈ uniqueParsedUrls url_Parse lines ->
  exists line, line ∈ lines /\ p = parseLine url_Parse line.
Proof.
  rewrite uniqueParsedUrls_firstOccurrences. intros Hp.
  apply firstOccurrences_subset in Hp. unfold parsedUrls in Hp.
  apply list_elem_of_fmap in Hp as [line [-> Hl]].
  exists line. split; [|reflexivity]. rewrite <- (sort_Strings_perm lines).
  exact Hl.
Qed.

Lemma URL_parseLine (url_Parse : string -> option url.URL) (line : string) :
  ParsedURL.URL (parseLine url_Parse line) = asset_ReplaceAllString false line.
Proof.
  unfold parseLine. destruct (url_Parse line); reflexivity.
Qed.

Lemma elem_of_uniqueUrls (url_Parse : string -> option url.URL)
    (lines : list string) (u : string) :
  u ∈ uniqueUrls url_Parse lines ->
  exists line, line ∈ lines /\ u = asset_ReplaceAllString false line.
Proof.
  unfold uniqueUrls. intros Hu.
  apply list_elem_of_fmap in Hu as [p [-> Hp]].
  apply elem_of_uniqueParsedUrls in Hp as [line [Hl ->]].
  exists line. split; [exact Hl|apply URL_parseLine].
Qed.

Lemma uniqueUrls_clean (url_Parse : string -> option url.URL)
    (lines : list string) (u : string) :
  u ∈ uniqueUrls url_Parse lines -> asset_ReplaceAllString false u = u.
Proof.
  intros Hu. apply elem_of_uniqueUrls in Hu as [line [_ ->]].
  apply asset_ReplaceAllString_idem.
Qed.

(** Every entry of the parsed corpus has an equivalent entry among the
    kept ones. *)
Lemma uniqueParsedUrls_represent (url_Parse : string -> option url.URL)
    (lines : list string) (line : string) :
  line ∈ lines ->
  exists q, q ∈ uniqueParsedUrls url_Parse lines
            /\ equivURL q (parseLine url_Parse line).
Proof.
  intros Hl. unfold uniqueParsedUrls.
  destruct (uniqueLoop_firstOccurrences (parsedUrls url_Parse lines) [] [])
    as [_ Hrep]; [intros p; reflexivity|].
  apply existsb_equivb. rewrite <- Hrep. apply existsb_equivb.
  exists (parseLine url_Parse line). split; [|apply equivURL_refl].
  cbn [app]. unfold parsedUrls.
  apply (list_elem_of_fmap_2 (parseLine url_Parse)).
  rewrite (sort_Strings_perm lines). exact Hl.
Qed.

(** C6, as stated, fails: on the corpus [corpus_not_idempotent] the first
    pass writes two URLs and a second pass on them writes one, so that the
    two outputs differ as sets. *)
Lemma dedup_not_idempotent_counterexample :
  uniqueUrls url.Parse corpus_not_idempotent
  = ["http://h/?x=/"; "http://h/?x=1"]
  /\ uniqueUrls url.Parse (uniqueUrls url.Parse corpus_not_idempotent)
     = ["http://h/?x=/"]
  /\ ~ (forall u : string,
          u ∈ uniqueUrls url.Parse (uniqueUrls url.Parse corpus_not_idempotent)
          <-> u ∈ uniqueUrls url.Parse corpus_not_idempotent).
Proof.
  assert (E1 : uniqueUrls url.Parse corpus_not_idempotent
               = ["http://h/?x=/"; "http://h/?x=1"]) by (vm_compute; reflexivity).
  assert (E2 : uniqueUrls url.Parse (uniqueUrls url.Parse corpus_not_idempotent)
               = ["http://h/?x=/"]) by (vm_compute; reflexivity).
  split; [exact E1|]. split; [exact E2|].
  rewrite E2, E1. intros H. specialize (H "http://h/?x=1").
  destruct H as [_ H].
  assert (Hin : "http://h/?x=1" ∈ ["http://h/?x=/"; "http://h/?x=1"])
    by (apply list_elem_of_further, list_elem_of_here).
  apply H, list_elem_of_singleton in Hin. discriminate Hin.
Qed.

(** C6, amended: for every corpus [x], every URL of
    [Normalize(Normalize(x))] is a URL of [Normalize(x)]: a second pass
    adds and rewrites nothing, the URLs of the first pass being left
    unchanged by the asset stripping; and every URL of [Normalize(x)] is
    equivalent, as the second pass parses it, to a URL of
    [Normalize(Normalize(x))]. *)
Theorem dedup_second_pass (url_Parse : string -> option url.URL)
    (lines : list string) :
  (forall u : string,
      u ∈ uniqueUrls url_Parse (uniqueUrls url_Parse lines) ->
      u ∈ uniqueUrls url_Parse lines)
  /\ (forall u : string,
        u ∈ uniqueUrls url_Parse lines -> asset_ReplaceAllString false u = u)
  /\ (forall u : string,
        u ∈ uniqueUrls url_Parse lines ->
        exists u' : string,
          u' ∈ uniqueUrls url_Parse (uniqueUrls url_Parse lines)
          /\ equivURL (parseLine url_Parse u') (parseLine url_Parse u)).
Proof.
  split; [|split].
  - intros u Hu. apply elem_of_uniqueUrls in Hu as [line [Hl ->]].
    rewrite (uniqueUrls_clean url_Parse lines line Hl). exact Hl.
  - apply uniqueUrls_clean.
  - intros u Hu.
    destruct (uniqueParsedUrls_represent url_Parse
                (uniqueUrls url_Parse lines) u Hu) as [q [Hq Hequiv]].
    pose proof Hq as Hq'.
    apply elem_of_uniqueParsedUrls in Hq' as [line [Hl ->]].
    exists line. split; [|exact Hequiv].
    unfold uniqueUrls at 1.
    replace line with (ParsedURL.URL (parseLine url_Parse line)) at 1.
    + apply (list_elem_of_fmap_2 ParsedURL.URL). exact Hq.
    + rewrite URL_parseLine. apply (uniqueUrls_clean url_Parse lines), Hl.
Qed.

Example dedup_second_pass_example :
  uniqueUrls url.Parse ["http://h/img/pic.jpg?ver=3"; "http://h/img/"]
  = ["http://h/img/"; "http://h/img/"]
  /\ uniqueUrls url.Parse
       (uniqueUrls url.Parse ["http://h/img/pic.jpg?ver=3"; "http://h/img/"])
     = ["http://h/img/"].
Proof. split; vm_compute; reflexivity. Qed.

(** * Further properties of the sources *)

(** ** [Setup]: errors and flags *)

Lemma WildcardStatusCode_calibrated (s : scope) (url16 url8 : string)
    (resp16 resp8 : Response) (g : Gobuster) :
  WildcardStatusCode g <> None ->
  WildcardStatusCode (calibrated s url16 url8 resp16 resp8 g) <> None.
Proof.
  intros H. unfold calibrated.
  destruct s; repeat match goal with |- context [if ?c then _ else _] =>
                       destruct c end; cbn; congruence.
Qed.

Lemma calibrated_fresh (s : scope) (url16 url8 : string)
    (resp16 resp8 : Response) (g : Gobuster) :
  byTitle s g = false -> byContentLength s g = false ->
  byTitle s (calibrated s url16 url8 resp16 resp8 g)
  && byContentLength s (calibrated s url16 url8 resp16 resp8 g) = false.
Proof.
  intros H1 H2. unfold calibrated.
  destruct s;
    repeat match goal with |- context [if ?c then _ else _] =>
             destruct c end; cbn in *; rewrite ?H1, ?H2; reflexivity.
Qed.

Lemma calibrated_disagree (s : scope) (url16 url8 : string)
    (resp16 resp8 : Response) (g : Gobuster) :
  resp_Status resp16 <> resp_Status resp8 ->
  calibrated s url16 url8 resp16 resp8 g = g.
Proof.
  intros H. unfold calibrated. apply Z.eqb_neq in H. rewrite H. reflexivity.
Qed.

(** X1: [Setup] returns no error exactly when the request of the base URL
    and the four probe requests all succeed; a failure of the base URL is
    reported as "unable to connect to", with the URL and the cause. *)
Theorem Setup_error_iff (GetRequest : string -> error + Response)
    (uuids : Uuids) (g : Gobuster) :
  (snd (Setup GetRequest uuids g) = None <->
   (exists resp, GetRequest (URL (Opts g)) = inr resp)
   /\ (forall s : scope,
         (exists resp, GetRequest (fst (probeURLs s uuids g)) = inr resp)
         /\ (exists resp, GetRequest (snd (probeURLs s uuids g)) = inr resp)))
  /\ (forall err, GetRequest (URL (Opts g)) = inl err ->
        Setup GetRequest uuids g
        = (g, Some ("unable to connect to " +:+ URL (Opts g) +:+ ": " +:+ err))).
Proof.
  split.
  - split.
    + intros H.
      destruct (Setup GetRequest uuids g) as [g' e] eqn:ES. cbn in H. subst e.
      split.
      * unfold Setup in ES.
        destruct (GetRequest (URL (Opts g))) as [err|resp]; [discriminate|].
        eauto.
      * destruct (Setup_returns _ _ _ _ ES)
          as (f16 & f8 & d16 & d8 & F16 & F8 & D16 & D8 & _).
        intros [|]; split; eauto.
    + intros [[resp Hb] Hp].
      destruct (Hp FileScope) as [[f16 F16] [f8 F8]].
      destruct (Hp DirScope) as [[d16 D16] [d8 D8]].
      cbn [probeURLs fst snd] in *.
      unfold Setup. rewrite Hb. cbv zeta.
      change (Opts (set_WildcardStatusCode (Some 0%Z) g)) with (Opts g).
      rewrite F16, F8.
      match goal with
      | |- context [GetRequest (URL (Opts ?gF) +:+ uuidPrefix 15 _ +:+ "/")] =>
          change gF with
            (calibrated FileScope
               (URL (Opts g) +:+ uuidPrefix 16 (uuid_File16 uuids))
               (URL (Opts g) +:+ uuidPrefix 8 (uuid_File8 uuids)) f16 f8
               (set_WildcardStatusCode (Some 0%Z) g))
      end.
      rewrite !Opts_calibrated.
      change (Opts (set_WildcardStatusCode (Some 0%Z) g)) with (Opts g).
      rewrite D16, D8. reflexivity.
  - intros err H. unfold Setup. rewrite H. reflexivity.
Qed.

Lemma calibrated_other (s s' : scope) (url16 url8 : string)
    (resp16 resp8 : Response) (g : Gobuster) :
  s <> s' ->
  byTitle s (calibrated s' url16 url8 resp16 resp8 g) = byTitle s g
  /\ byContentLength s (calibrated s' url16 url8 resp16 resp8 g)
     = byContentLength s g
  /\ storedTitle s (calibrated s' url16 url8 resp16 resp8 g) = storedTitle s g
  /\ storedLength s (calibrated s' url16 url8 resp16 resp8 g)
     = storedLength s g.
Proof.
  intros Hne. unfold calibrated.
  destruct s, s'; try congruence;
    repeat match goal with |- context [if ?c then _ else _] =>
             destruct c end; repeat split; reflexivity.
Qed.

(** The run state after a call of [Setup] that returns no error, by the
    responses of the two probes of a scope: [g0] is the state in which the
    probes of the scope are compared. *)
Lemma Setup_scope (GetRequest : string -> error + Response)
    (uuids : Uuids) (g g' : Gobuster) (s : scope) :
  Setup GetRequest uuids g = (g', None) ->
  exists (resp16 resp8 : Response) (g0 : Gobuster),
    GetRequest (fst (probeURLs s uuids g)) = inr resp16
    /\ GetRequest (snd (probeURLs s uuids g)) = inr resp8
    /\ byTitle s g0 = byTitle s g
    /\ byContentLength s g0 = byContentLength s g
    /\ WildcardStatusCode g0 <> None
    /\ byTitle s g'
       = byTitle s (calibrated s (fst (probeURLs s uuids g))
                      (snd (probeURLs s uuids g)) resp16 resp8 g0)
    /\ byContentLength s g'
       = byContentLength s (calibrated s (fst (probeURLs s uuids g))
                              (snd (probeURLs s uuids g)) resp16 resp8 g0)
    /\ storedTitle s g'
       = storedTitle s (calibrated s (fst (probeURLs s uuids g))
                          (snd (probeURLs s uuids g)) resp16 resp8 g0)
    /\ storedLength s g'
       = storedLength s (calibrated s (fst (probeURLs s uuids g))
                           (snd (probeURLs s uuids g)) resp16 resp8 g0)
    /\ WildcardStatusCode g' <> None.
Proof.
  intros HS.
  destruct (Setup_returns _ _ _ _ HS)
    as (f16 & f8 & d16 & d8 & F16 & F8 & D16 & D8 & ->).
  assert (H0 : WildcardStatusCode (set_WildcardStatusCode (Some 0%Z) g) <> None)
    by discriminate.
  destruct s.
  - exists f16, f8, (set_WildcardStatusCode (Some 0%Z) g).
    destruct (calibrated_other FileScope DirScope
                (fst (probeURLs DirScope uuids g))
                (snd (probeURLs DirScope uuids g)) d16 d8
                (calibrated FileScope (fst (probeURLs FileScope uuids g))
                   (snd (probeURLs FileScope uuids g)) f16 f8
                   (set_WildcardStatusCode (Some 0%Z) g)))
      as (E1 & E2 & E3 & E4); [discriminate|].
    refine (conj F16 (conj F8 (conj eq_refl (conj eq_refl (conj H0
             (conj E1 (conj E2 (conj E3 (conj E4 _))))))))).
    apply WildcardStatusCode_calibrated, WildcardStatusCode_calibrated, H0.
  - exists d16, d8,
      (calibrated FileScope (fst (probeURLs FileScope uuids g))
         (snd (probeURLs FileScope uuids g)) f16 f8
         (set_WildcardStatusCode (Some 0%Z) g)).
    destruct (calibrated_other DirScope FileScope
                (fst (probeURLs FileScope uuids g))
                (snd (probeURLs FileScope uuids g)) f16 f8
                (set_WildcardStatusCode (Some 0%Z) g))
      as (E1 & E2 & _ & _); [discriminate|].
    refine (conj D16 (conj D8 (conj E1 (conj E2
             (conj (WildcardStatusCode_calibrated _ _ _ _ _ _ H0)
                (conj eq_refl (conj eq_refl (conj eq_refl (conj eq_refl _))))))))).
    apply WildcardStatusCode_calibrated, WildcardStatusCode_calibrated, H0.
Qed.

(** X2: after a call of [Setup] on a run state without wildcard flags
    that returns no error, no scope is flagged both by title and by
    content length, and the stored status code is not nil. *)
Theorem Setup_flags_exclusive (GetRequest : string -> error + Response)
    (uuids : Uuids) (g g' : Gobuster) :
  (forall s, byTitle s g = false /\ byContentLength s g = false) ->
  Setup GetRequest uuids g = (g', None) ->
  (forall s, byTitle s g' && byContentLength s g' = false)
  /\ WildcardStatusCode g' <> None.
Proof.
  intros Hfresh HS. split.
  - intros s.
    destruct (Setup_scope _ _ _ _ s HS)
      as (r16 & r8 & g0 & _ & _ & Ht & Hl & _ & -> & -> & _).
    destruct (Hfresh s) as [H1 H2].
    apply calibrated_fresh; congruence.
  - destruct (Setup_scope _ _ _ _ FileScope HS)
      as (r16 & r8 & g0 & _ & _ & _ & _ & _ & _ & _ & _ & _ & H).
    exact H.
Qed.

Lemma Setup_flags_exclusive_witness :
  (forall s, byTitle s example_run = false
             /\ byContentLength s example_run = false)
  /\ Setup transport_two_statuses example_uuids example_run
     = (fst (Setup transport_two_statuses example_uuids example_run), None)
  /\ (forall s,
        byTitle s (fst (Setup transport_two_statuses example_uuids example_run))
        && byContentLength s
             (fst (Setup transport_two_statuses example_uuids example_run))
        = false).
Proof.
  assert (H1 : forall s, byTitle s example_run = false
                         /\ byContentLength s example_run = false)
    by (intros [|]; split; reflexivity).
  assert (H2 : Setup transport_two_statuses example_uuids example_run
               = (fst (Setup transport_two_statuses example_uuids example_run),
                  None)) by (vm_compute; reflexivity).
  split; [exact H1|]. split; [exact H2|].
  apply (Setup_flags_exclusive transport_two_statuses example_uuids example_run
           _ H1 H2).
Defined.

(** ** [Setup] and [ResultToString]: the content length and the scope without wildcard *)

Lemma calibrated_byContentLength (s : scope) (url16 url8 : string)
    (resp16 resp8 : Response) (g : Gobuster) :
  byTitle s g = false ->
  resp_Status resp16 = resp_Status resp8 ->
  cleanTitle (resp_Content resp16) = ""
  \/ cleanTitle (resp_Content resp16) <> cleanTitle (resp_Content resp8) ->
  len (strings_ReplaceAll (resp_Content resp16) url16 "")
  = len (strings_ReplaceAll (resp_Content resp8) url8 "") ->
  let g' := calibrated s url16 url8 resp16 resp8 g in
  byTitle s g' = false
  /\ byContentLength s g' = true
  /\ storedLength s g' = len (strings_ReplaceAll (resp_Content resp16) url16 "").
Proof.
  intros Hflag Hst Htitle Hlen. unfold calibrated.
  rewrite Hst, Z.eqb_refl, Hlen, Z.eqb_refl.
  assert (E : negb (String.eqb (cleanTitle (resp_Content resp16)) "")
              && String.eqb (cleanTitle (resp_Content resp16))
                   (cleanTitle (resp_Content resp8)) = false).
  { destruct Htitle as [->|H]; [reflexivity|].
    apply String.eqb_neq in H. rewrite H. apply andb_false_r. }
  rewrite E. destruct s; cbn in *; repeat split; assumption.
Qed.

Lemma isFalsePositive_byContentLength (g : Gobuster) (r : Result)
    (content : string) :
  byTitle (scopeOf r) g = false ->
  byContentLength (scopeOf r) g = true ->
  WildcardStatusCode g = Some (Status r) ->
  Content r = Some content ->
  isFalsePositive g r
  = Returns (len (strings_ReplaceAll content (strippedEntity g r) "")
             =? storedLength (scopeOf r) g)%Z.
Proof.
  intros Ht Hl Hst Hc. unfold isFalsePositive, strippedEntity.
  rewrite Hst, Z.eqb_refl, Hc. unfold scopeOf in *.
  destruct (strings_HasSuffix (Entity r) "/");
    cbn [byTitle byContentLength storedLength] in *; rewrite Ht, Hl;
    reflexivity.
Qed.

(** X3: if the two probes of a scope return equal status codes, their
    trimmed titles are not both non-empty and equal, and their bodies have
    the same length once the probe URL is removed from them, then [Setup]
    (on a run state whose by-title flag of the scope is not set) flags the
    scope by content length and stores that length; thereafter a result of
    the scope with the stored status is a false positive exactly when its
    body, with the requested URL removed, has the stored length. *)
Theorem wildcard_by_content_length (GetRequest : string -> error + Response)
    (uuids : Uuids) (g g' : Gobuster) (s : scope) (resp16 resp8 : Response) :
  byTitle s g = false ->
  Setup GetRequest uuids g = (g', None) ->
  GetRequest (fst (probeURLs s uuids g)) = inr resp16 ->
  GetRequest (snd (probeURLs s uuids g)) = inr resp8 ->
  resp_Status resp16 = resp_Status resp8 ->
  cleanTitle (resp_Content resp16) = ""
  \/ cleanTitle (resp_Content resp16) <> cleanTitle (resp_Content resp8) ->
  len (strings_ReplaceAll (resp_Content resp16) (fst (probeURLs s uuids g)) "")
  = len (strings_ReplaceAll (resp_Content resp8) (snd (probeURLs s uuids g)) "") ->
  byTitle s g' = false
  /\ byContentLength s g' = true
  /\ storedLength s g'
     = len (strings_ReplaceAll (resp_Content resp16)
              (fst (probeURLs s uuids g)) "")
  /\ forall (r : Result) (content : string),
       scopeOf r = s ->
       WildcardStatusCode g' = Some (Status r) ->
       Content r = Some content ->
       isFalsePositive g' r
       = Returns (len (strings_ReplaceAll content (strippedEntity g' r) "")
                  =? storedLength s g')%Z.
Proof.
  intros Hflag HS H16 H8 Hst Htitle Hlen.
  destruct (Setup_scope _ _ _ _ s HS)
    as (r16 & r8 & g0 & G16 & G8 & Ht0 & _ & _ & Et & El & _ & Esl & _).
  rewrite G16 in H16. rewrite G8 in H8. injection H16 as ->. injection H8 as ->.
  destruct (calibrated_byContentLength s (fst (probeURLs s uuids g))
              (snd (probeURLs s uuids g)) resp16 resp8 g0)
    as (C1 & C2 & C3); try assumption; [congruence|].
  rewrite <- Et in C1. rewrite <- El in C2. rewrite <- Esl in C3.
  refine (conj C1 (conj C2 (conj C3 _))).
  intros r content <- Hw Hc.
  apply isFalsePositive_byContentLength; assumption.
Qed.

Lemma wildcard_by_content_length_witness :
  byTitle FileScope example_run = false
  /\ Setup transport_echo example_uuids example_run
     = (fst (Setup transport_echo example_uuids example_run), None)
  /\ transport_echo (fst (probeURLs FileScope example_uuids example_run))
     = inr (page 200 "No page at http://t/0a1b2c3d4e5f4a6b here")
  /\ transport_echo (snd (probeURLs FileScope example_uuids example_run))
     = inr (page 200 "No page at http://t/11223344 here")
  /\ byContentLength FileScope
       (fst (Setup transport_echo example_uuids example_run)) = true
  /\ storedLength FileScope
       (fst (Setup transport_echo example_uuids example_run)) = 16%Z.
Proof.
  pose proof (wildcard_by_content_length transport_echo example_uuids
                example_run
                (fst (Setup transport_echo example_uuids example_run))
                FileScope
                (page 200 "No page at http://t/0a1b2c3d4e5f4a6b here")
                (page 200 "No page at http://t/11223344 here")) as H.
  assert (H1 : byTitle FileScope example_run = false) by reflexivity.
  assert (H2 : Setup transport_echo example_uuids example_run
               = (fst (Setup transport_echo example_uuids example_run), None))
    by (vm_compute; reflexivity).
  assert (H3 : transport_echo (fst (probeURLs FileScope example_uuids example_run))
               = inr (page 200 "No page at http://t/0a1b2c3d4e5f4a6b here"))
    by (vm_compute; reflexivity).
  assert (H4 : transport_echo (snd (probeURLs FileScope example_uuids example_run))
               = inr (page 200 "No page at http://t/11223344 here"))
    by (vm_compute; reflexivity).
  destruct (H H1 H2 H3 H4) as (_ & C2 & C3 & _);
    [reflexivity | left; vm_compute; reflexivity | vm_compute; reflexivity |].
  refine (conj H1 (conj H2 (conj H3 (conj H4 (conj C2 _))))).
  rewrite C3. vm_compute. reflexivity.
Defined.

Example wildcard_by_content_length_example :
  isFalsePositive (fst (Setup transport_echo example_uuids example_run))
    (file_result 200 "No page at http://t/admin here") = Returns true
  /\ isFalsePositive (fst (Setup transport_echo example_uuids example_run))
       (file_result 200 "<html>Administration</html>") = Returns false.
Proof. split; vm_compute; reflexivity. Qed.

(** X4: if the two probes of a scope return different status codes, then
    [Setup] (on a run state without wildcard flags for the scope) sets no
    flag for the scope, and no result of that scope is ever classified as a
    false positive, whatever its status and body. *)
Theorem no_wildcard_when_probes_disagree
    (GetRequest : string -> error + Response)
    (uuids : Uuids) (g g' : Gobuster) (s : scope) (resp16 resp8 : Response) :
  byTitle s g = false ->
  byContentLength s g = false ->
  Setup GetRequest uuids g = (g', None) ->
  GetRequest (fst (probeURLs s uuids g)) = inr resp16 ->
  GetRequest (snd (probeURLs s uuids g)) = inr resp8 ->
  resp_Status resp16 <> resp_Status resp8 ->
  byTitle s g' = false
  /\ byContentLength s g' = false
  /\ forall r : Result, scopeOf r = s -> isFalsePositive g' r = Returns false.
Proof.
  intros Ht Hl HS H16 H8 Hst.
  destruct (Setup_scope _ _ _ _ s HS)
    as (r16 & r8 & g0 & G16 & G8 & Ht0 & Hl0 & _ & Et & El & _ & _ & Hw).
  rewrite G16 in H16. rewrite G8 in H8. injection H16 as ->. injection H8 as ->.
  rewrite (calibrated_disagree s _ _ resp16 resp8 g0 Hst) in Et, El.
  assert (Ft : byTitle s g' = false) by congruence.
  assert (Fl : byContentLength s g' = false) by congruence.
  refine (conj Ft (conj Fl _)). intros r <-.
  destruct (WildcardStatusCode g') as [w|] eqn:Ew; [|congruence].
  apply (isFalsePositive_no_flag g' r w); assumption.
Qed.

Lemma no_wildcard_when_probes_disagree_witness :
  byTitle DirScope example_run = false
  /\ byContentLength DirScope example_run = false
  /\ Setup transport_titled example_uuids example_run
     = (fst (Setup transport_titled example_uuids example_run), None)
  /\ transport_titled (fst (probeURLs DirScope example_uuids example_run))
     = inr (page 404 "a")
  /\ transport_titled (snd (probeURLs DirScope example_uuids example_run))
     = inr (page 403 "b")
  /\ resp_Status (page 404 "a") <> resp_Status (page 403 "b")
  /\ byTitle DirScope (fst (Setup transport_titled example_uuids example_run))
     = false.
Proof.
  assert (H3 : Setup transport_titled example_uuids example_run
               = (fst (Setup transport_titled example_uuids example_run), None))
    by (vm_compute; reflexivity).
  assert (H4 : transport_titled (fst (probeURLs DirScope example_uuids example_run))
               = inr (page 404 "a")) by (vm_compute; reflexivity).
  assert (H5 : transport_titled (snd (probeURLs DirScope example_uuids example_run))
               = inr (page 403 "b")) by (vm_compute; reflexivity).
  assert (H6 : resp_Status (page 404 "a") <> resp_Status (page 403 "b"))
    by (cbn; discriminate).
  refine (conj eq_refl (conj eq_refl (conj H3 (conj H4 (conj H5 (conj H6 _)))))).
  apply (no_wildcard_when_probes_disagree transport_titled example_uuids
           example_run _ DirScope (page 404 "a") (page 403 "b")
           eq_refl eq_refl H3 H4 H5 H6).
Defined.

(** ** [Process] and [ResultToString] *)

Lemma HasSuffix_append_slash (s : string) :
  strings_HasSuffix (s +:+ "/") "/" = true.
Proof.
  unfold strings_HasSuffix. rewrite string_rev_app.
  change (string_rev "/") with (String "/" EmptyString).
  change (String "/" EmptyString +:+ string_rev s)
    with (String "/" (string_rev s)).
  rewrite prefix_cons. destruct (ascii_dec "/" "/"); [|congruence].
  destruct (string_rev s); reflexivity.
Qed.

Lemma Process_result (GetRequest : string -> error + Response)
    (g : Gobuster) (busterTarget : BusterTarget) (res : list Result) :
  Process GetRequest g busterTarget = inr res ->
  exists r, res = [r] /\ Content r <> None /\ RedirectURL r <> None
            /\ Size r <> None
            /\ IsEntityURL r = IsURL busterTarget
            /\ Entity r
               = if IsURL busterTarget then Target busterTarget
                 else TrimPrefix_slash (Target busterTarget)
                      +:+ (if UseSlash (Opts g) then "/" else "").
Proof.
  unfold Process. destruct (IsURL busterTarget); cbn [negb];
    match goal with |- context [GetRequest ?u] =>
      destruct (GetRequest u) as [err|resp] end;
    intros H; inversion H; subst; eexists; split; try reflexivity;
    cbn; repeat split; discriminate.
Qed.

(** X5: [ResultToString] dereferences the stored status code, which is
    nil on a fresh run, so that a call before [Setup] panics; after a
    [Setup] that returned no error, a call on a result built by [Process]
    returns, at every clock reading. *)
Theorem ResultToString_returns_after_Setup
    (GetRequest : string -> error + Response)
    (url_Parse : string -> option url.URL)
    (uuids : Uuids) (g g' g'' : Gobuster) (busterTarget : BusterTarget)
    (res : list Result) (r : Result) (t : Time) :
  Setup GetRequest uuids g = (g', None) ->
  Process GetRequest g'' busterTarget = inr res ->
  r ∈ res ->
  (exists lines, ResultToString url_Parse t g' r = Returns lines)
  /\ forall opts, ResultToString url_Parse t (NewGobuster opts) r = Panics.
Proof.
  intros HS HP Hr. split.
  - destruct (Setup_scope _ _ _ _ FileScope HS)
      as (_ & _ & _ & _ & _ & _ & _ & _ & _ & _ & _ & _ & Hw).
    destruct (Process_result _ _ _ _ HP) as (r0 & -> & Hc & Hred & _).
    apply list_elem_of_singleton in Hr. subst r0.
    destruct (WildcardStatusCode g') as [w|] eqn:Ew; [|congruence].
    destruct (Content r) as [content|] eqn:Ec; [|congruence].
    destruct (RedirectURL r) as [redirectURL|] eqn:Er; [|congruence].
    unfold ResultToString, isFalsePositive, hasExcludeString.
    rewrite Ew, Ec, Er.
    repeat match goal with
           | |- context [if ?c then _ else _] => destruct c
           | |- context [match ?c with Some _ => _ | None => _ end] =>
               destruct c
           end; eauto.
  - intros opts. reflexivity.
Qed.

Lemma ResultToString_returns_after_Setup_witness :
  Setup transport_status_only example_uuids example_run
  = (calibrated_run, None)
  /\ Process transport_status_only calibrated_run (target false "/0a1b2c3d4e5f4a6b")
     = inr [mkResult "0a1b2c3d4e5f4a6b" 200 "" (Some 8%Z) (Some "not here")
              false (Some "")]
  /\ exists lines,
       ResultToString url.Parse example_time calibrated_run
         (mkResult "0a1b2c3d4e5f4a6b" 200 "" (Some 8%Z) (Some "not here")
            false (Some ""))
       = Returns lines.
Proof.
  assert (H1 : Setup transport_status_only example_uuids example_run
               = (calibrated_run, None)) by (vm_compute; reflexivity).
  assert (H2 : Process transport_status_only calibrated_run
                 (target false "/0a1b2c3d4e5f4a6b")
               = inr [mkResult "0a1b2c3d4e5f4a6b" 200 "" (Some 8%Z)
                        (Some "not here") false (Some "")])
    by (vm_compute; reflexivity).
  refine (conj H1 (conj H2 _)).
  apply (ResultToString_returns_after_Setup transport_status_only url.Parse
           example_uuids example_run calibrated_run calibrated_run
           (target false "/0a1b2c3d4e5f4a6b") _ _ example_time H1 H2).
  apply list_elem_of_here.
Defined.

(** X6: when [ResultToString] returns, outside verbose mode the display
    line is empty exactly when the result is not shown (its status is
    excluded, or it is a false positive, or its body holds the exclude
    string), and so is the archive line; in verbose mode neither line is
    empty, whatever the result, and the display line starts with the mark
    of the result, padded to 16 bytes. *)
Theorem ResultToString_lines (url_Parse : string -> option url.URL)
    (t : Time) (g : Gobuster) (r : Result)
    (display archive : string) (status : Z) :
  ResultToString url_Parse t g r = Returns (display, archive, status) ->
  exists fp hx : bool,
    isFalsePositive g r = Returns fp
    /\ hasExcludeString g r = Returns hx
    /\ (Verbose (Opts g) = false ->
        (display = "" <-> shown g r fp hx = false)
        /\ (archive = "" <-> shown g r fp hx = false))
    /\ (Verbose (Opts g) = true ->
        archive <> ""
        /\ exists rest,
             rest <> ""
             /\ display = fmt_lws 16 (verboseMark g r fp hx) +:+ rest).
Proof.
  unfold ResultToString.
  destruct (isFalsePositive g r) as [|fp]; [discriminate|].
  destruct (hasExcludeString g r) as [|hx]; [discriminate|].
  intros H. exists fp, hx. split; [reflexivity|]. split; [reflexivity|].
  fold (shown g r fp hx) in H.
  destruct (Verbose (Opts g)) eqn:Hv.
  - rewrite orb_true_r in H.
    destruct (RedirectURL r) as [redirectURL|]; [|discriminate].
    injection H as <- <- _. split; [discriminate|]. intros _.
    split; [apply archiveLine_not_empty|].
    exists (displayLine t g r redirectURL).
    split; [apply displayLine_not_empty|].
    unfold verbosePrefix, verboseMark, shown. rewrite Hv.
    destruct fp; [reflexivity|]. cbn [negb andb]. rewrite andb_true_r.
    destruct (negb (intSet_Contains (ExcludedStatusCodesParsed (Opts g))
                      (Status r)) && negb hx); reflexivity.
  - rewrite orb_false_r in H. split; [|discriminate]. intros _.
    unfold verbosePrefix in H. rewrite Hv in H.
    destruct (shown g r fp hx).
    + destruct (RedirectURL r) as [redirectURL|]; [|discriminate].
      injection H as <- <- _. split; split; try discriminate.
      all: intros E; exfalso; revert E;
        first [apply archiveLine_not_empty
              | apply append_not_empty, displayLine_not_empty].
    + injection H as <- <- _. split; split; reflexivity.
Qed.

Lemma ResultToString_lines_witness :
  ResultToString url.Parse example_time excluding_run (file_result 404 "gone")
  = Returns ("", "", 404%Z)
  /\ exists fp hx : bool,
       isFalsePositive excluding_run (file_result 404 "gone") = Returns fp
       /\ hasExcludeString excluding_run (file_result 404 "gone") = Returns hx
       /\ shown excluding_run (file_result 404 "gone") fp hx = false.
Proof.
  assert (H : ResultToString url.Parse example_time excluding_run
                (file_result 404 "gone") = Returns ("", "", 404%Z))
    by (vm_compute; reflexivity).
  split; [exact H|].
  destruct (ResultToString_lines url.Parse example_time excluding_run
              (file_result 404 "gone") "" "" 404%Z H)
    as (fp & hx & H1 & H2 & H3 & _).
  exists fp, hx. refine (conj H1 (conj H2 _)).
  apply (H3 eq_refl). reflexivity.
Defined.

(** X7: [Process] requests one URL, the candidate itself when it is a URL
    and else the base URL followed by the word without one leading slash
    and by the slash of the option [UseSlash].  The error of the request is
    returned as it is, without a result; a response yields exactly one
    result, with its status and body.  The text that [ResultToString] later
    removes from the body is the requested URL, and with [UseSlash] every
    word is a result of the directory scope. *)
Theorem Process_outcome (GetRequest : string -> error + Response)
    (g : Gobuster) (busterTarget : BusterTarget) :
  (forall err,
      GetRequest (requestedURL g busterTarget) = inl err ->
      Process GetRequest g busterTarget = inl err)
  /\ (forall resp,
        GetRequest (requestedURL g busterTarget) = inr resp ->
        exists r,
          Process GetRequest g busterTarget = inr [r]
          /\ Status r = resp_Status resp
          /\ Content r = Some (resp_Content resp)
          /\ RedirectURL r = Some (resp_Redirect resp)
          /\ strippedEntity g r = requestedURL g busterTarget
          /\ (IsURL busterTarget = false -> UseSlash (Opts g) = true ->
              scopeOf r = DirScope)).
Proof.
  unfold Process, requestedURL. split.
  - intros err. destruct (IsURL busterTarget); cbn [negb];
      intros H; rewrite H; reflexivity.
  - intros resp. destruct (IsURL busterTarget); cbn [negb];
      intros H; rewrite H; eexists; split; try reflexivity;
      repeat split; try discriminate.
    intros _ Hs. rewrite Hs. apply scopeOf_Dir. cbn [Entity].
    apply HasSuffix_append_slash.
Qed.

(** ** [parseWaybackUrls]: the kept entries *)

Lemma firstOccurrences_fresh (parsed : list ParsedURL.t) :
  forall (earlier : list ParsedURL.t) (p q : ParsedURL.t),
  p ∈ firstOccurrences earlier parsed -> q ∈ earlier -> ~ equivURL q p.
Proof.
  induction parsed as [|h rest IH]; intros earlier p q Hp Hq; [inversion Hp|].
  cbn [firstOccurrences] in Hp. apply elem_of_app in Hp as [Hp|Hp].
  - destruct (existsb (fun value => equivb value h) earlier) eqn:Hex;
      [inversion Hp|].
    apply list_elem_of_singleton in Hp as ->. intros Heq.
    assert (Ht : existsb (fun value => equivb value h) earlier = true)
      by (apply existsb_equivb; eauto).
    congruence.
  - apply (IH (earlier ++ [h]) p q Hp). apply elem_of_app. left. exact Hq.
Qed.

Lemma firstOccurrences_inequivalent (parsed : list ParsedURL.t) :
  forall earlier : list ParsedURL.t,
  inequivalent (firstOccurrences earlier parsed).
Proof.
  induction parsed as [|h rest IH]; intros earlier; [constructor|].
  cbn [firstOccurrences].
  destruct (existsb (fun value => equivb value h) earlier); [apply IH|].
  cbn [app]. constructor; [|apply IH].
  apply Forall_forall. intros p Hp.
  apply (firstOccurrences_fresh rest (earlier ++ [h]) p h Hp).
  apply elem_of_app. right. apply list_elem_of_here.
Qed.

Lemma length_firstOccurrences (parsed : list ParsedURL.t) :
  forall earlier : list ParsedURL.t,
  (List.length (firstOccurrences earlier parsed) <= List.length parsed)%nat.
Proof.
  induction parsed as [|h rest IH]; intros earlier; [reflexivity|].
  cbn [firstOccurrences]. rewrite length_app. specialize (IH (earlier ++ [h])).
  destruct (existsb (fun value => equivb value h) earlier); cbn; lia.
Qed.

(** X8: the entries that the dedup of [parseWaybackUrls] keeps are
    representatives of the corpus: no kept entry is equivalent to another
    kept entry, every line of the corpus has an equivalent kept entry, and
    every kept entry is the parse of a line; the output has at most as many
    URLs as the corpus has lines, and none for an empty corpus. *)
Theorem dedup_representatives (url_Parse : string -> option url.URL)
    (lines : list string) :
  inequivalent (uniqueParsedUrls url_Parse lines)
  /\ (forall line, line ∈ lines ->
        exists q, q ∈ uniqueParsedUrls url_Parse lines
                  /\ equivURL q (parseLine url_Parse line))
  /\ (forall q, q ∈ uniqueParsedUrls url_Parse lines ->
        exists line, line ∈ lines /\ q = parseLine url_Parse line)
  /\ (List.length (uniqueUrls url_Parse lines) <= List.length lines)%nat
  /\ (lines = [] -> uniqueUrls url_Parse lines = []).
Proof.
  split; [|split; [|split; [|split]]].
  - rewrite uniqueParsedUrls_firstOccurrences.
    apply firstOccurrences_inequivalent.
  - apply uniqueParsedUrls_represent.
  - apply elem_of_uniqueParsedUrls.
  - unfold uniqueUrls. rewrite length_map, uniqueParsedUrls_firstOccurrences.
    etransitivity; [apply length_firstOccurrences|].
    unfold parsedUrls. rewrite length_map, (sort_Strings_perm lines).
    reflexivity.
  - intros ->. reflexivity.
Qed.

(** ** The expected and the sent candidates *)

Lemma length_wordTargets_le (g : Gobuster) (exts : list string) (text : string) :
  exts ≡ₚ elements (ExtensionsParsed (Opts g)) ->
  (List.length (wordTargets g exts text) <= expectedOf g text)%nat.
Proof.
  intros Hperm. unfold wordTargets, expectedOf, extword, nonblank. cbv zeta.
  rewrite len_pos.
  destruct (strings_HasPrefix (strings_TrimSpace text) "#");
    destruct (String.eqb (strings_TrimSpace text) ""); cbn [negb andb length];
    try lia;
    destruct (strings_Contains (strings_TrimSpace text) "%EXT%");
    cbn [length]; try lia.
  rewrite length_app, length_map, (length_range g exts Hperm).
  destruct (BlankExtension (Opts g)); cbn [length]; lia.
Qed.

Lemma length_WordScan_le (g : Gobuster) (done : nat -> bool)
    (range_order : nat -> list string) (texts : list string) : forall i : nat,
  (forall j, range_order j ≡ₚ elements (ExtensionsParsed (Opts g))) ->
  (Z.of_nat (List.length (WordScan g done range_order i texts))
   <= Z.of_nat (count_if nonblank texts)
      + Z.of_nat (count_if extword texts) * lenExtensions g
      - (if BlankExtension (Opts g) then 0
         else Z.of_nat (count_if extword texts)))%Z.
Proof.
  intros i Hrange. revert i.
  induction texts as [|text texts IH]; intros i.
  - unfold count_if. cbn. destruct (BlankExtension (Opts g)); lia.
  - cbn [WordScan]. specialize (IH (S i)).
    pose proof (length_wordTargets_le g (range_order i) text (Hrange i)) as Hl.
    pose proof (extword_le texts) as Hle.
    rewrite !count_if_cons. unfold expectedOf in Hl. unfold lenExtensions in *.
    assert (Hn : extword text = true -> nonblank text = true).
    { unfold extword. destruct (nonblank text); [reflexivity|discriminate]. }
    destruct (done i); [cbn [length]|rewrite length_app];
      destruct (nonblank text), (extword text), (BlankExtension (Opts g));
      try (specialize (Hn eq_refl); discriminate); nia.
Qed.

Lemma WordScan_Opts (g1 g2 : Gobuster) (done : nat -> bool)
    (range_order : nat -> list string) (texts : list string) :
  Opts g1 = Opts g2 ->
  forall i, WordScan g1 done range_order i texts
            = WordScan g2 done range_order i texts.
Proof.
  intros H. induction texts as [|text texts IH]; intros i; [reflexivity|].
  cbn [WordScan]. rewrite IH. unfold wordTargets. rewrite H. reflexivity.
Qed.

(** X9: [getWordlist] sets the issued count to zero and the expected
    count to a value that the number of candidates sent by the wordlist
    scan of [Start] never exceeds, whether or not the scan is cancelled and
    whether or not the list holds comment lines (the count being within
    Go's [int]). *)
Theorem candidates_at_most_expected
    (g : Gobuster) (stdin : list string) (wordlist : File)
    (range_order : nat -> list string) :
  String.eqb (Wordlist (Opts g)) "-" = false ->
  file_open_err wordlist = None ->
  file_scan_err wordlist = None ->
  file_seek_err wordlist = None ->
  (forall j, range_order j ≡ₚ elements (ExtensionsParsed (Opts g))) ->
  (Z.of_nat (count_if nonblank (file_lines wordlist))
   + Z.of_nat (count_if extword (file_lines wordlist)) * lenExtensions g
   <= int_max)%Z ->
  exists g' : Gobuster,
    getWordlist stdin wordlist g = (g', inr (file_lines wordlist))
    /\ requestsIssued g' = 0%Z
    /\ forall done : nat -> bool,
         (Z.of_nat
            (List.length (WordScan g' done range_order 0 (file_lines wordlist)))
          <= requestsExpected g')%Z.
Proof.
  intros Hw Hopen Hscan Hseek Hrange Hmax.
  unfold getWordlist. rewrite Hw, Hopen, Hscan, Hseek.
  eexists. split; [reflexivity|]. split; [reflexivity|]. intros done.
  cbn [requestsExpected set_requestsExpected].
  rewrite expectedRequests_spec.
  rewrite (WordScan_Opts _ g) by reflexivity.
  pose proof (length_WordScan_le g done range_order (file_lines wordlist) 0
                Hrange) as Hle.
  unfold lenExtensions in *.
  cbn [Opts set_requestsExpected set_requestsIssued] in *.
  rewrite wrap_id; [exact Hle|].
  pose proof (extword_le (file_lines wordlist)).
  unfold in_int, int_min, int_max, int_bits in *.
  change (2 ^ (64 - 1))%Z with 9223372036854775808%Z in *.
  destruct (BlankExtension (Opts g)); split; try lia; nia.
Qed.

Lemma candidates_at_most_expected_witness :
  String.eqb (Wordlist (Opts ext_run)) "-" = false
  /\ file_open_err commented_wordlist = None
  /\ file_scan_err commented_wordlist = None
  /\ file_seek_err commented_wordlist = None
  /\ (forall j, example_range_order j
                ≡ₚ elements (ExtensionsParsed (Opts ext_run)))
  /\ (Z.of_nat (count_if nonblank (file_lines commented_wordlist))
      + Z.of_nat (count_if extword (file_lines commented_wordlist))
        * lenExtensions ext_run <= int_max)%Z
  /\ exists g' : Gobuster,
       getWordlist [] commented_wordlist ext_run
       = (g', inr (file_lines commented_wordlist))
       /\ requestsIssued g' = 0%Z
       /\ forall done : nat -> bool,
            (Z.of_nat
               (List.length (WordScan g' done example_range_order 0
                               (file_lines commented_wordlist)))
             <= requestsExpected g')%Z.
Proof.
  assert (Hmax : (Z.of_nat (count_if nonblank (file_lines commented_wordlist))
                  + Z.of_nat (count_if extword (file_lines commented_wordlist))
                    * lenExtensions ext_run <= int_max)%Z)
    by (vm_compute; discriminate).
  refine (conj eq_refl (conj eq_refl (conj eq_refl (conj eq_refl
           (conj (fun _ => reflexivity _) (conj Hmax _)))))).
  apply (candidates_at_most_expected ext_run [] commented_wordlist
           example_range_order eq_refl eq_refl eq_refl eq_refl
           (fun _ => reflexivity _) Hmax).
Defined.

Example candidates_at_most_expected_example :
  requestsExpected (fst (getWordlist [] commented_wordlist ext_run)) = 5%Z
  /\ List.length (WordScan ext_run never_done example_range_order 0
                    (file_lines commented_wordlist)) = 4%nat
  /\ List.length (WordScan ext_run done_at_2 example_range_order 0
                    (file_lines commented_wordlist)) = 1%nat.
Proof. repeat split; vm_compute; reflexivity. Qed.

(** ** [getWaybackUrls] and the wayback scan *)

Lemma countLines_from (texts : list string) : forall a : Z,
  fold_left
    (fun lines text =>
       if String.eqb (strings_TrimSpace text) "" then lines
       else wrap (lines + 1))
    texts (wrap a)
  = wrap (a + Z.of_nat (count_if nonblank texts)).
Proof.
  induction texts as [|text texts IH]; intros a.
  - cbn. unfold count_if. cbn. rewrite Z.add_0_r. reflexivity.
  - cbn [fold_left]. rewrite count_if_cons. unfold nonblank at 1.
    destruct (String.eqb (strings_TrimSpace text) ""); cbn [negb].
    + rewrite IH. f_equal; lia.
    + rewrite wrap_add_l, IH. f_equal; lia.
Qed.

Lemma countLines_spec (texts : list string) :
  countLines texts = wrap (Z.of_nat (count_if nonblank texts)).
Proof.
  unfold countLines. rewrite <- wrap_0 at 1. rewrite countLines_from.
  reflexivity.
Qed.

Lemma count_if_le (p : string -> bool) (texts : list string) :
  (count_if p texts <= List.length texts)%nat.
Proof.
  induction texts as [|text texts IH]; [reflexivity|].
  rewrite count_if_cons. cbn [length]. destruct (p text); lia.
Qed.

Lemma WaybackScan_targets (done : nat -> bool) (texts : list string) :
  forall (i : nat) (t : BusterTarget),
  t ∈ WaybackScan done i texts ->
  IsURL t = true /\ Target t <> "" /\ strings_HasPrefix (Target t) "#" = false
  /\ exists text, text ∈ texts /\ Target t = strings_TrimSpace text.
Proof.
  induction texts as [|text texts IH]; intros i t Ht; [inversion Ht|].
  cbn [WaybackScan] in Ht. destruct (done i); [inversion Ht|].
  cbv zeta in Ht. apply elem_of_app in Ht as [Ht|Ht].
  - destruct (strings_HasPrefix (strings_TrimSpace text) "#") eqn:Hh;
      cbn [negb andb] in Ht; [inversion Ht|].
    rewrite len_pos in Ht.
    destruct (String.eqb (strings_TrimSpace text) "") eqn:He;
      cbn [negb] in Ht; [inversion Ht|].
    apply list_elem_of_singleton in Ht as ->. cbn.
    apply String.eqb_neq in He. repeat split; try assumption.
    exists text. split; [apply list_elem_of_here|reflexivity].
  - destruct (IH _ _ Ht) as (H1 & H2 & H3 & text' & H4 & H5).
    repeat split; try assumption. exists text'.
    split; [apply list_elem_of_further, H4|exact H5].
Qed.

Lemma length_WaybackScan (done : nat -> bool) (texts : list string) :
  forall i : nat,
  (List.length (WaybackScan done i texts) <= count_if nonblank texts)%nat
  /\ ((forall j, done j = false) ->
      (forall text, text ∈ texts ->
         strings_HasPrefix (strings_TrimSpace text) "#" = false) ->
      List.length (WaybackScan done i texts) = count_if nonblank texts).
Proof.
  induction texts as [|text texts IH]; intros i.
  - split; [cbn; lia|]. intros _ _. reflexivity.
  - destruct (IH (S i)) as [IH1 IH2]. rewrite count_if_cons.
    cbn [WaybackScan]. cbv zeta. unfold nonblank at 1 3. rewrite len_pos.
    split.
    + destruct (done i); [cbn; lia|]. rewrite length_app.
      destruct (strings_HasPrefix (strings_TrimSpace text) "#");
        destruct (String.eqb (strings_TrimSpace text) ""); cbn; lia.
    + intros Hd Hh. rewrite Hd, length_app.
      rewrite (Hh text) by apply list_elem_of_here.
      rewrite IH2; [|exact Hd|intros t Ht; apply Hh, list_elem_of_further, Ht].
      destruct (String.eqb (strings_TrimSpace text) ""); reflexivity.
Qed.

Lemma getWaybackUrls_returns (url_Parse : string -> option url.URL)
    (env : WaybackEnv) (g g' : Gobuster) (texts : list string) :
  getWaybackUrls url_Parse env g = Returns (g', inr texts) ->
  texts = List.map dropCR (uniqueUrls url_Parse (file_lines (wb_source env)))
  /\ requestsIssued g' = 0%Z
  /\ requestsExpected g' = countLines texts
  /\ Opts g' = Opts g.
Proof.
  unfold getWaybackUrls, parseWaybackUrls.
  destruct (file_open_err (wb_source env)); [discriminate|].
  destruct (file_seek_err (wb_source env)); [discriminate|].
  destruct (file_scan_err (wb_source env)); [discriminate|].
  destruct (url_Parse (URL (Opts g))); [|discriminate].
  destruct (wb_create_err env); [discriminate|].
  destruct (wb_flush_err env); [discriminate|].
  destruct (wb_reopen_err env); [discriminate|].
  destruct (wb_rescan_err env); [discriminate|].
  destruct (wb_reseek_err env); [discriminate|].
  intros H. injection H as <- <-. repeat split; reflexivity.
Qed.

(** X10: when [getWaybackUrls] returns its scanner, the lines it yields
    are the deduplicated URLs written by [parseWaybackUrls], the issued
    count is zero and the expected count is the number of non-blank lines;
    the wayback scan of [Start] sends only candidates marked as URLs, each
    the trimmed text of a line, not empty and no comment, and never more
    of them than expected; it sends exactly as many when it is not
    cancelled and no line is a comment. *)
Theorem wayback_candidates (url_Parse : string -> option url.URL)
    (env : WaybackEnv) (g g' : Gobuster) (texts : list string) :
  getWaybackUrls url_Parse env g = Returns (g', inr texts) ->
  (Z.of_nat (List.length texts) <= int_max)%Z ->
  texts = List.map dropCR (uniqueUrls url_Parse (file_lines (wb_source env)))
  /\ requestsIssued g' = 0%Z
  /\ requestsExpected g' = Z.of_nat (count_if nonblank texts)
  /\ forall done : nat -> bool,
       (Z.of_nat (List.length (WaybackScan done 0 texts))
        <= requestsExpected g')%Z
       /\ (forall t, t ∈ WaybackScan done 0 texts ->
             IsURL t = true /\ Target t <> ""
             /\ strings_HasPrefix (Target t) "#" = false
             /\ exists text, text ∈ texts /\ Target t = strings_TrimSpace text)
       /\ ((forall j, done j = false) ->
           (forall text, text ∈ texts ->
              strings_HasPrefix (strings_TrimSpace text) "#" = false) ->
           Z.of_nat (List.length (WaybackScan done 0 texts))
           = requestsExpected g').
Proof.
  intros H Hmax.
  destruct (getWaybackUrls_returns _ _ _ _ _ H) as (Ht & Hi & He & _).
  assert (Hexp : requestsExpected g' = Z.of_nat (count_if nonblank texts)).
  { rewrite He, countLines_spec. apply wrap_id.
    pose proof (count_if_le nonblank texts).
    unfold in_int, int_min, int_max, int_bits in *.
    change (2 ^ (64 - 1))%Z with 9223372036854775808%Z in *. lia. }
  refine (conj Ht (conj Hi (conj Hexp _))). intros done.
  destruct (length_WaybackScan done texts 0) as [Hle Heq].
  rewrite Hexp. split; [lia|]. split; [apply WaybackScan_targets|].
  intros Hd Hh. rewrite (Heq Hd Hh). reflexivity.
Qed.

Lemma wayback_candidates_witness :
  getWaybackUrls url.Parse example_wayback example_run
  = Returns (fst (match getWaybackUrls url.Parse example_wayback example_run with
                  | Returns x => x
                  | Panics => (example_run, inr [])
                  end),
             inr ["http://t/a?x=1"; "http://t/img/"])
  /\ (Z.of_nat (List.length ["http://t/a?x=1"; "http://t/img/"]) <= int_max)%Z
  /\ requestsExpected
       (fst (match getWaybackUrls url.Parse example_wayback example_run with
             | Returns x => x
             | Panics => (example_run, inr [])
             end)) = 2%Z.
Proof.
  assert (H1 : getWaybackUrls url.Parse example_wayback example_run
               = Returns
                   (fst (match getWaybackUrls url.Parse example_wayback
                                 example_run with
                         | Returns x => x
                         | Panics => (example_run, inr [])
                         end),
                    inr ["http://t/a?x=1"; "http://t/img/"]))
    by (vm_compute; reflexivity).
  assert (H2 : (Z.of_nat (List.length ["http://t/a?x=1"; "http://t/img/"])
                <= int_max)%Z) by (vm_compute; discriminate).
  refine (conj H1 (conj H2 _)).
  destruct (wayback_candidates url.Parse example_wayback example_run _ _ H1 H2)
    as (_ & _ & -> & _).
  vm_compute. reflexivity.
Defined.

(** ** The counters: what they count *)

Lemma decrements_cons o ops :
  decrements (o :: ops)
  = ((match o with OpIncrement => 0 | OpDecrement => 1 end) + decrements ops)%nat.
Proof. destruct o; reflexivity. Qed.

Lemma run_counter_exact (ops : list counter_op) : forall g : Gobuster,
  (0 <= requestsIssued g)%Z ->
  (requestsIssued g + Z.of_nat (increments ops) <= int_max)%Z ->
  (forall k, Z.of_nat (decrements (take k ops))
             <= requestsIssued g + Z.of_nat (increments (take k ops)))%Z ->
  requestsIssued (run_counter ops g)
  = (requestsIssued g + Z.of_nat (increments ops)
     - Z.of_nat (decrements ops))%Z.
Proof.
  induction ops as [|o ops IH]; intros g H0 Hmax Hbal.
  - unfold increments, decrements. cbn. lia.
  - change (run_counter (o :: ops) g) with (run_counter ops (counter_step g o)).
    rewrite increments_cons, decrements_cons in *.
    assert (Hstep : requestsIssued (counter_step g o)
                    = (requestsIssued g
                       + match o with OpIncrement => 1 | OpDecrement => -1 end)%Z).
    { destruct o; unfold counter_step.
      - unfold incrementRequests. rewrite requestsIssued_set. apply wrap_id.
        unfold in_int, int_min, int_max, int_bits in *. lia.
      - specialize (Hbal 1%nat).
        change (take 1 (OpDecrement :: ops)) with [OpDecrement] in Hbal.
        change (decrements [OpDecrement]) with 1%nat in Hbal.
        change (increments [OpDecrement]) with 0%nat in Hbal.
        unfold DecrementRequests.
        destruct (0 <? requestsIssued g)%Z eqn:E;
          [|apply Z.ltb_ge in E; lia].
        rewrite requestsIssued_set. apply wrap_id.
        unfold in_int, int_min, int_max, int_bits in *. lia. }
    rewrite IH.
    + rewrite Hstep. destruct o; lia.
    + rewrite Hstep. destruct o; [lia|].
      specialize (Hbal 1%nat).
      change (take 1 (OpDecrement :: ops)) with [OpDecrement] in Hbal.
      change (decrements [OpDecrement]) with 1%nat in Hbal.
      change (increments [OpDecrement]) with 0%nat in Hbal. lia.
    + rewrite Hstep. destruct o; lia.
    + intros k. specialize (Hbal (S k)).
      change (take (S k) (o :: ops)) with (o :: take k ops) in Hbal.
      rewrite increments_cons, decrements_cons in Hbal. rewrite Hstep.
      destruct o; lia.
Qed.

(** X11: in an interleaving where, at every point, the decrements so far
    do not outnumber the increments so far (each decrement answers an
    earlier increment, as for the errors of probes), no decrement is lost
    at zero: starting from zero, [requestsIssued] ends as the number of
    increments minus the number of decrements. *)
Theorem requestsIssued_exact (ops : list counter_op) (g : Gobuster) :
  requestsIssued g = 0%Z ->
  (Z.of_nat (increments ops) <= int_max)%Z ->
  (forall k, decrements (take k ops) <= increments (take k ops))%nat ->
  requestsIssued (run_counter ops g)
  = (Z.of_nat (increments ops) - Z.of_nat (decrements ops))%Z.
Proof.
  intros H0 Hmax Hbal.
  rewrite run_counter_exact; rewrite ?H0; try lia.
  intros k. specialize (Hbal k). lia.
Qed.

Lemma requestsIssued_exact_witness :
  requestsIssued example_run = 0%Z
  /\ (Z.of_nat (increments [OpIncrement; OpIncrement; OpDecrement; OpIncrement])
      <= int_max)%Z
  /\ (forall k,
        decrements (take k [OpIncrement; OpIncrement; OpDecrement; OpIncrement])
        <= increments (take k [OpIncrement; OpIncrement; OpDecrement; OpIncrement]))%nat
  /\ requestsIssued
       (run_counter [OpIncrement; OpIncrement; OpDecrement; OpIncrement]
          example_run) = 2%Z.
Proof.
  assert (H2 : (Z.of_nat (increments [OpIncrement; OpIncrement; OpDecrement;
                                      OpIncrement]) <= int_max)%Z)
    by (vm_compute; discriminate).
  assert (H3 : forall k,
             (decrements (take k [OpIncrement; OpIncrement; OpDecrement;
                                  OpIncrement])
              <= increments (take k [OpIncrement; OpIncrement; OpDecrement;
                                     OpIncrement]))%nat).
  { intros k. do 5 (destruct k as [|k]; [vm_compute; lia|]).
    vm_compute. lia. }
  refine (conj eq_refl (conj H2 (conj H3 _))).
  rewrite (requestsIssued_exact _ example_run eq_refl H2 H3).
  vm_compute. reflexivity.
Defined.

(** A decrement at zero is lost: the counter then differs from the
    balance of the interleaving. *)
Example decrement_at_zero_lost :
  requestsIssued (run_counter [OpDecrement; OpIncrement] example_run) = 1%Z.
Proof. reflexivity. Qed.

(** ** The error consumer after the workers *)

Lemma handleAll_counters (plugin : GobusterPlugin)
    (targets : list BusterTarget) : forall g : Gobuster,
  (0 <= requestsIssued g)%Z ->
  (requestsIssued g + Z.of_nat (List.length targets) <= int_max)%Z ->
  requestsIssued (fst (handleAll plugin targets g))
  = (requestsIssued g + Z.of_nat (List.length targets))%Z
  /\ errorCount (fst (handleAll plugin targets g)) = errorCount g.
Proof.
  induction targets as [|t targets IH]; intros g H0 Hmax.
  - cbn. split; [lia|reflexivity].
  - cbn [handleAll List.length] in *.
    assert (H1 : requestsIssued (incrementRequests g)
                 = (requestsIssued g + 1)%Z).
    { unfold incrementRequests. rewrite requestsIssued_set. apply wrap_id.
      unfold in_int, int_min, int_max, int_bits in *. lia. }
    destruct (IH (incrementRequests g)) as [Hr He]; [lia|lia|].
    destruct (handleAll plugin targets (incrementRequests g)) as [g2 sends].
    cbn [fst] in *. split; [lia|]. rewrite He. reflexivity.
Qed.

Lemma length_errorsOf_app (a b : list send) :
  List.length (errorsOf (a ++ b))
  = (List.length (errorsOf a) + List.length (errorsOf b))%nat.
Proof.
  unfold errorsOf. induction a as [|[err|r] a IH]; cbn; [reflexivity| |exact IH].
  rewrite IH. reflexivity.
Qed.

Lemma length_errorsOf_sendsOf (plugin : GobusterPlugin) (g : Gobuster)
    (busterTarget : BusterTarget) :
  List.length (errorsOf (sendsOf plugin g busterTarget))
  = match plugin_Process plugin g busterTarget with
    | inl _ => 1%nat
    | inr _ => 0%nat
    end.
Proof.
  unfold sendsOf. destruct (plugin_Process plugin g busterTarget) as [err|res].
  - reflexivity.
  - unfold errorsOf. induction res as [|r res IH]; [reflexivity|exact IH].
Qed.

Lemma length_errorsOf_handleAll (plugin : GobusterPlugin)
    (targets : list BusterTarget) : forall g : Gobuster,
  (List.length (errorsOf (snd (handleAll plugin targets g)))
   <= List.length targets)%nat.
Proof.
  induction targets as [|t targets IH]; intros g; [cbn; lia|].
  cbn [handleAll]. specialize (IH (incrementRequests g)).
  destruct (handleAll plugin targets (incrementRequests g)) as [g2 sends].
  cbn [snd List.length] in *.
  rewrite length_errorsOf_app, length_errorsOf_sendsOf.
  destruct (plugin_Process plugin (incrementRequests g) t); lia.
Qed.

Lemma errorWorker_counters (errors : list error) : forall g : Gobuster,
  (Z.of_nat (List.length errors) <= requestsIssued g <= int_max)%Z ->
  (0 <= errorCount g)%Z ->
  (errorCount g + Z.of_nat (List.length errors) <= int_max)%Z ->
  requestsIssued (errorWorker errors g)
  = (requestsIssued g - Z.of_nat (List.length errors))%Z
  /\ errorCount (errorWorker errors g)
     = (errorCount g + Z.of_nat (List.length errors))%Z.
Proof.
  induction errors as [|e errors IH]; intros g Hr He0 He.
  - cbn. split; lia.
  - cbn [List.length] in *.
    change (errorWorker (e :: errors) g)
      with (errorWorker errors (DecrementRequests (IncrementErrorCount g))).
    assert (H1 : requestsIssued (DecrementRequests (IncrementErrorCount g))
                 = (requestsIssued g - 1)%Z).
    { unfold DecrementRequests.
      change (requestsIssued (IncrementErrorCount g)) with (requestsIssued g).
      destruct (0 <? requestsIssued g)%Z eqn:E;
        [|apply Z.ltb_ge in E; lia].
      rewrite requestsIssued_set. apply wrap_id.
      unfold in_int, int_min, int_max, int_bits in *. lia. }
    assert (H2 : errorCount (DecrementRequests (IncrementErrorCount g))
                 = (errorCount g + 1)%Z).
    { unfold DecrementRequests.
      change (requestsIssued (IncrementErrorCount g)) with (requestsIssued g).
      assert (E : errorCount (IncrementErrorCount g) = (errorCount g + 1)%Z).
      { unfold IncrementErrorCount. cbn [errorCount set_errorCount].
        apply wrap_id. unfold in_int, int_min, int_max, int_bits in *. lia. }
      destruct (0 <? requestsIssued g)%Z; exact E. }
    destruct (IH (DecrementRequests (IncrementErrorCount g))) as [Hr' He'];
      [lia|lia|lia|].
    split; lia.
Qed.

(** X12: when the workers have handled the candidates [targets] and the
    error consumer [errorWorker] has then received every error they sent,
    the issued count has grown by the number of candidates less the number
    of errors, and the error count by the number of errors: a failed probe
    ends up counted as an error and not as issued.  No more errors are
    sent than candidates handled. *)
Theorem errorWorker_after_workers (plugin : GobusterPlugin)
    (targets : list BusterTarget) (g : Gobuster) :
  (0 <= requestsIssued g)%Z ->
  (requestsIssued g + Z.of_nat (List.length targets) <= int_max)%Z ->
  (0 <= errorCount g)%Z ->
  (errorCount g + Z.of_nat (List.length targets) <= int_max)%Z ->
  let handled := handleAll plugin targets g in
  let errors := errorsOf (snd handled) in
  let g' := errorWorker errors (fst handled) in
  (List.length errors <= List.length targets)%nat
  /\ requestsIssued g'
     = (requestsIssued g + Z.of_nat (List.length targets)
        - Z.of_nat (List.length errors))%Z
  /\ errorCount g' = (errorCount g + Z.of_nat (List.length errors))%Z.
Proof.
  intros Hr0 Hr He0 He handled errors g'.
  pose proof (length_errorsOf_handleAll plugin targets g) as Hlen.
  fold handled in Hlen. fold errors in Hlen.
  destruct (handleAll_counters plugin targets g Hr0 Hr) as [H1 H2].
  fold handled in H1, H2.
  destruct (errorWorker_counters errors (fst handled)) as [H3 H4];
    [lia|lia|lia|].
  fold g' in H3, H4. split; [exact Hlen|]. split; lia.
Qed.

Lemma errorWorker_after_workers_witness :
  let plugin := GobusterDir transport_status_only url.Parse example_uuids in
  let handled := handleAll plugin failing_targets example_run in
  let g' := errorWorker (errorsOf (snd handled)) (fst handled) in
  (0 <= requestsIssued example_run)%Z
  /\ (requestsIssued example_run + Z.of_nat (List.length failing_targets)
      <= int_max)%Z
  /\ (0 <= errorCount example_run)%Z
  /\ (errorCount example_run + Z.of_nat (List.length failing_targets)
      <= int_max)%Z
  /\ errorsOf (snd handled) = ["connection refused"]
  /\ requestsIssued g' = 1%Z /\ errorCount g' = 1%Z.
Proof.
  intros plugin handled g'.
  assert (H1 : (0 <= requestsIssued example_run)%Z)
    by (vm_compute; discriminate).
  assert (H2 : (requestsIssued example_run
                + Z.of_nat (List.length failing_targets) <= int_max)%Z)
    by (vm_compute; discriminate).
  assert (H3 : (0 <= errorCount example_run)%Z)
    by (vm_compute; discriminate).
  assert (H4 : (errorCount example_run
                + Z.of_nat (List.length failing_targets) <= int_max)%Z)
    by (vm_compute; discriminate).
  assert (E : errorsOf (snd handled) = ["connection refused"])
    by (vm_compute; reflexivity).
  destruct (errorWorker_after_workers plugin failing_targets example_run
              H1 H2 H3 H4) as (_ & Hr & He).
  fold handled in Hr, He. fold g' in Hr, He. rewrite E in Hr, He.
  refine (conj H1 (conj H2 (conj H3 (conj H4 (conj E (conj _ _))))));
    [rewrite Hr|rewrite He]; reflexivity.
Defined.

(** ** [Start]: what is sent, and in which order *)






(** ** The validation of the options *)

Lemma HasSuffix_slash_prepend (p s : string) :
  strings_HasSuffix s "/" = true -> strings_HasSuffix (p +:+ s) "/" = true.
Proof.
  unfold strings_HasSuffix. rewrite string_rev_app.
  change (string_rev "/") with "/".
  destruct (string_rev s) as [|c r]; [discriminate|].
  change (String c r +:+ string_rev p) with (String c (r +:+ string_rev p)).
  rewrite !prefix_cons. destruct (ascii_dec "/" c); [|discriminate].
  intros _. destruct (r +:+ string_rev p); reflexivity.
Qed.

Lemma validateDirMode_with_scheme (more : OtherOptions) (opt : Options) :
  Mode more = ModeDir ->
  strings_HasPrefix (URL opt) "http" = true ->
  validateDirMode more opt
  = (opt,
     if negb (String.eqb (Username more) "") && String.eqb (Password more) ""
     then Some "username was provided but password is missing"
     else None).
Proof.
  intros HM HP. unfold validateDirMode. rewrite HM, HP.
  change (String.eqb ModeDir ModeDir) with true. cbn [negb].
  destruct (negb (String.eqb (Username more) "")
            && String.eqb (Password more) ""); reflexivity.
Qed.

Lemma validateDirMode_returns (more : OtherOptions) (opt opt' : Options) :
  Mode more = ModeDir ->
  validateDirMode more opt = (opt', None) ->
  strings_HasPrefix (URL opt') "http" = true
  /\ (if strings_HasPrefix (URL opt) "http" then opt' = opt
      else opt' = set_URL ("http://" +:+ URL opt) opt
           \/ opt' = set_URL ("https://" +:+ URL opt) opt)
  /\ (strings_HasSuffix (URL opt) "/" = true ->
      strings_HasSuffix (URL opt') "/" = true)
  /\ (Username more = "" \/ Password more <> "")
  /\ validateDirMode more opt' = (opt', None).
Proof.
  intros HM H.
  assert (Hcred : negb (String.eqb (Username more) "")
                  && String.eqb (Password more) "" = false).
  { revert H. unfold validateDirMode. rewrite HM.
    change (String.eqb ModeDir ModeDir) with true. cbn [negb].
    destruct (negb (String.eqb (Username more) "")
              && String.eqb (Password more) ""); [|reflexivity].
    match goal with
    | |- context [match ?x with _ => _ end] => destruct x as [o [e|]]
    end; discriminate. }
  assert (Hshape :
            if strings_HasPrefix (URL opt) "http" then opt' = opt
            else opt' = set_URL ("http://" +:+ URL opt) opt
                 \/ opt' = set_URL ("https://" +:+ URL opt) opt).
  { destruct (strings_HasPrefix (URL opt) "http") eqn:HP.
    - rewrite (validateDirMode_with_scheme more opt HM HP) in H.
      injection H as <- _. reflexivity.
    - revert H. unfold validateDirMode. rewrite HM, HP, Hcred.
      change (String.eqb ModeDir ModeDir) with true. cbn [negb].
      destruct (port_FindStringSubmatch (URL opt)) as [digits|].
      + destruct (strconv_Atoi digits) as [port|]; [|discriminate].
        destruct (negb (port =? 80) && negb (port =? 443))%Z; [discriminate|].
        destruct (port =? 80)%Z; intros H; injection H as <-; auto.
      + intros H; injection H as <-; auto. }
  assert (HP' : strings_HasPrefix (URL opt') "http" = true).
  { destruct (strings_HasPrefix (URL opt) "http") eqn:HP.
    - subst opt'. exact HP.
    - destruct Hshape as [-> | ->]; reflexivity. }
  split; [exact HP'|]. split; [exact Hshape|]. split; [|split].
  - intros HS. destruct (strings_HasPrefix (URL opt) "http").
    + subst opt'. exact HS.
    + destruct Hshape as [-> | ->]; cbn [URL set_URL];
        apply HasSuffix_slash_prepend; exact HS.
  - apply andb_false_iff in Hcred. destruct Hcred as [Hu | Hp].
    + left. apply negb_false_iff, String.eqb_eq in Hu. exact Hu.
    + right. apply String.eqb_neq in Hp. exact Hp.
  - rewrite (validateDirMode_with_scheme more opt' HM HP'), Hcred.
    reflexivity.
Qed.

(** X14: in directory mode, when [validateDirMode] returns no error the
    URL it leaves starts with [http]: a URL that did so is left as it is,
    and any other has [http://] or [https://] put before it; the rest of
    the options is unchanged, a trailing slash is kept, a user name comes
    with a password, and a second call changes nothing. *)
Theorem validateDirMode_scheme (more : OtherOptions) (opt opt' : Options) :
  Mode more = ModeDir ->
  validateDirMode more opt = (opt', None) ->
  strings_HasPrefix (URL opt') "http" = true
  /\ (if strings_HasPrefix (URL opt) "http" then opt' = opt
      else opt' = set_URL ("http://" +:+ URL opt) opt
           \/ opt' = set_URL ("https://" +:+ URL opt) opt)
  /\ (strings_HasSuffix (URL opt) "/" = true ->
      strings_HasSuffix (URL opt') "/" = true)
  /\ (Username more = "" \/ Password more <> "")
  /\ validateDirMode more opt' = (opt', None).
Proof. apply validateDirMode_returns. Qed.

Lemma validateDirMode_scheme_witness :
  Mode dir_mode = ModeDir
  /\ validateDirMode dir_mode (set_URL "example.com:443/" example_options)
     = (set_URL "https://example.com:443/" example_options, None)
  /\ strings_HasPrefix (URL (set_URL "https://example.com:443/" example_options))
       "http" = true.
Proof.
  assert (H1 : Mode dir_mode = ModeDir) by reflexivity.
  assert (H2 : validateDirMode dir_mode
                 (set_URL "example.com:443/" example_options)
               = (set_URL "https://example.com:443/" example_options, None))
    by (vm_compute; reflexivity).
  refine (conj H1 (conj H2 _)).
  exact (proj1 (validateDirMode_scheme _ _ _ H1 H2)).
Defined.

(** *** The port of a URL without scheme *)

Lemma port_scan_end (seen : bool) (rest : string) :
  path_or_end rest = true -> port_scan seen rest = None.
Proof.
  destruct rest as [|c rest]; [reflexivity|]. cbn [path_or_end port_scan].
  intros ->. reflexivity.
Qed.

Lemma port_scan_digits (digits rest : string) :
  all_digits digits = true -> path_or_end rest = true ->
  forall seen, port_scan seen (digits +:+ rest) = None.
Proof.
  intros Hd Hr. induction digits as [|d digits IH]; intros seen.
  - apply port_scan_end. exact Hr.
  - cbn [all_digits] in Hd. apply andb_true_iff in Hd. destruct Hd as [Hd Hds].
    change (String d digits +:+ rest) with (String d (digits +:+ rest)).
    cbn [port_scan]. rewrite (IH Hds).
    assert (Hc : Ascii.eqb d ":" = false /\ Ascii.eqb d "/" = false).
    { unfold is_digit in Hd. apply andb_true_iff in Hd.
      destruct Hd as [H1 H2]. apply N.leb_le in H1, H2.
      split; apply Ascii.eqb_neq; intros ->; vm_compute in H1, H2;
        congruence. }
    destruct Hc as [-> ->]. rewrite andb_false_r. reflexivity.
Qed.

Lemma digits_prefix_all (digits rest : string) :
  all_digits digits = true -> path_or_end rest = true ->
  digits_prefix (digits +:+ rest) = digits.
Proof.
  intros Hd Hr. induction digits as [|d digits IH].
  - destruct rest as [|c rest]; [reflexivity|]. cbn in Hr |- *.
    apply Ascii.eqb_eq in Hr. subst c. reflexivity.
  - cbn [all_digits] in Hd. apply andb_true_iff in Hd. destruct Hd as [Hd Hds].
    change (String d digits +:+ rest) with (String d (digits +:+ rest)).
    cbn [digits_prefix]. rewrite Hd, (IH Hds). reflexivity.
Qed.

Lemma port_scan_host (host digits rest : string) :
  plain_host host = true ->
  all_digits digits = true -> digits <> "" -> path_or_end rest = true ->
  forall seen, seen = true \/ host <> "" ->
  port_scan seen (host +:+ ":" +:+ digits +:+ rest) = Some digits.
Proof.
  intros Hh Hd Hne Hr. induction host as [|h host IH]; intros seen Hseen.
  - destruct Hseen as [-> | []]; [|reflexivity].
    change ("" +:+ ":" +:+ digits +:+ rest)
      with (String ":" (digits +:+ rest)).
    cbn [port_scan]. change (Ascii.eqb ":" "/") with false. cbv iota.
    rewrite (port_scan_digits digits rest Hd Hr).
    change (Ascii.eqb ":" ":") with true.
    rewrite (digits_prefix_all digits rest Hd Hr).
    destruct digits as [|d digits]; [contradiction|].
    change (String d digits +:+ rest) with (String d (digits +:+ rest)).
    cbn [all_digits] in Hd. apply andb_true_iff in Hd. destruct Hd as [-> _].
    reflexivity.
  - cbn [plain_host] in Hh. apply andb_true_iff in Hh. destruct Hh as [Hh Hhs].
    apply andb_true_iff in Hh. destruct Hh as [Hs _].
    apply negb_true_iff in Hs.
    change (String h host +:+ ":" +:+ digits +:+ rest)
      with (String h (host +:+ ":" +:+ digits +:+ rest)).
    cbn [port_scan]. rewrite Hs, (IH Hhs true (or_introl eq_refl)).
    reflexivity.
Qed.

Lemma port_scan_plain (host rest : string) :
  plain_host host = true -> path_or_end rest = true ->
  forall seen, port_scan seen (host +:+ rest) = None.
Proof.
  intros Hh Hr. induction host as [|h host IH]; intros seen.
  - apply port_scan_end. exact Hr.
  - cbn [plain_host] in Hh. apply andb_true_iff in Hh. destruct Hh as [Hh Hhs].
    apply andb_true_iff in Hh. destruct Hh as [Hs Hc].
    apply negb_true_iff in Hs, Hc.
    change (String h host +:+ rest) with (String h (host +:+ rest)).
    cbn [port_scan]. rewrite Hs, (IH Hhs), Hc, andb_false_r. reflexivity.
Qed.

(** X15: in directory mode, for a URL without the prefix [http] and
    credentials that pass: when the URL is a host name (no slash, no
    colon), a colon and a port in decimal digits, alone or followed by a
    path, the port 80 puts [http://] before the URL, the port 443 puts
    [https://] before it, and any other port (also one beyond Go's [int])
    is refused with "url scheme not specified", the URL being left as it
    was; when the URL is a host name alone or followed by a path, [http://]
    is put before it. *)
Theorem validateDirMode_port (more : OtherOptions) (opt : Options) :
  Mode more = ModeDir ->
  Username more = "" \/ Password more <> "" ->
  strings_HasPrefix (URL opt) "http" = false ->
  (forall host digits rest : string,
      URL opt = host +:+ ":" +:+ digits +:+ rest ->
      host <> "" -> plain_host host = true ->
      digits <> "" -> all_digits digits = true ->
      path_or_end rest = true ->
      validateDirMode more opt
      = match strconv_Atoi digits with
        | Some port =>
            if (port =? 80)%Z then
              (set_URL ("http://" +:+ URL opt) opt, None)
            else if (port =? 443)%Z then
              (set_URL ("https://" +:+ URL opt) opt, None)
            else (opt, Some "url scheme not specified")
        | None => (opt, Some "url scheme not specified")
        end)
  /\ (forall host rest : string,
        URL opt = host +:+ rest ->
        plain_host host = true -> path_or_end rest = true ->
        validateDirMode more opt = (set_URL ("http://" +:+ URL opt) opt, None)).
Proof.
  intros HM Hcred HP.
  assert (Hc : negb (String.eqb (Username more) "")
               && String.eqb (Password more) "" = false).
  { apply andb_false_iff. destruct Hcred as [Hu | Hp].
    - left. rewrite Hu. reflexivity.
    - right. apply String.eqb_neq. exact Hp. }
  split.
  - intros host digits rest HU Hne Hh Hdne Hd Hr.
    unfold validateDirMode. rewrite HM, HP, Hc.
    change (String.eqb ModeDir ModeDir) with true. cbn [negb].
    unfold port_FindStringSubmatch. rewrite HU at 1.
    rewrite (port_scan_host host digits rest Hh Hd Hdne Hr false
               (or_intror Hne)).
    destruct (strconv_Atoi digits) as [port|]; [|reflexivity].
    destruct (port =? 80)%Z eqn:E80; cbn [negb andb]; [reflexivity|].
    destruct (port =? 443)%Z; reflexivity.
  - intros host rest HU Hh Hr.
    unfold validateDirMode. rewrite HM, HP, Hc.
    change (String.eqb ModeDir ModeDir) with true. cbn [negb].
    unfold port_FindStringSubmatch. rewrite HU at 1.
    rewrite (port_scan_plain host rest Hh Hr false). reflexivity.
Qed.

Lemma validateDirMode_port_witness :
  Mode dir_mode = ModeDir
  /\ (Username dir_mode = "" \/ Password dir_mode <> "")
  /\ strings_HasPrefix (URL (set_URL "example.com:8080/app/" example_options))
       "http" = false
  /\ validateDirMode dir_mode (set_URL "example.com:8080/app/" example_options)
     = (set_URL "example.com:8080/app/" example_options,
        Some "url scheme not specified").
Proof.
  assert (H1 : Mode dir_mode = ModeDir) by reflexivity.
  assert (H2 : Username dir_mode = "" \/ Password dir_mode <> "")
    by (left; reflexivity).
  assert (H3 : strings_HasPrefix
                 (URL (set_URL "example.com:8080/app/" example_options))
                 "http" = false) by reflexivity.
  refine (conj H1 (conj H2 (conj H3 _))).
  destruct (validateDirMode_port dir_mode
              (set_URL "example.com:8080/app/" example_options) H1 H2 H3)
    as [Hport _].
  rewrite (Hport "example.com" "8080" "/app/"); try reflexivity;
    discriminate.
Defined.

(** The scheme chosen for some URLs, and the ports refused. *)
Example validateDirMode_examples :
  List.map
    (fun u =>
       let '(opt, err) := validateDirMode dir_mode (set_URL u example_options) in
       (URL opt, err))
    ["example.com/"; "example.com:80/"; "example.com:443/a/";
     "example.com:0443/"; "example.com:8443/";
     "example.com:99999999999999999999/"; "https://example.com:8443/";
     "httpbin.org:8443/"; "ftp://example.com/"]
  = [("http://example.com/", None);
     ("http://example.com:80/", None);
     ("https://example.com:443/a/", None);
     ("https://example.com:0443/", None);
     ("example.com:8443/", Some "url scheme not specified");
     ("example.com:99999999999999999999/", Some "url scheme not specified");
     ("https://example.com:8443/", None);
     ("httpbin.org:8443/", None);
     ("http://ftp://example.com/", None)].
Proof. vm_compute. reflexivity. Qed.

(** *** The lists of status codes and of extensions *)

Lemma Split_Join (sep : ascii) (s : string) :
  strings_Join (strings_Split s sep) sep = s
  /\ List.length (strings_Split s sep) = S (count_byte sep s).
Proof.
  unfold strings_Split. induction s as [|c s [IH1 IH2]]; [split; reflexivity|].
  cbn [split_from count_byte]. destruct (split_from sep s) as [field fields].
  destruct (Ascii.eqb c sep) eqn:E.
  - apply Ascii.eqb_eq in E. subst c. cbn [List.length] in *. split; [|lia].
    change (strings_Join ("" :: field :: fields) sep)
      with ("" +:+ String sep (strings_Join (field :: fields) sep)).
    rewrite IH1. reflexivity.
  - cbn [List.length] in *. split; [|lia].
    destruct fields as [|f fields].
    + change (strings_Join [String c field] sep) with (String c field).
      change (strings_Join [field] sep) with field in IH1.
      rewrite IH1. reflexivity.
    + change (strings_Join (String c field :: f :: fields) sep)
        with (String c (field +:+ String sep (strings_Join (f :: fields) sep))).
      change (strings_Join (field :: f :: fields) sep)
        with (field +:+ String sep (strings_Join (f :: fields) sep)) in IH1.
      rewrite IH1. reflexivity.
Qed.

Lemma set_ExtensionsParsed_id (opt : Options) :
  set_ExtensionsParsed (ExtensionsParsed opt) opt = opt.
Proof. destruct opt. reflexivity. Qed.

Lemma set_ExcludedStatusCodesParsed_id (opt : Options) :
  set_ExcludedStatusCodesParsed (ExcludedStatusCodesParsed opt) opt = opt.
Proof. destruct opt. reflexivity. Qed.

Lemma parseExtensions_fold (exts : list string) : forall opt : Options,
  fold_left
    (fun opt e =>
       set_ExtensionsParsed
         ({[ TrimPrefix_dot (strings_TrimSpace e) ]} ∪ ExtensionsParsed opt) opt)
    exts opt
  = set_ExtensionsParsed
      (list_to_set
         (List.map (fun e => TrimPrefix_dot (strings_TrimSpace e)) exts)
       ∪ ExtensionsParsed opt) opt.
Proof.
  induction exts as [|e exts IH]; intros opt.
  - cbn [fold_left List.map list_to_set].
    rewrite (left_id_L ∅ (∪)). symmetry. apply set_ExtensionsParsed_id.
  - cbn [fold_left List.map list_to_set]. rewrite IH.
    unfold set_ExtensionsParsed. cbn. f_equal.
    rewrite (assoc_L (∪)), (comm_L (∪) (list_to_set _) {[ _ ]}). reflexivity.
Qed.

Lemma parseStatusCodes_loop_spec (fields : list string) : forall opt : Options,
  parseStatusCodes_loop fields opt
  = let '(codes, bad) := leading_codes (List.map strings_TrimSpace fields) in
    (set_ExcludedStatusCodesParsed
       (list_to_set codes ∪ ExcludedStatusCodesParsed opt) opt,
     option_map (fun c => "invalid status code given: " +:+ c) bad).
Proof.
  induction fields as [|c fields IH]; intros opt.
  - cbn [List.map leading_codes parseStatusCodes_loop list_to_set option_map].
    rewrite (left_id_L ∅ (∪)), set_ExcludedStatusCodesParsed_id. reflexivity.
  - cbn [List.map leading_codes parseStatusCodes_loop].
    destruct (strconv_Atoi (strings_TrimSpace c)) as [i|].
    + rewrite IH.
      destruct (leading_codes (List.map strings_TrimSpace fields))
        as [codes bad].
      cbn [list_to_set]. f_equal.
      unfold set_ExcludedStatusCodesParsed. cbn. f_equal.
      rewrite (assoc_L (∪)), (comm_L (∪) (list_to_set _) {[ _ ]}).
      reflexivity.
    + cbn [list_to_set option_map].
      rewrite (left_id_L ∅ (∪)), set_ExcludedStatusCodesParsed_id. reflexivity.
Qed.

Lemma leading_codes_spec (fields : list string) :
  forall codes bad, leading_codes fields = (codes, bad) ->
  (bad = None <-> Forall (fun c => strconv_Atoi c <> None) fields)
  /\ exists before,
       List.map Some codes = List.map strconv_Atoi before
       /\ match bad with
          | None => fields = before
          | Some c =>
              strconv_Atoi c = None
              /\ exists after, fields = before ++ c :: after
          end.
Proof.
  induction fields as [|c fields IH]; intros codes bad H.
  - injection H as <- <-. split; [split; [constructor|reflexivity]|].
    exists []. split; reflexivity.
  - cbn [leading_codes] in H. destruct (strconv_Atoi c) as [i|] eqn:E.
    + destruct (leading_codes fields) as [codes' bad'].
      injection H as <- <-.
      destruct (IH codes' bad' eq_refl) as [Hiff (before & Hm & Hb)].
      split.
      * rewrite Hiff. split.
        -- intros HF. constructor; [congruence|exact HF].
        -- intros HF. inversion HF; assumption.
      * exists (c :: before). split.
        -- cbn [List.map]. rewrite E, Hm. reflexivity.
        -- destruct bad' as [c'|].
           ++ destruct Hb as [Hc (after & ->)]. split; [exact Hc|].
              exists after. reflexivity.
           ++ rewrite Hb. reflexivity.
    + injection H as <- <-. split.
      * split; [discriminate|]. intros HF. inversion HF; congruence.
      * exists []. split; [reflexivity|]. split; [exact E|].
        exists fields. reflexivity.
Qed.

(** X16: [parseStatusCodes], on a list that is not empty, reads the texts
    between the commas, trimmed, in order.  It returns no error exactly
    when each of them is a number; the excluded codes are then the former
    ones and the numbers of the list.  Otherwise the error names the first
    text that is no number, and the numbers before it have been added all
    the same.  No code is ever removed and no other option is changed. *)
Theorem parseStatusCodes_outcome (more : OtherOptions) (opt opt' : Options)
    (err : option error) :
  ExcludedStatusCodes more <> "" ->
  parseStatusCodes more opt = (opt', err) ->
  (err = None <-> Forall (fun c => strconv_Atoi c <> None) (codeFields more))
  /\ (exists before : list string,
        (forall i : Z,
            i ∈ ExcludedStatusCodesParsed opt' <->
            i ∈ ExcludedStatusCodesParsed opt
            \/ exists c, c ∈ before /\ strconv_Atoi c = Some i)
        /\ match err with
           | None => codeFields more = before
           | Some e =>
               exists c after,
                 codeFields more = before ++ c :: after
                 /\ strconv_Atoi c = None
                 /\ e = "invalid status code given: " +:+ c
           end)
  /\ opt' = set_ExcludedStatusCodesParsed (ExcludedStatusCodesParsed opt') opt.
Proof.
  intros Hne H. unfold parseStatusCodes in H.
  apply String.eqb_neq in Hne. rewrite Hne in H.
  rewrite parseStatusCodes_loop_spec in H. fold (codeFields more) in H.
  destruct (leading_codes (codeFields more)) as [codes bad] eqn:EL.
  injection H as <- <-.
  destruct (leading_codes_spec _ _ _ EL) as [Hiff (before & Hm & Hb)].
  split; [|split].
  - rewrite <- Hiff. destruct bad; cbn [option_map];
      split; intros E; (discriminate E || reflexivity).
  - exists before. split.
    + intros i. cbn [ExcludedStatusCodesParsed set_ExcludedStatusCodesParsed].
      rewrite elem_of_union, elem_of_list_to_set.
      assert (Hc : i ∈ codes <->
                   exists c, c ∈ before /\ strconv_Atoi c = Some i).
      { clear -Hm. revert before Hm.
        induction codes as [|k codes IH]; intros [|c before] Hm;
          try discriminate.
        - split; [intros Hi; inversion Hi|].
          intros (c & Hc & _). inversion Hc.
        - cbn [List.map] in Hm. injection Hm as Hk Hm.
          rewrite elem_of_cons, (IH before Hm). split.
          + intros [-> | (c' & Hc' & E)].
            * exists c. split; [left|congruence].
            * exists c'. split; [right; exact Hc'|exact E].
          + intros (c' & Hc' & E). apply elem_of_cons in Hc'.
            destruct Hc' as [-> | Hc'].
            * left. congruence.
            * right. exists c'. split; assumption. }
      rewrite Hc. tauto.
    + destruct bad as [c|]; cbn [option_map].
      * destruct Hb as [Hc (after & Hf)]. exists c, after.
        split; [exact Hf|]. split; [exact Hc|reflexivity].
      * exact Hb.
  - reflexivity.
Qed.

Lemma parseStatusCodes_outcome_witness :
  ExcludedStatusCodes listed_options <> ""
  /\ parseStatusCodes listed_options example_options
     = (set_ExcludedStatusCodesParsed {[ 404%Z; 500%Z ]} example_options,
        Some "invalid status code given: x")
  /\ ~ Forall (fun c => strconv_Atoi c <> None) (codeFields listed_options).
Proof.
  assert (H1 : ExcludedStatusCodes listed_options <> "") by discriminate.
  assert (H2 : parseStatusCodes listed_options example_options
               = (set_ExcludedStatusCodesParsed {[ 404%Z; 500%Z ]}
                    example_options,
                  Some "invalid status code given: x"))
    by (vm_compute; reflexivity).
  refine (conj H1 (conj H2 _)).
  destruct (parseStatusCodes_outcome _ _ _ _ H1 H2) as [Hiff _].
  intros HF. apply Hiff in HF. discriminate HF.
Defined.

Lemma size_list_to_set_union (l : list string) (X : stringSet) :
  (size (list_to_set l ∪ X) <= List.length l + size X)%nat.
Proof.
  induction l as [|a l IH]; cbn [list_to_set List.length].
  - rewrite (left_id_L ∅ (∪)). lia.
  - rewrite <- (assoc_L (∪)), size_union_alt, size_singleton.
    pose proof (subseteq_size ((list_to_set l ∪ X) ∖ {[a]})
                  (list_to_set l ∪ X)) as Hs.
    assert (Hsub : (list_to_set l ∪ X) ∖ {[a]} ⊆ list_to_set l ∪ X).
    { intros x Hx. apply elem_of_difference in Hx. tauto. }
    specialize (Hs Hsub). lia.
Qed.

(** X17: [parseExtensions] fails only on an empty list, and then changes
    nothing.  Otherwise it returns no error, whatever the texts between
    the commas are, and the extensions are the former ones and each text,
    trimmed and without one leading dot; so their number grows by at most
    one more than the list has commas, and no other option is changed. *)
Theorem parseExtensions_outcome (more : OtherOptions) (opt : Options) :
  (Extensions more = "" ->
   parseExtensions more opt = (opt, Some "invalid extension string provided"))
  /\ (Extensions more <> "" ->
      exists opt' : Options,
        parseExtensions more opt = (opt', None)
        /\ (forall e : string,
              e ∈ ExtensionsParsed opt' <->
              e ∈ ExtensionsParsed opt \/ e ∈ extensionFields more)
        /\ (size (ExtensionsParsed opt')
            <= size (ExtensionsParsed opt)
               + S (count_byte "," (Extensions more)))%nat
        /\ opt' = set_ExtensionsParsed (ExtensionsParsed opt') opt).
Proof.
  unfold parseExtensions. split.
  - intros ->. reflexivity.
  - intros Hne. apply String.eqb_neq in Hne. rewrite Hne.
    rewrite parseExtensions_fold. fold (extensionFields more).
    eexists. split; [reflexivity|].
    cbn [ExtensionsParsed set_ExtensionsParsed]. split; [|split].
    + intros e. rewrite elem_of_union, elem_of_list_to_set. tauto.
    + pose proof (size_list_to_set_union (extensionFields more)
                    (ExtensionsParsed opt)) as Hs.
      unfold extensionFields in Hs at 2. rewrite length_map in Hs.
      rewrite (proj2 (Split_Join "," (Extensions more))) in Hs. lia.
    + reflexivity.
Qed.

(** An extension given twice, with and without its dot, counts once. *)
Example parseExtensions_example :
  parseExtensions listed_options example_options
  = (set_ExtensionsParsed {[ "php"; "html" ]} example_options, None).
Proof. vm_compute. reflexivity. Qed.

(** *** [validate] *)

Lemma errorIf_nil (cond : bool) (err : error) :
  errorIf cond err = [] -> cond = false.
Proof. destruct cond; [discriminate|reflexivity]. Qed.

Lemma errorOf_nil (err : option error) : errorOf err = [] -> err = None.
Proof. destruct err; [discriminate|reflexivity]. Qed.

Lemma parseStatusCodes_fields (more : OtherOptions) (opt opt' : Options)
    (err : option error) :
  parseStatusCodes more opt = (opt', err) ->
  opt' = set_ExcludedStatusCodesParsed (ExcludedStatusCodesParsed opt') opt.
Proof.
  unfold parseStatusCodes.
  destruct (String.eqb (ExcludedStatusCodes more) "").
  - intros H. injection H as <- _. symmetry.
    apply set_ExcludedStatusCodesParsed_id.
  - rewrite parseStatusCodes_loop_spec.
    destruct (leading_codes _) as [codes bad].
    intros H. injection H as <- _. reflexivity.
Qed.

Lemma parseExtensions_fields (more : OtherOptions) (opt opt' : Options)
    (err : option error) :
  parseExtensions more opt = (opt', err) ->
  opt' = set_ExtensionsParsed (ExtensionsParsed opt') opt.
Proof.
  unfold parseExtensions. destruct (String.eqb (Extensions more) "").
  - intros H. injection H as <- _. symmetry. apply set_ExtensionsParsed_id.
  - rewrite parseExtensions_fold. intros H. injection H as <- _. reflexivity.
Qed.

Lemma validateDirMode_fields (more : OtherOptions) (opt opt' : Options)
    (err : option error) :
  validateDirMode more opt = (opt', err) -> opt' = set_URL (URL opt') opt.
Proof.
  assert (Hid : opt = set_URL (URL opt) opt) by (destruct opt; reflexivity).
  unfold validateDirMode.
  destruct (negb (String.eqb (Mode more) ModeDir)).
  { intros H. injection H as <- _. exact Hid. }
  assert (Hs : forall (schemed : Options * option error),
             fst schemed = set_URL (URL (fst schemed)) opt ->
             match schemed with
             | (opt1, Some err) => (opt1, Some err)
             | (opt1, None) =>
                 if negb (String.eqb (Username more) "")
                    && String.eqb (Password more) ""
                 then
                   (opt1, Some "username was provided but password is missing")
                 else (opt1, None)
             end = (opt', err) ->
             opt' = set_URL (URL opt') opt).
  { intros [opt1 [e|]] H1; cbn [fst] in H1.
    - intros H. injection H as <- _. exact H1.
    - destruct (negb (String.eqb (Username more) "")
                && String.eqb (Password more) "");
        intros H; injection H as <- _; exact H1. }
  apply Hs.
  destruct (negb (strings_HasPrefix (URL opt) "http")); [|exact Hid].
  destruct (port_FindStringSubmatch (URL opt)) as [digits|]; [|reflexivity].
  destruct (strconv_Atoi digits) as [port|]; [|exact Hid].
  destruct (negb (port =? 80) && negb (port =? 443))%Z; [exact Hid|].
  destruct (port =? 80)%Z; reflexivity.
Qed.

(** X18: when [validate] reports no error, the mode is [dir] or [dns] up
    to the case of its letters, the number of threads is not negative, a
    wordlist is named and exists unless it is standard input, the URL and
    the output folder are not empty, and a named wayback corpus exists.
    The options it leaves differ from the given ones in the parsed sets
    and the URL only; in the mode [dir] the URL then starts with [http]
    and ends with a slash, and a user name comes with a password; in any
    other mode the URL is unchanged. *)
Theorem validate_accepts (not_exist : string -> bool) (randomAgents : File)
    (more more' : OtherOptions) (opt opt' : Options) :
  validate not_exist randomAgents more opt = (more', opt', []) ->
  (lowers_to (Mode more) ModeDir = true \/ lowers_to (Mode more) ModeDNS = true)
  /\ (0 <= Threads opt)%Z
  /\ Wordlist opt <> ""
  /\ (Wordlist opt <> "-" -> not_exist (Wordlist opt) = false)
  /\ URL opt <> ""
  /\ OutputFolder opt <> ""
  /\ (WaybackUrls opt <> "" -> not_exist (WaybackUrls opt) = false)
  /\ opt' = set_URL (URL opt')
              (set_ExtensionsParsed (ExtensionsParsed opt')
                 (set_ExcludedStatusCodesParsed
                    (ExcludedStatusCodesParsed opt') opt))
  /\ (Mode more = ModeDir ->
      strings_HasPrefix (URL opt') "http" = true
      /\ strings_HasSuffix (URL opt') "/" = true
      /\ (Username more = "" \/ Password more <> ""))
  /\ (Mode more <> ModeDir -> URL opt' = URL opt).
Proof.
  unfold validate. intros H.
  destruct (if negb (String.eqb (ExcludedStatusCodes more) "")
            then parseStatusCodes more opt else (opt, None))
    as [opt1 e_codes] eqn:E1.
  destruct (if negb (String.eqb (Extensions more) "")
            then parseExtensions more opt1 else (opt1, None))
    as [opt2 e_exts] eqn:E2.
  destruct (if String.eqb (Mode more) ModeDir
            then validateDirMode more
                   (if negb (strings_HasSuffix (URL opt2) "/")
                    then set_URL (URL opt2 +:+ "/") opt2 else opt2)
            else (opt2, None)) as [opt3 e_dir] eqn:E3.
  destruct (if negb (String.eqb (RandomAgent more) "")
            then
              if not_exist (RandomAgent more)
              then
                (more,
                 ["Random agent (-random-agent): File does not exist: "
                  +:+ RandomAgent more])
              else
                let '(more1, err) := parseRandomAgents randomAgents more in
                (more1, errorOf err)
            else (more, [])) as [more1 e_agents] eqn:E4.
  injection H as _ <- He.
  apply app_eq_nil in He. destruct He as [Hmode He].
  apply app_eq_nil in He. destruct He as [Hthreads He].
  apply app_eq_nil in He. destruct He as [Hwordlist He].
  apply app_eq_nil in He. destruct He as [Hurl He].
  apply app_eq_nil in He. destruct He as [Hfolder He].
  apply app_eq_nil in He. destruct He as [Hcodes He].
  apply app_eq_nil in He. destruct He as [Hexts He].
  apply app_eq_nil in He. destruct He as [Hdir He].
  apply app_eq_nil in He. destruct He as [Hwayback _].
  apply errorIf_nil in Hmode, Hthreads, Hurl, Hfolder, Hwayback.
  apply errorOf_nil in Hcodes, Hexts, Hdir. subst e_codes e_exts e_dir.
  assert (H1 : opt1 = set_ExcludedStatusCodesParsed
                        (ExcludedStatusCodesParsed opt1) opt).
  { destruct (negb (String.eqb (ExcludedStatusCodes more) "")).
    - apply (parseStatusCodes_fields _ _ _ _ E1).
    - injection E1 as <-. symmetry. apply set_ExcludedStatusCodesParsed_id. }
  assert (H2 : opt2 = set_ExtensionsParsed (ExtensionsParsed opt2) opt1).
  { destruct (negb (String.eqb (Extensions more) "")).
    - apply (parseExtensions_fields _ _ _ _ E2).
    - injection E2 as <-. symmetry. apply set_ExtensionsParsed_id. }
  assert (H3 : opt3 = set_URL (URL opt3) opt2).
  { destruct (String.eqb (Mode more) ModeDir).
    - apply validateDirMode_fields in E3. rewrite E3.
      destruct (negb (strings_HasSuffix (URL opt2) "/")); reflexivity.
    - injection E3 as <-. destruct opt2; reflexivity. }
  assert (HU : URL opt2 = URL opt).
  { rewrite H2, H1. reflexivity. }
  assert (HW : WaybackUrls opt3 = WaybackUrls opt).
  { rewrite H3, H2, H1. reflexivity. }
  split.
  { apply andb_false_iff in Hmode.
    destruct Hmode as [Hm | Hm]; apply negb_false_iff in Hm; auto. }
  split; [apply Z.ltb_ge; exact Hthreads|].
  split.
  { intros E. rewrite E in Hwordlist. discriminate. }
  split.
  { intros Hn. destruct (String.eqb (Wordlist opt) ""); [discriminate|].
    apply String.eqb_neq in Hn. rewrite Hn in Hwordlist.
    apply (errorIf_nil _ _ Hwordlist). }
  split; [apply String.eqb_neq; exact Hurl|].
  split; [apply String.eqb_neq; exact Hfolder|].
  split.
  { intros Hn. rewrite HW in Hwayback. apply String.eqb_neq in Hn.
    rewrite Hn in Hwayback. exact Hwayback. }
  split.
  { rewrite H3 at 1. rewrite H2 at 1. rewrite H1 at 1.
    rewrite H3, H2. reflexivity. }
  split.
  - intros HM. rewrite HM in E3.
    change (String.eqb ModeDir ModeDir) with true in E3.
    destruct (validateDirMode_returns _ _ _ HM E3)
      as (HP & _ & HS & Hcred & _).
    split; [exact HP|]. split; [|exact Hcred]. apply HS.
    destruct (strings_HasSuffix (URL opt2) "/") eqn:ES; cbn [negb].
    + exact ES.
    + apply HasSuffix_append_slash.
  - intros HM. apply String.eqb_neq in HM. rewrite HM in E3.
    injection E3 as <-. exact HU.
Qed.

Lemma validate_accepts_witness :
  validate all_exist example_wordlist valid_options
    (set_URL "example.com:443" example_options)
  = (valid_options,
     mkOptions {[ "php"; "html" ]} {[ 404%Z; 500%Z ]} 10
       "https://example.com:443/" "words.txt" false false "" "" false "out",
     [])
  /\ (0 <= Threads (set_URL "example.com:443" example_options))%Z.
Proof.
  assert (H : validate all_exist example_wordlist valid_options
                (set_URL "example.com:443" example_options)
              = (valid_options,
                 mkOptions {[ "php"; "html" ]} {[ 404%Z; 500%Z ]} 10
                   "https://example.com:443/" "words.txt" false false "" ""
                   false "out",
                 [])) by (vm_compute; reflexivity).
  refine (conj H _).
  exact (proj1 (proj2 (validate_accepts _ _ _ _ _ _ H))).
Defined.

(** A mode in capitals passes the validation, but it is not the mode
    [dir] of the later tests: the URL is left without scheme and slash. *)
Example validate_capital_mode :
  validate all_exist example_wordlist capital_options
    (set_URL "example.com:443" example_options)
  = (capital_options,
     mkOptions {[ "php"; "html" ]} {[ 404%Z; 500%Z ]} 10
       "example.com:443" "words.txt" false false "" "" false "out",
     []).
Proof. vm_compute. reflexivity. Qed.

(** The errors of [validate] are gathered, in the order of its tests. *)
Example validate_errors :
  snd (validate (fun _ => true) example_wordlist
         (mkOtherOptions "dirs" "" "404,x" "admin" "" "" [] "")
         (mkOptions ∅ ∅ (-1) "example.com:8080" "words.txt" false false "" ""
            false ""))
  = ["Mode (-m): Invalid value: dirs";
     "Threads (-t): Invalid value: -1";
     "Wordlist (-w): File does not exist: words.txt";
     "Output folder (-of): Must be specified: ";
     "invalid status code given: x"].
Proof. vm_compute. reflexivity. Qed.

(** ** The static assets of the wayback corpus *)

Lemma asset_inside_line (s : string) :
  no_newline s = true -> asset_ReplaceAllString true s = "".
Proof.
  induction s as [|c s IH]; [reflexivity|]. cbn [no_newline].
  intros H. apply andb_true_iff in H. destruct H as [Hc Hs].
  cbn [asset_ReplaceAllString]. rewrite Hc. cbn [andb]. apply IH. exact Hs.
Qed.

Lemma asset_match_here_next (c : ascii) (s : string) :
  asset_match_here s = true ->
  asset_match_here (String c s) = negb (Ascii.eqb c "/").
Proof.
  destruct s as [|d s]; [discriminate|]. cbn [asset_match_here].
  intros H. apply andb_true_iff in H. destruct H as [Hd Hr].
  rewrite run_dot_ext_cons, Hd, Hr, orb_true_r, andb_true_r. reflexivity.
Qed.

Lemma asset_line_shape (s : string) :
  no_newline s = true ->
  (exists rest, s = asset_ReplaceAllString false s +:+ rest)
  /\ (if asset_match_here s then asset_ReplaceAllString false s = ""
      else asset_ReplaceAllString false s = s
           \/ strings_HasSuffix (asset_ReplaceAllString false s) "/" = true).
Proof.
  induction s as [|c s IH]; intros Hn.
  - split; [exists ""; reflexivity|]. left. reflexivity.
  - cbn [no_newline] in Hn. apply andb_true_iff in Hn. destruct Hn as [_ Hn].
    destruct (IH Hn) as [(rest & Hrest) Hshape].
    destruct (asset_match_here (String c s)) eqn:Em.
    + assert (E : asset_ReplaceAllString false (String c s) = "").
      { cbn [asset_ReplaceAllString andb]. rewrite Em.
        apply asset_inside_line. exact Hn. }
      rewrite E. split; [exists (String c s); reflexivity|reflexivity].
    + rewrite (asset_kept false c s eq_refl Em). split.
      * exists rest.
        change (String c (asset_ReplaceAllString false s) +:+ rest)
          with (String c (asset_ReplaceAllString false s +:+ rest)).
        rewrite <- Hrest. reflexivity.
      * destruct (asset_match_here s) eqn:Es.
        -- rewrite Hshape. right.
           rewrite (asset_match_here_next c s Es) in Em.
           apply negb_false_iff, Ascii.eqb_eq in Em. subst c. reflexivity.
        -- destruct Hshape as [-> | HS]; [left; reflexivity|right].
           apply (HasSuffix_slash_prepend (String c "")). exact HS.
Qed.

(** X19: every URL that [parseWaybackUrls] writes out comes from a line of
    the corpus (a line holds no newline) by the removal of static assets:
    it is a start of that line, and either the whole line, or empty, or a
    text that ends with a slash, the line being cut back to the directory
    of the first asset in it; no asset is left in it, so that the removal
    would change it no more. *)
Theorem uniqueUrls_assets (url_Parse : string -> option url.URL)
    (lines : list string) (u : string) :
  Forall (fun line => no_newline line = true) lines ->
  u ∈ uniqueUrls url_Parse lines ->
  (exists line rest, line ∈ lines /\ line = u +:+ rest
                     /\ (u = line \/ u = "" \/ strings_HasSuffix u "/" = true))
  /\ asset_ReplaceAllString false u = u.
Proof.
  intros Hlines Hu. split; [|apply (uniqueUrls_clean url_Parse lines u Hu)].
  destruct (elem_of_uniqueUrls url_Parse lines u Hu) as (line & Hin & ->).
  rewrite Forall_forall in Hlines.
  destruct (asset_line_shape line (Hlines line Hin)) as [(rest & Hrest) Hshape].
  exists line, rest. split; [exact Hin|]. split; [exact Hrest|].
  destruct (asset_match_here line); [right; left; exact Hshape|].
  destruct Hshape as [H | H]; [left|right; right]; exact H.
Qed.

Lemma uniqueUrls_assets_witness :
  Forall (fun line => no_newline line = true) asset_corpus
  /\ uniqueUrls url.Parse asset_corpus = ["http://t/a?x=1"; "http://t/img/"; ""]
  /\ asset_ReplaceAllString false "http://t/img/" = "http://t/img/".
Proof.
  assert (H1 : Forall (fun line => no_newline line = true) asset_corpus)
    by (repeat constructor).
  assert (H2 : uniqueUrls url.Parse asset_corpus
               = ["http://t/a?x=1"; "http://t/img/"; ""])
    by (vm_compute; reflexivity).
  refine (conj H1 (conj H2 _)).
  apply (uniqueUrls_assets url.Parse asset_corpus "http://t/img/" H1).
  rewrite H2, !elem_of_cons. right. left. reflexivity.
Defined.

(** ** The names of the files written *)

Lemma replace_byte_cons (c d x : ascii) (s : string) :
  replace_from (String c "") (String d "") 0 (String x s)
  = String (if Ascii.eqb x c then d else x)
      (replace_from (String c "") (String d "") 0 s).
Proof.
  cbn [replace_from]. rewrite prefix_cons.
  destruct (ascii_dec c x) as [<-|Hn].
  - rewrite Ascii.eqb_refl. destruct s; reflexivity.
  - destruct (Ascii.eqb x c) eqn:E; [|reflexivity].
    apply Ascii.eqb_eq in E. congruence.
Qed.

Lemma replace_byte_length (c d : ascii) (s : string) :
  String.length (replace_from (String c "") (String d "") 0 s)
  = String.length s.
Proof.
  induction s as [|x s IH]; [reflexivity|].
  rewrite replace_byte_cons. cbn [String.length]. rewrite IH. reflexivity.
Qed.

Lemma replace_byte_count (c d x : ascii) (s : string) :
  x <> d -> x = c \/ count_byte x s = 0%nat ->
  count_byte x (replace_from (String c "") (String d "") 0 s) = 0%nat.
Proof.
  intros Hd. induction s as [|y s IH]; intros H; [reflexivity|].
  rewrite replace_byte_cons. cbn [count_byte].
  assert (Hs : x = c \/ count_byte x s = 0%nat).
  { destruct H as [H | H]; [left; exact H|right].
    cbn [count_byte] in H. lia. }
  rewrite (IH Hs). destruct (Ascii.eqb y c) eqn:E.
  - destruct (Ascii.eqb d x) eqn:E'; [|reflexivity].
    apply Ascii.eqb_eq in E'. congruence.
  - destruct (Ascii.eqb y x) eqn:E'; [|reflexivity].
    apply Ascii.eqb_eq in E'. subst y.
    destruct H as [-> | H].
    + rewrite Ascii.eqb_refl in E. discriminate.
    + cbn [count_byte] in H. rewrite Ascii.eqb_refl in H. discriminate.
Qed.

Lemma count_byte_app (c : ascii) (a b : string) :
  count_byte c (a +:+ b) = (count_byte c a + count_byte c b)%nat.
Proof.
  induction a as [|x a IH]; [reflexivity|].
  change (String x a +:+ b) with (String x (a +:+ b)).
  cbn [count_byte]. rewrite IH. lia.
Qed.

Lemma Sprintf_verbs_plain (prefix rest : string) (args : list string) :
  count_byte "%" prefix = 0%nat ->
  Sprintf_verbs (prefix +:+ rest) args = prefix +:+ Sprintf_verbs rest args.
Proof.
  induction prefix as [|c prefix IH]; intros H; [reflexivity|].
  cbn [count_byte] in H.
  change (String c prefix +:+ rest) with (String c (prefix +:+ rest)).
  cbn [Sprintf_verbs]. destruct (Ascii.eqb c "%"); [discriminate|].
  rewrite IH; [reflexivity|exact H].
Qed.

Lemma example_Sprintf_plain : copies_plain_prefix example_Sprintf.
Proof.
  intros prefix stamp scheme host path H. unfold example_Sprintf.
  rewrite (Sprintf_verbs_plain prefix _ _ H). reflexivity.
Qed.

(** X20: the file name of the matches that [resultWorker] makes up and the
    file name of the parsed wayback corpus that [parseWaybackUrls] makes up
    are formatted with the output folder as the start of the format.  With
    [fmt.Sprintf] copying a start of the format that holds no [%], for an
    output folder without [%] each name is the folder, the fixed part, the
    time stamp, the scheme, and the host and the path of the target in
    their sanitized forms.  In these the host has every dot and colon
    turned into an underscore, at its length, and the path, unless it is a
    single slash, every slash turned into an underscore after the removal
    of one trailing slash: the host part holds no dot and no colon, and
    the path part no slash. *)
Theorem sanitized_names (fmt_Sprintf : NameFormatter) (g : Gobuster)
    (outputfolder : string) (stamp : Z) (parsedMainURL : url.URL) :
  copies_plain_prefix fmt_Sprintf ->
  (count_byte "%" (OutputFolder (Opts g)) = 0%nat ->
   waybackParsedName fmt_Sprintf g stamp parsedMainURL
   = (OutputFolder (Opts g) +:+ "/output_waybackurls/waybackurls_parsed_")
     +:+ fmt_d stamp +:+ "_" +:+ url.Scheme parsedMainURL +:+ "_"
     +:+ sanitizedHost parsedMainURL +:+ sanitizedPath parsedMainURL
     +:+ ".txt")
  /\ (count_byte "%" outputfolder = 0%nat ->
      autoFilename fmt_Sprintf outputfolder stamp parsedMainURL
      = (outputfolder +:+ "/output_matches/matches_")
        +:+ fmt_d stamp +:+ "_" +:+ url.Scheme parsedMainURL +:+ "_"
        +:+ sanitizedHost parsedMainURL +:+ sanitizedPath parsedMainURL
        +:+ ".txt")
  /\ String.length (sanitizedHost parsedMainURL)
     = String.length (url.Host parsedMainURL)
  /\ count_byte "." (sanitizedHost parsedMainURL) = 0%nat
  /\ count_byte ":" (sanitizedHost parsedMainURL) = 0%nat
  /\ (count_byte "/" (url.Host parsedMainURL) = 0%nat ->
      count_byte "/" (sanitizedHost parsedMainURL) = 0%nat)
  /\ count_byte "/" (sanitizedPath parsedMainURL) = 0%nat
  /\ (url.Path parsedMainURL = "/" -> sanitizedPath parsedMainURL = "").
Proof.
  intros HS.
  split.
  { intros H. unfold waybackParsedName.
    change (strings_ReplaceAll
              (strings_ReplaceAll (url.Host parsedMainURL) "." "_") ":" "_")
      with (sanitizedHost parsedMainURL).
    change (if negb (String.eqb (url.Path parsedMainURL) "/")
            then strings_ReplaceAll
                   (TrimSuffix_slash (url.Path parsedMainURL)) "/" "_"
            else "")
      with (sanitizedPath parsedMainURL).
    change "/output_waybackurls/waybackurls_parsed_%d_%s_%s%s.txt"
      with ("/output_waybackurls/waybackurls_parsed_" +:+ "%d_%s_%s%s.txt").
    rewrite <- append_assoc. apply HS.
    rewrite count_byte_app, H. reflexivity. }
  split.
  { intros H. unfold autoFilename.
    change "/output_matches/matches_%d_%s_%s%s.txt"
      with ("/output_matches/matches_" +:+ "%d_%s_%s%s.txt").
    rewrite <- append_assoc. apply HS.
    rewrite count_byte_app, H. reflexivity. }
  unfold sanitizedHost, sanitizedPath, strings_ReplaceAll.
  split; [rewrite !replace_byte_length; reflexivity|].
  split.
  { apply replace_byte_count; [discriminate|right].
    apply replace_byte_count; [discriminate|left; reflexivity]. }
  split; [apply replace_byte_count; [discriminate|left; reflexivity]|].
  split.
  { intros H. apply replace_byte_count; [discriminate|right].
    apply replace_byte_count; [discriminate|right; exact H]. }
  split.
  - destruct (negb (String.eqb (url.Path parsedMainURL) "/")); [|reflexivity].
    apply replace_byte_count; [discriminate|left; reflexivity].
  - intros ->. reflexivity.
Qed.

Lemma sanitized_names_witness :
  copies_plain_prefix example_Sprintf
  /\ autoFilename example_Sprintf "out" 1700000000 dotted_target
     = "out/output_matches/matches_1700000000_http_a_b_8080_x_y.txt".
Proof.
  refine (conj example_Sprintf_plain _).
  destruct (sanitized_names example_Sprintf example_run "out" 1700000000
              dotted_target example_Sprintf_plain) as (_ & Ha & _).
  rewrite (Ha eq_refl). vm_compute. reflexivity.
Defined.

(** Two targets may share their file names. *)
Example sanitized_names_collide :
  autoFilename example_Sprintf "out" 1700000000 plain_target
  = autoFilename example_Sprintf "out" 1700000000 dotted_target.
Proof. vm_compute. reflexivity. Qed.

(** ** The request *)

Lemma rune_count_le (s : string) : forall skip : nat,
  (rune_count_from skip s <= String.length s)%nat.
Proof.
  induction s as [|c s IH]; intros skip; [cbn; lia|].
  cbn [rune_count_from String.length]. destruct skip as [|k].
  - specialize (IH (rune_size c s - 1)%nat). lia.
  - specialize (IH k). lia.
Qed.

Lemma rune_count_ascii (s : string) :
  is_ascii s = true -> rune_count_from 0 s = String.length s.
Proof.
  induction s as [|c s IH]; [reflexivity|]. cbn [is_ascii].
  intros H. apply andb_true_iff in H. destruct H as [Hc Hs].
  cbn [rune_count_from String.length]. unfold rune_size.
  assert (E : (N_of_ascii c <? 194)%N = true).
  { apply N.ltb_lt in Hc. apply N.ltb_lt. lia. }
  rewrite E. cbn. rewrite (IH Hs). reflexivity.
Qed.

Lemma RuneCount_bounds (s : string) :
  (0 <= utf8_RuneCountInString s <= len s)%Z
  /\ (is_ascii s = true -> utf8_RuneCountInString s = len s).
Proof.
  unfold utf8_RuneCountInString, len.
  pose proof (rune_count_le s 0). split; [lia|].
  intros Ha. rewrite (rune_count_ascii s Ha). reflexivity.
Qed.

(** X21: when [makeRequest] returns a response, its status is that of the
    answer and its content the body read, or the empty string when the
    read of the body fails, without any error; a redirect URL is returned
    for the statuses 301 and 302 only.  Without [includeLength] the size is
    the number of runes of the content, at most its number of bytes and
    equal to it for an ASCII body; with [includeLength] it is the content
    length of the answer when that is positive.  A redirection whose
    location cannot be read is an error, not a result. *)
Theorem makeRequest_outcome (includeLength : bool) (ex : Exchange) :
  (forall resp : Response,
      makeRequest includeLength ex = inr resp ->
      resp_Status resp = ex_StatusCode ex
      /\ resp_Content resp
         = match ex_body ex with inr body => body | inl _ => "" end
      /\ (resp_Redirect resp <> "" ->
          ex_StatusCode ex = 301%Z \/ ex_StatusCode ex = 302%Z)
      /\ (includeLength = false ->
          resp_Size resp = utf8_RuneCountInString (resp_Content resp)
          /\ (0 <= resp_Size resp <= len (resp_Content resp))%Z
          /\ (is_ascii (resp_Content resp) = true ->
              resp_Size resp = len (resp_Content resp)))
      /\ (includeLength = true -> (0 < ex_ContentLength ex)%Z ->
          resp_Size resp = ex_ContentLength ex))
  /\ (forall err,
        (ex_StatusCode ex = 301%Z \/ ex_StatusCode ex = 302%Z) ->
        ex_Location ex = inl err ->
        exists err', makeRequest includeLength ex = inl err').
Proof.
  split.
  - intros resp H. unfold makeRequest in H.
    destruct (ex_request_err ex); [discriminate|].
    destruct (ex_do_err ex) as [[e [cause|]]|];
      [destruct (strings_HasPrefix cause "x509"); discriminate
      |discriminate|].
    assert (Hred : forall size content,
               (if ((ex_StatusCode ex =? 301) || (ex_StatusCode ex =? 302))%Z
                then
                  match ex_Location ex with
                  | inl err => inl err
                  | inr value =>
                      inr (mkResponse (ex_StatusCode ex) size content value)
                  end
                else inr (mkResponse (ex_StatusCode ex) size content ""))
               = inr resp ->
               resp_Status resp = ex_StatusCode ex
               /\ resp_Content resp = content /\ resp_Size resp = size
               /\ (resp_Redirect resp <> "" ->
                   ex_StatusCode ex = 301%Z \/ ex_StatusCode ex = 302%Z)).
    { intros size content E.
      destruct ((ex_StatusCode ex =? 301) || (ex_StatusCode ex =? 302))%Z
        eqn:Es.
      - destruct (ex_Location ex) as [|value]; [discriminate|].
        injection E as <-. cbn. repeat split. intros _.
        apply orb_true_iff in Es. destruct Es as [Es | Es];
          apply Z.eqb_eq in Es; auto.
      - injection E as <-. cbn. repeat split. intros Hn. contradiction. }
    set (content := match ex_body ex with inr body => body | inl _ => "" end).
    assert (EB : match ex_body ex with
                 | inr body => (body, utf8_RuneCountInString body)
                 | inl _ => (EmptyString, 0%Z)
                 end = (content, utf8_RuneCountInString content)).
    { unfold content. destruct (ex_body ex); reflexivity. }
    rewrite EB in H. clear EB.
    destruct (RuneCount_bounds content) as [Hb Ha].
    destruct includeLength.
    + destruct (Hred _ _ H) as (H1 & H2 & H3 & H4).
      split; [exact H1|]. split; [exact H2|]. split; [exact H4|].
      split; [discriminate|]. intros _ Hp. rewrite H3.
      apply Z.ltb_lt in Hp. rewrite Hp. reflexivity.
    + destruct (ex_copy_err ex); [discriminate|].
      destruct (Hred _ _ H) as (H1 & H2 & H3 & H4).
      split; [exact H1|]. split; [exact H2|]. split; [exact H4|].
      split; [|discriminate]. intros _. rewrite H2, H3.
      split; [reflexivity|]. split; [exact Hb|exact Ha].
  - intros err Hs HL. unfold makeRequest.
    destruct (ex_request_err ex); [eauto|].
    destruct (ex_do_err ex) as [[e [cause|]]|];
      [destruct (strings_HasPrefix cause "x509"); eauto|eauto|].
    destruct (match ex_body ex with
              | inr body => (body, utf8_RuneCountInString body)
              | inl _ => (EmptyString, 0%Z)
              end) as [content length].
    assert (Es : ((ex_StatusCode ex =? 301) || (ex_StatusCode ex =? 302))%Z
                 = true).
    { apply orb_true_iff. destruct Hs as [-> | ->]; auto. }
    destruct includeLength; [|destruct (ex_copy_err ex); [eauto|]];
      rewrite Es, HL; eauto.
Qed.

(** The runes of some texts, and the two answers. *)
Example makeRequest_examples :
  utf8_RuneCountInString "naïve café" = 10%Z
  /\ len "naïve café" = 12%Z
  /\ makeRequest false (served "Not Found")
     = inr (mkResponse 200 9 "Not Found" "")
  /\ makeRequest false lost_redirect
     = inl "http: no Location header in response".
Proof. repeat split; vm_compute; reflexivity. Qed.

(** ** The consumer of the results *)






(** A failed write to the file of all matches ends the run with a message
    that does not tell the cause. *)
Example resultWorker_fatal :
  resultWorker_output
    (GobusterDir transport_status_only url.Parse example_uuids)
    still_clock no_write_err (fun _ => Some "disk full") earlier_matches None
    None excluding_run example_results
  = Returns (inl "error on writing all time matches file: <nil>").
Proof. vm_compute. reflexivity. Qed.

(** ** The dedup of a corpus without static assets *)

Lemma string_compare_trans (a : string) : forall b c : string,
  String.compare a b <> Gt -> String.compare b c <> Gt ->
  String.compare a c <> Gt.
Proof.
  induction a as [|x a IH]; intros b c Hab Hbc.
  - destruct c; discriminate.
  - destruct b as [|y b]; [exfalso; apply Hab; reflexivity|].
    destruct c as [|z c]; [exfalso; apply Hbc; reflexivity|].
    cbn [String.compare] in *. unfold Ascii.compare in *.
    destruct (N.compare_spec (N_of_ascii x) (N_of_ascii y)) as [E1|E1|E1];
      [|clear Hab|exfalso; apply Hab; reflexivity].
    + rewrite E1.
      destruct (N.compare_spec (N_of_ascii y) (N_of_ascii z)) as [E2|E2|E2];
        [apply (IH b c Hab Hbc)|discriminate|exact Hbc].
    + destruct (N.compare_spec (N_of_ascii y) (N_of_ascii z)) as [E2|E2|E2];
        [|clear Hbc|exfalso; apply Hbc; reflexivity].
      * rewrite <- E2.
        destruct (N.compare_spec (N_of_ascii x) (N_of_ascii y));
          [lia|discriminate|lia].
      * destruct (N.compare_spec (N_of_ascii x) (N_of_ascii z));
          [lia|discriminate|lia].
Qed.

Lemma string_le_trans (a b c : string) :
  string_le a b -> string_le b c -> string_le a c.
Proof.
  unfold string_le, String.leb. intros Hab Hbc.
  pose proof (string_compare_trans a b c) as H.
  destruct (String.compare a b); try discriminate;
    destruct (String.compare b c); try discriminate;
    destruct (String.compare a c); try reflexivity;
    exfalso; apply H; discriminate || reflexivity.
Qed.

Lemma sort_Strings_sorted_id (l : list string) :
  StronglySorted string_le l -> sort_Strings l = l.
Proof.
  induction 1 as [|a l Hl IH Ha]; [reflexivity|].
  cbn [sort_Strings]. rewrite IH. destruct l as [|y l]; [reflexivity|].
  cbn [insert_sorted]. inversion Ha as [|? ? Hy _]; subst.
  unfold string_le in Hy. rewrite Hy. reflexivity.
Qed.

Lemma firstOccurrences_id (l : list ParsedURL.t) :
  forall earlier : list ParsedURL.t,
  inequivalent l ->
  (forall q p, q ∈ earlier -> p ∈ l -> ~ equivURL q p) ->
  firstOccurrences earlier l = l.
Proof.
  induction l as [|p l IH]; intros earlier Hin Hfresh; [reflexivity|].
  cbn [firstOccurrences].
  assert (E : existsb (fun value => equivb value p) earlier = false).
  { destruct (existsb (fun value => equivb value p) earlier) eqn:E;
      [|reflexivity].
    apply existsb_equivb in E. destruct E as (q & Hq & He).
    exfalso. apply (Hfresh q p Hq); [left|exact He]. }
  rewrite E. cbn [app]. f_equal.
  unfold inequivalent in Hin. inversion Hin as [|? ? Hp Hl]; subst.
  apply IH; [exact Hl|].
  intros q p' Hq Hp'. apply elem_of_app in Hq. destruct Hq as [Hq | Hq].
  - apply (Hfresh q p' Hq). right. exact Hp'.
  - apply elem_of_cons in Hq. destruct Hq as [-> | Hq]; [|inversion Hq].
    rewrite Forall_forall in Hp. apply (Hp p' Hp').
Qed.

Lemma firstOccurrences_lines (url_Parse : string -> option url.URL)
    (l : list string) :
  StronglySorted string_le l ->
  Forall (fun line => asset_ReplaceAllString false line = line) l ->
  forall earlier : list ParsedURL.t,
  exists kept : list string,
    firstOccurrences earlier (List.map (parseLine url_Parse) l)
    = List.map (parseLine url_Parse) kept
    /\ StronglySorted string_le kept
    /\ Forall (fun line => line ∈ l) kept.
Proof.
  induction 1 as [|a l Hl IH Ha]; intros Hclean earlier.
  - exists []. repeat split; constructor.
  - inversion Hclean as [|? ? Hca Hcl]; subst.
    destruct (IH Hcl (earlier ++ [parseLine url_Parse a]))
      as (kept & Hk & Hs & Hin).
    cbn [List.map firstOccurrences]. rewrite Hk.
    assert (Hin' : Forall (fun line => line ∈ a :: l) kept).
    { eapply Forall_impl; [exact Hin|]. intros x Hx. right. exact Hx. }
    destruct (existsb (fun value => equivb value (parseLine url_Parse a))
                earlier).
    + exists kept. split; [reflexivity|]. split; [exact Hs|exact Hin'].
    + exists (a :: kept). split; [reflexivity|]. split.
      * constructor; [exact Hs|].
        rewrite Forall_forall in Hin, Ha. apply Forall_forall.
        intros x Hx. apply Ha, Hin, Hx.
      * constructor; [left|exact Hin'].
Qed.

(** X23: on a corpus none of whose lines holds a static asset, the dedup
    of [parseWaybackUrls] is idempotent: applied to the URLs it has
    written, it writes the same URLs in the same order. *)
Theorem dedup_idempotent_without_assets
    (url_Parse : string -> option url.URL) (lines : list string) :
  Forall (fun line => asset_ReplaceAllString false line = line) lines ->
  uniqueUrls url_Parse (uniqueUrls url_Parse lines)
  = uniqueUrls url_Parse lines.
Proof.
  intros Hclean.
  assert (Hsorted : StronglySorted string_le (sort_Strings lines)).
  { apply Sorted_StronglySorted; [|apply sort_Strings_Sorted].
    intros a b c. apply string_le_trans. }
  assert (Hclean' : Forall (fun line => asset_ReplaceAllString false line = line)
                      (sort_Strings lines)).
  { rewrite Forall_forall in Hclean. apply Forall_forall. intros x Hx.
    apply Hclean. rewrite <- (sort_Strings_perm lines). exact Hx. }
  destruct (firstOccurrences_lines url_Parse _ Hsorted Hclean' [])
    as (kept & Hk & Hs & Hin).
  assert (HU : uniqueParsedUrls url_Parse lines
               = List.map (parseLine url_Parse) kept).
  { rewrite uniqueParsedUrls_firstOccurrences. exact Hk. }
  assert (Hurls : uniqueUrls url_Parse lines = kept).
  { unfold uniqueUrls. rewrite HU, List.map_map.
    rewrite Forall_forall in Hin, Hclean'.
    clear -Hin Hclean'. induction kept as [|x kept IH]; [reflexivity|].
    cbn [List.map]. rewrite URL_parseLine.
    rewrite (Hclean' x (Hin x ltac:(left))). f_equal. apply IH.
    intros y Hy. apply Hin. right. exact Hy. }
  rewrite Hurls. unfold uniqueUrls at 1.
  rewrite uniqueParsedUrls_firstOccurrences. unfold parsedUrls.
  rewrite (sort_Strings_sorted_id kept Hs), <- HU.
  rewrite firstOccurrences_id.
  - fold (uniqueUrls url_Parse lines). exact Hurls.
  - rewrite uniqueParsedUrls_firstOccurrences.
    apply firstOccurrences_inequivalent.
  - intros q p Hq. inversion Hq.
Qed.

Lemma dedup_idempotent_without_assets_witness :
  Forall (fun line => asset_ReplaceAllString false line = line)
    ["http://t/a?x=2"; "http://t/b"; "http://t/a?x=1"]
  /\ uniqueUrls url.Parse ["http://t/a?x=2"; "http://t/b"; "http://t/a?x=1"]
     = ["http://t/a?x=1"; "http://t/b"]
  /\ uniqueUrls url.Parse ["http://t/a?x=1"; "http://t/b"]
     = ["http://t/a?x=1"; "http://t/b"].
Proof.
  assert (H1 : Forall (fun line => asset_ReplaceAllString false line = line)
                 ["http://t/a?x=2"; "http://t/b"; "http://t/a?x=1"])
    by (repeat constructor).
  assert (H2 : uniqueUrls url.Parse
                 ["http://t/a?x=2"; "http://t/b"; "http://t/a?x=1"]
               = ["http://t/a?x=1"; "http://t/b"])
    by (vm_compute; reflexivity).
  refine (conj H1 (conj H2 _)).
  pose proof (dedup_idempotent_without_assets url.Parse _ H1) as H.
  rewrite H2 in H. exact H.
Defined.

(** ** A run through its wordlist *)

Lemma getWordlist_exact (g : Gobuster) (stdin : list string) (wordlist : File)
    (done : nat -> bool) (range_order : nat -> list string) :
  String.eqb (Wordlist (Opts g)) "-" = false ->
  file_open_err wordlist = None ->
  file_scan_err wordlist = None ->
  file_seek_err wordlist = None ->
  (forall text, text ∈ file_lines wordlist ->
     strings_HasPrefix (strings_TrimSpace text) "#" = false) ->
  (forall j, done j = false) ->
  (forall j, range_order j ≡ₚ elements (ExtensionsParsed (Opts g))) ->
  (Z.of_nat (List.length (WordScan g done range_order 0 (file_lines wordlist)))
   <= int_max)%Z ->
  exists g' : Gobuster,
    getWordlist stdin wordlist g = (g', inr (file_lines wordlist))
    /\ Opts g' = Opts g
    /\ requestsIssued g' = 0%Z
    /\ errorCount g' = errorCount g
    /\ requestsExpected g'
       = Z.of_nat
           (List.length (WordScan g done range_order 0 (file_lines wordlist))).
Proof.
  intros Hw Hopen Hscan Hseek Hhash Hdone Hrange Hmax.
  unfold getWordlist. rewrite Hw, Hopen, Hscan, Hseek.
  eexists. split; [reflexivity|]. split; [reflexivity|].
  split; [reflexivity|]. split; [reflexivity|].
  cbn [requestsExpected set_requestsExpected].
  rewrite expectedRequests_spec.
  rewrite (length_WordScan g done range_order _ 0 Hdone Hrange Hhash) in *.
  cbn [Opts set_requestsExpected set_requestsIssued] in *.
  unfold lenExtensions in *.
  cbn [Opts set_requestsExpected set_requestsIssued] in *.
  apply wrap_id. unfold in_int, int_min, int_bits.
  pose proof (extword_le (file_lines wordlist)).
  change (2 ^ (64 - 1))%Z with 9223372036854775808%Z.
  unfold int_max, int_bits in *.
  change (2 ^ (64 - 1))%Z with 9223372036854775808%Z in *.
  destruct (BlankExtension (Opts g)); split; try lia; nia.
Qed.

Lemma requestsExpected_handleAll (plugin : GobusterPlugin)
    (targets : list BusterTarget) : forall g : Gobuster,
  requestsExpected (fst (handleAll plugin targets g)) = requestsExpected g.
Proof.
  induction targets as [|t targets IH]; intros g; [reflexivity|].
  cbn [handleAll]. specialize (IH (incrementRequests g)).
  destruct (handleAll plugin targets (incrementRequests g)) as [g2 sends].
  exact IH.
Qed.

Lemma requestsExpected_errorWorker (errors : list error) : forall g : Gobuster,
  requestsExpected (errorWorker errors g) = requestsExpected g.
Proof.
  induction errors as [|e errors IH]; intros g; [reflexivity|].
  change (errorWorker (e :: errors) g)
    with (errorWorker errors (DecrementRequests (IncrementErrorCount g))).
  rewrite IH. unfold DecrementRequests.
  destruct (0 <? requestsIssued (IncrementErrorCount g))%Z; reflexivity.
Qed.

(** X24: a run through a wordlist file without comment lines that is
    never cancelled accounts for every candidate: when the workers have
    handled all the candidates that the wordlist scan of [Start] sends
    after [getWordlist], and [errorWorker] has received their errors, the
    issued count and the errors counted since add up to the expected
    count, so that the progress shown ends at the full count less the
    errors (the counts being within Go's [int]). *)
Theorem wordlist_run_accounted (plugin : GobusterPlugin)
    (g : Gobuster) (stdin : list string) (wordlist : File)
    (done : nat -> bool) (range_order : nat -> list string) :
  String.eqb (Wordlist (Opts g)) "-" = false ->
  file_open_err wordlist = None ->
  file_scan_err wordlist = None ->
  file_seek_err wordlist = None ->
  (forall text, text ∈ file_lines wordlist ->
     strings_HasPrefix (strings_TrimSpace text) "#" = false) ->
  (forall j, done j = false) ->
  (forall j, range_order j ≡ₚ elements (ExtensionsParsed (Opts g))) ->
  (0 <= errorCount g)%Z ->
  (errorCount g
   + Z.of_nat (List.length (WordScan g done range_order 0 (file_lines wordlist)))
   <= int_max)%Z ->
  exists g' : Gobuster,
    getWordlist stdin wordlist g = (g', inr (file_lines wordlist))
    /\ let handled :=
         handleAll plugin
           (WordScan g' done range_order 0 (file_lines wordlist)) g' in
       let g'' := errorWorker (errorsOf (snd handled)) (fst handled) in
       (requestsIssued g'' + (errorCount g'' - errorCount g)
        = requestsExpected g'')%Z
       /\ (0 <= requestsIssued g'' <= requestsExpected g'')%Z.
Proof.
  intros Hw Hopen Hscan Hseek Hhash Hdone Hrange He0 Hmax.
  assert (Hmax' : (Z.of_nat (List.length (WordScan g done range_order 0
                                            (file_lines wordlist)))
                   <= int_max)%Z) by lia.
  destruct (getWordlist_exact g stdin wordlist done range_order Hw Hopen Hscan
              Hseek Hhash Hdone Hrange Hmax')
    as (g' & HG & HO & Hi & He & Hx).
  exists g'. split; [exact HG|].
  rewrite (WordScan_Opts g' g done range_order (file_lines wordlist) HO 0).
  set (targets := WordScan g done range_order 0 (file_lines wordlist)) in *.
  intros handled g''.
  pose proof (length_errorsOf_handleAll plugin targets g') as Hlen.
  fold handled in Hlen.
  destruct (handleAll_counters plugin targets g') as [H1 H2]; [lia|lia|].
  fold handled in H1, H2.
  destruct (errorWorker_counters (errorsOf (snd handled)) (fst handled))
    as [H3 H4]; [lia|lia|lia|].
  fold g'' in H3, H4.
  assert (Hexp : requestsExpected g'' = Z.of_nat (List.length targets)).
  { unfold g''. rewrite requestsExpected_errorWorker. unfold handled.
    rewrite requestsExpected_handleAll. exact Hx. }
  rewrite Hexp. split; lia.
Qed.

Lemma wordlist_run_accounted_witness :
  let plugin := GobusterDir transport_status_only url.Parse example_uuids in
  String.eqb (Wordlist (Opts ext_run)) "-" = false
  /\ file_open_err example_wordlist = None
  /\ file_scan_err example_wordlist = None
  /\ file_seek_err example_wordlist = None
  /\ (forall text, text ∈ file_lines example_wordlist ->
        strings_HasPrefix (strings_TrimSpace text) "#" = false)
  /\ (forall j, never_done j = false)
  /\ (forall j, example_range_order j
                ≡ₚ elements (ExtensionsParsed (Opts ext_run)))
  /\ (0 <= errorCount ext_run)%Z
  /\ (errorCount ext_run
      + Z.of_nat (List.length (WordScan ext_run never_done example_range_order
                                 0 (file_lines example_wordlist)))
      <= int_max)%Z
  /\ exists g' : Gobuster,
       getWordlist [] example_wordlist ext_run
       = (g', inr (file_lines example_wordlist))
       /\ let handled :=
            handleAll plugin
              (WordScan g' never_done example_range_order 0
                 (file_lines example_wordlist)) g' in
          let g'' := errorWorker (errorsOf (snd handled)) (fst handled) in
          (requestsIssued g'' + (errorCount g'' - errorCount ext_run)
           = requestsExpected g'')%Z
          /\ (0 <= requestsIssued g'' <= requestsExpected g'')%Z.
Proof.
  intros plugin.
  assert (Hhash : forall text, text ∈ file_lines example_wordlist ->
            strings_HasPrefix (strings_TrimSpace text) "#" = false).
  { intros text Ht. cbn [file_lines example_wordlist] in Ht.
    repeat (apply elem_of_cons in Ht as [->|Ht]; [vm_compute; reflexivity|]).
    apply elem_of_nil in Ht. destruct Ht. }
  assert (He0 : (0 <= errorCount ext_run)%Z) by (vm_compute; discriminate).
  assert (Hmax : (errorCount ext_run
                  + Z.of_nat (List.length (WordScan ext_run never_done
                       example_range_order 0 (file_lines example_wordlist)))
                  <= int_max)%Z) by (vm_compute; discriminate).
  repeat (split; [first [reflexivity | exact Hhash | exact He0 | exact Hmax]|]).
  apply (wordlist_run_accounted plugin ext_run [] example_wordlist
           never_done example_range_order);
    first [reflexivity | exact Hhash | exact He0 | exact Hmax].
Defined.
